(** * DeformingPlateDataset: a shallow embedding and its verified properties

    Source: [physicsnemo/datapipes/gnn/deforming_plate_dataset.py].

    Conventions of the embedding.
    - Python integers are [Z]; [//] and [%] are [Z.div] and [Z.modulo]
      (both floor towards minus infinity, as in Python).
    - Floating-point tensors are lists of real numbers: float32 arithmetic is
      idealised as exact arithmetic over [R], so NaN, infinities and rounding
      are outside the model.
    - Exceptions are values of [exn]; a fallible computation returns
      [result A].
    - A rank-2 tensor is a list of rows, a rank-3 tensor a list of rank-2
      tensors; the trailing axis is the row.  A tensor without rows keeps no
      shape in this representation.
    - An object that is updated in place (a graph, the lists of the dataset)
      is passed through: a method returns the new state with its result.  The
      state after an exception is not modelled.
    - The iterator over the records of a split and the two statistics files
      are arguments of the constructor ([files]); writing the statistics
      files is left out.
    - Of DGL the model keeps the edge list, the number of nodes and the
      feature frames of a graph; [dgl.to_bidirected] follows the library's
      documentation. *)

From Stdlib Require Import List ZArith Reals Lra Lia Bool.
From Stdlib Require String.
Import String.StringSyntax.
Delimit Scope string_scope with string.
Import ListNotations.

(** ** Exceptions *)

Inductive exn : Set :=
| AssertionError
| ValueError
| IndexError
| ZeroDivisionError
| RuntimeError
| TypeError
| KeyError
| DGLError
| OutOfRangeError.

Inductive result (A : Type) : Type :=
| Ok (a : A)
| Raise (e : exn).

Arguments Ok {A} a.
Arguments Raise {A} e.

Definition bind {A B : Type} (m : result A) (k : A -> result B) : result B :=
  match m with
  | Ok a => k a
  | Raise e => Raise e
  end.

Notation "x <- m ;; k" := (bind m (fun x => k))
  (at level 61, m at next level, right associativity).
Notation "' p <- m ;; k" := (bind m (fun p => k))
  (at level 61, p pattern, m at next level, right associativity).

(** [[f(x) for x in xs]] with a fallible [f]: the first exception ends the
    traversal. *)
Fixpoint mapM {A B : Type} (f : A -> result B) (xs : list A)
  : result (list B) :=
  match xs with
  | [] => Ok []
  | x :: xs' =>
      y <- f x ;;
      ys <- mapM f xs' ;;
      Ok (y :: ys)
  end.

(** ** Python sequences *)

Module Py.

(** [len(xs)]. *)
Definition len {A : Type} (xs : list A) : Z := Z.of_nat (length xs).

(** [xs[i]] on a list, a numpy array or a tensor: a negative index counts
    from the end, an index outside [[-len, len)] raises [IndexError]. *)
Definition index {A : Type} (xs : list A) (i : Z) : result A :=
  let j := if (i <? 0)%Z then (i + len xs)%Z else i in
  if ((0 <=? j) && (j <? len xs))%Z%bool then
    match nth_error xs (Z.to_nat j) with
    | Some a => Ok a
    | None => Raise IndexError
    end
  else Raise IndexError.

(** [xs[i] = v]. *)
Fixpoint update {A : Type} (xs : list A) (n : nat) (v : A) : list A :=
  match xs, n with
  | [], _ => []
  | _ :: xs', O => v :: xs'
  | x :: xs', S n' => x :: update xs' n' v
  end.

Definition set_index {A : Type} (xs : list A) (i : Z) (v : A)
  : result (list A) :=
  let j := if (i <? 0)%Z then (i + len xs)%Z else i in
  if ((0 <=? j) && (j <? len xs))%Z%bool then Ok (update xs (Z.to_nat j) v)
  else Raise IndexError.

(** The start or stop of a slice, clamped into [[0, len]]. *)
Definition clamp {A : Type} (xs : list A) (i : Z) : nat :=
  let j := if (i <? 0)%Z then (i + len xs)%Z else i in
  Z.to_nat (Z.min (Z.max 0 j) (len xs)).

(** [xs[lo:hi]]. *)
Definition slice {A : Type} (xs : list A) (lo hi : Z) : list A :=
  skipn (clamp xs lo) (firstn (clamp xs hi) xs).

(** [xs[:hi]]. *)
Definition slice_to {A : Type} (xs : list A) (hi : Z) : list A :=
  slice xs 0 hi.

(** [xs[lo:]]. *)
Definition slice_from {A : Type} (xs : list A) (lo : Z) : list A :=
  skipn (clamp xs lo) xs.

(** [range(n)]. *)
Definition range (n : Z) : list Z := map Z.of_nat (seq 0 (Z.to_nat n)).

(** [for i in idxs: s = body(i, s)], the first exception ending the loop. *)
Fixpoint for_loop {S : Type} (idxs : list Z) (body : Z -> S -> result S)
         (s : S) : result S :=
  match idxs with
  | [] => Ok s
  | i :: rest => s' <- body i s ;; for_loop rest body s'
  end.

(** [a // b] and [a % b]. *)
Definition floordiv (a b : Z) : result Z :=
  if (b =? 0)%Z then Raise ZeroDivisionError else Ok (a / b)%Z.

Definition modulo (a b : Z) : result Z :=
  if (b =? 0)%Z then Raise ZeroDivisionError else Ok (a mod b)%Z.

End Py.

(** ** The tensor operations of torch and numpy that the dataset uses *)

Module Torch.

Local Open Scope R_scope.

Definition vec := list R.
Definition tensor2 := list vec.
Definition tensor3 := list tensor2.

(** Element types. *)
Inductive dtype : Set := Float32 | UInt8 | Int8 | Int16 | Int32 | Int64 | Bool_.

(** A value together with the element type it was created with. *)
Record typed (T : Type) : Type := mkTyped { dtype_of : dtype; data : T }.

Arguments mkTyped {T} _ _.
Arguments dtype_of {T} _.
Arguments data {T} _.

Fixpoint zip_with {A B C : Type} (f : A -> B -> C)
         (xs : list A) (ys : list B) : list C :=
  match xs, ys with
  | x :: xs', y :: ys' => f x y :: zip_with f xs' ys'
  | _, _ => []
  end.

(** An element-wise binary operation on two 1-D tensors under the
    broadcasting rule: equal sizes, or one of the two has size 1. *)
Definition broadcast (f : R -> R -> R) (a b : vec) : result vec :=
  if Nat.eqb (length a) (length b) then Ok (zip_with f a b)
  else match a, b with
       | [x], _ => Ok (map (f x) b)
       | _, [y] => Ok (map (fun x => f x y) a)
       | _, _ => Raise RuntimeError
       end.

(** Tensors of any rank with a floating element type: a 1-D tensor is a
    row, a tensor of rank [n+1] is a list of tensors of rank [n].  A tensor
    without rows has lost its shape in this representation; it is given the
    trailing size 0. *)
Class Tensor (T : Type) : Type := {
  size_last : T -> nat;
  rows : T -> list vec;
  map_rows : (vec -> result vec) -> T -> result T
}.

#[export] Instance Tensor_vec : Tensor (list R) := {
  size_last v := length v;
  rows v := [v];
  map_rows f v := f v
}.

#[export] Instance Tensor_list (T : Type) `{Tensor T} : Tensor (list T) := {
  size_last x := match x with t :: _ => size_last t | [] => 0%nat end;
  rows x := flat_map rows x;
  map_rows f x := mapM (map_rows f) x
}.

(** All rows have the trailing size: the tensor is not ragged. *)
Definition rectangular {T : Type} `{Tensor T} (x : T) : Prop :=
  Forall (fun r => length r = size_last x) (rows x).

(** The laws of [map_rows]: it succeeds when the function does on every row,
    and a function that undoes [f] on the rows undoes [map_rows f]. *)
Class TensorLaws (T : Type) `{Tensor T} : Prop := {
  map_rows_ok : forall f (x : T),
    (forall r, In r (rows x) -> exists r', f r = Ok r') ->
    exists y, map_rows f x = Ok y;
  map_rows_undo : forall f g (x y : T),
    map_rows f x = Ok y ->
    (forall r r', In r (rows x) -> f r = Ok r' -> g r' = Ok r) ->
    map_rows g y = Ok x
}.

(** [m.expand(x.size())] of a 1-D tensor [m], seen from one row of [x]: the
    size of [m] is the row's, or 1. *)
Definition expand (m : vec) (n : nat) : result vec :=
  if Nat.eqb (length m) n then Ok m
  else match m with
       | [c] => Ok (repeat c n)
       | _ => Raise RuntimeError
       end.

(** [torch.square]. *)
Definition square (v : vec) : vec := map (fun x => x * x) v.

(** [torch.sqrt].  (On a negative number [R_sqrt.sqrt] is 0, where the
    library gives NaN.) *)
Definition sqrt (v : vec) : vec := map R_sqrt.sqrt v.

(** Sum of the rows of a rank-2 tensor (all rows have the trailing size). *)
Definition sum0 (x : tensor2) : vec :=
  match x with
  | [] => []
  | r :: x' => fold_left (zip_with Rplus) x' r
  end.

(** [torch.mean(x, dim=0)] of a rank-2 tensor: the sum of the rows over
    their number. *)
Definition mean0 (x : tensor2) : vec :=
  map (fun s => s / INR (length x)) (sum0 x).

(** [torch.mean(x, dim=(0, 1))] of a rank-3 tensor: the mean over all rows
    of all slices. *)
Definition mean01 (x : tensor3) : vec := mean0 (concat x).

(** [v / n] for a tensor [v] and a Python integer [n]. *)
Definition div_int (v : vec) (n : Z) : vec := map (fun x => x / IZR n) v.

(** [torch.linalg.norm(x, dim=-1, keepdim=True)]. *)
Definition norm (r : vec) : R :=
  R_sqrt.sqrt (fold_right Rplus 0 (square r)).

Definition norm_keepdim (x : tensor2) : tensor2 :=
  map (fun r => [norm r]) x.

(** [torch.cat((a, b), dim=1)] of two rank-2 tensors: rows are joined; the
    numbers of rows must agree. *)
Fixpoint cat1 (a b : tensor2) : result tensor2 :=
  match a, b with
  | [], [] => Ok []
  | r :: a', s :: b' => y <- cat1 a' b' ;; Ok ((r ++ s) :: y)
  | _, _ => Raise RuntimeError
  end.

(** [F.one_hot(v, num_classes)] of one class index. *)
Definition one_hot_row (num_classes : nat) (c : Z) : result (list Z) :=
  if ((0 <=? c) && (c <? Z.of_nat num_classes))%Z%bool then
    Ok (map (fun k => if (Z.of_nat k =? c)%Z then 1%Z else 0%Z)
            (seq 0 num_classes))
  else Raise RuntimeError.

Fixpoint one_hot (num_classes : nat) (v : list Z) : result (list (list Z)) :=
  match v with
  | [] => Ok []
  | c :: v' =>
      r <- one_hot_row num_classes c ;;
      y <- one_hot num_classes v' ;;
      Ok (r :: y)
  end.

(** A Python number or a tensor: what a statistics accumulator holds. *)
Inductive pyval : Type :=
| PyInt (z : Z)
| PyTensor (v : vec).

(** [a += b] for an accumulator [a] and a 1-D tensor [b]: a Python integer
    is added to every element; a tensor is updated in place, so [b] must
    have its size, or size 1. *)
Definition iadd (a : pyval) (b : vec) : result pyval :=
  match a with
  | PyInt z => Ok (PyTensor (map (fun x => IZR z + x) b))
  | PyTensor v =>
      if Nat.eqb (length b) (length v) then Ok (PyTensor (zip_with Rplus v b))
      else match b with
           | [y] => Ok (PyTensor (map (fun x => x + y) v))
           | _ => Raise RuntimeError
           end
  end.

(** [torch.sqrt(meansqr - torch.square(mean))]: [torch.square] accepts
    tensors only. *)
Definition std_of (meansqr mean : pyval) : result vec :=
  match mean with
  | PyInt _ => Raise TypeError
  | PyTensor m =>
      match meansqr with
      | PyInt z => Ok (sqrt (map (fun x => IZR z - x) (square m)))
      | PyTensor q => d <- broadcast Rminus q (square m) ;; Ok (sqrt d)
      end
  end.

(** An integer tensor read as a floating one (type promotion in [cat]). *)
Definition to_float (x : list (list Z)) : tensor2 := map (map IZR) x.

(** Conversion of an integer to [uint8]: wrap-around modulo 2^8. *)
Definition to_uint8 (z : Z) : Z := (z mod 256)%Z.

(** Conversion to a signed type of [w] bits: two's complement. *)
Definition to_signed (w : Z) (z : Z) : Z :=
  ((z + 2 ^ (w - 1)) mod 2 ^ w - 2 ^ (w - 1))%Z.

(** The value a Python integer takes when written into an integer tensor of
    the given type. *)
Definition cast_int (d : dtype) (z : Z) : Z :=
  match d with
  | UInt8 => to_uint8 z
  | Int8 => to_signed 8 z
  | Int16 => to_signed 16 z
  | Int32 => to_signed 32 z
  | Int64 => to_signed 64 z
  | Bool_ => if (z =? 0)%Z then 0%Z else 1%Z
  | Float32 => z
  end.

Definition is_integer (d : dtype) : bool :=
  match d with
  | UInt8 | Int8 | Int16 | Int32 | Int64 => true
  | _ => false
  end.

End Torch.

(** ** The graph library (DGL), as far as the dataset relies on it *)

Module DGL.

Import Torch.
Local Open Scope Z_scope.

Definition edge : Set := (Z * Z)%type.

(** A graph: its directed edges in edge-id order, the number of nodes, and
    the feature frames [edata] and [ndata] under the keys the dataset
    writes. *)
Record graph : Type := mkGraph {
  edges : list edge;
  nnodes : Z;
  edata_x : option tensor2;
  ndata_x : option tensor2;
  ndata_y : option tensor2;
  ndata_mesh_pos : option tensor2
}.

Definition edge_eq_dec (e f : edge) : {e = f} + {e <> f}.
Proof. decide equality; apply Z.eq_dec. Defined.

(** One more than the largest node id of an edge list. *)
Definition count_nodes (es : list edge) : Z :=
  fold_right (fun e m => Z.max m (Z.max (fst e + 1) (snd e + 1))) 0 es.

(** [dgl.graph((src, dst), idtype)]: one edge per position; node ids are
    non-negative. *)
Definition graph_of (src dst : list Z) : result graph :=
  if negb (Nat.eqb (length src) (length dst)) then Raise DGLError
  else if forallb (fun u => 0 <=? u) (src ++ dst) then
    Ok (mkGraph (combine src dst) (count_nodes (combine src dst))
                None None None None)
  else Raise DGLError.

Definition swap (e : edge) : edge := (snd e, fst e).

(** [dgl.add_reverse_edges]: every edge followed by all reversed edges. *)
Definition add_reverse_edges (es : list edge) : list edge :=
  es ++ map swap es.

(** [dgl.to_simple]: parallel edges collapse into one.  The order of the
    remaining edges is the library's choice; nothing below depends on it. *)
Definition to_simple (es : list edge) : list edge := nodup edge_eq_dec es.

(** [dgl.to_bidirected]: reverse edges are added, then the graph is made
    simple; features are not carried over. *)
Definition to_bidirected (g : graph) : graph :=
  mkGraph (to_simple (add_reverse_edges (edges g))) (nnodes g)
          None None None None.

(** [graph.edges()]: the source and the destination ids. *)
Definition edges_of (g : graph) : list Z * list Z :=
  (map fst (edges g), map snd (edges g)).

(** [graph.edata["x"] = t]: one row per edge. *)
Definition set_edata_x (g : graph) (t : tensor2) : result graph :=
  if Nat.eqb (length t) (length (edges g)) then
    Ok (mkGraph (edges g) (nnodes g) (Some t)
                (ndata_x g) (ndata_y g) (ndata_mesh_pos g))
  else Raise DGLError.

(** [graph.edata["x"]]. *)
Definition get_edata_x (g : graph) : result tensor2 :=
  match edata_x g with Some t => Ok t | None => Raise KeyError end.

(** [graph.ndata[key] = t]: one row per node. *)
Definition set_ndata_x (g : graph) (t : tensor2) : result graph :=
  if Py.len t =? nnodes g then
    Ok (mkGraph (edges g) (nnodes g) (edata_x g)
                (Some t) (ndata_y g) (ndata_mesh_pos g))
  else Raise DGLError.

Definition set_ndata_y (g : graph) (t : tensor2) : result graph :=
  if Py.len t =? nnodes g then
    Ok (mkGraph (edges g) (nnodes g) (edata_x g)
                (ndata_x g) (Some t) (ndata_mesh_pos g))
  else Raise DGLError.

Definition set_ndata_mesh_pos (g : graph) (t : tensor2) : result graph :=
  if Py.len t =? nnodes g then
    Ok (mkGraph (edges g) (nnodes g) (edata_x g)
                (ndata_x g) (ndata_y g) (Some t))
  else Raise DGLError.

End DGL.

(** ** The static methods of [DeformingPlateDataset] *)

Module DeformingPlateDataset.

Import Torch DGL.
Local Open Scope Z_scope.

(** [edge_indices]: the six vertex pairs of a tetrahedron. *)
Definition edge_indices : list (Z * Z) :=
  [(0, 1); (0, 2); (0, 3); (1, 2); (1, 3); (2, 3)].

(** [cell_to_adj(cells)]: the adjacency in COO format.  [cells] is the
    array of cells, one row of node ids per cell. *)
Definition cell_to_adj (cells : list (list Z)) : result (list Z * list Z) :=
  let num_cells := Py.len cells in
  src <- mapM (fun ip => c <- Py.index cells (fst ip) ;;
                         Py.index c (fst (snd ip)))
              (list_prod (Py.range num_cells) edge_indices) ;;
  dst <- mapM (fun ip => c <- Py.index cells (fst ip) ;;
                         Py.index c (snd (snd ip)))
              (list_prod (Py.range num_cells) edge_indices) ;;
  Ok (src, dst).

(** [create_graph(src, dst)]. *)
Definition create_graph (src dst : list Z) : result graph :=
  g <- graph_of src dst ;;
  Ok (to_bidirected g).

(** [add_edge_features(graph, pos)]: relative displacement and its norm. *)
Definition add_edge_features (g : graph) (pos : tensor2) : result graph :=
  let '(row, col) := edges_of g in
  pr <- mapM (Py.index pos) row ;;
  pc <- mapM (Py.index pos) col ;;
  let disp := zip_with (zip_with Rminus) pr pc in
  let disp_norm := norm_keepdim disp in
  x <- cat1 disp disp_norm ;;
  set_edata_x g x.

(** [normalize_node(invar, mu, std)]. *)
Definition normalize_node {T : Type} `{Tensor T} (invar : T) (mu std : vec)
  : result T :=
  if negb (Nat.eqb (size_last invar) (length mu))
     || negb (Nat.eqb (size_last invar) (length std))
  then Raise AssertionError
  else
    map_rows (fun r =>
                m <- expand mu (length r) ;;
                s <- expand std (length r) ;;
                Ok (zip_with Rdiv (zip_with Rminus r m) s))
             invar.

(** [normalize_edge(graph, mu, std)]. *)
Definition normalize_edge (g : graph) (mu std : vec) : result tensor2 :=
  x <- get_edata_x g ;;
  if negb (Nat.eqb (size_last x) (length mu))
     || negb (Nat.eqb (size_last x) (length std))
  then Raise AssertionError
  else
    map_rows (fun r => d <- broadcast Rminus r mu ;; broadcast Rdiv d std) x.

(** [denormalize(invar, mu, std)]. *)
Definition denormalize {T : Type} `{Tensor T} (invar : T) (mu std : vec)
  : result T :=
  map_rows (fun r => p <- broadcast Rmult r std ;; broadcast Rplus p mu) invar.

(** The mapping of [_one_hot_encode], in the order of its items. *)
Definition mapping : list (Z * Z) := [(0, 0); (1, 1); (3, 2)].

(** [_one_hot_encode(node_type)].  [node_type] holds one code per node; its
    trailing axis of size 1, which [torch.squeeze] removes, is not
    represented.  [mapped] has the element type of [node_type], so the fill
    value [-1] and the scalars compared with are cast to it. *)
Definition _one_hot_encode (node_type : typed (list Z))
  : result (list (list Z)) :=
  let d := dtype_of node_type in
  let mapped := map (fun _ => cast_int d (-1)) (data node_type) in
  let mapped :=
    fold_left
      (fun mapped kv =>
         zip_with (fun c old => if c =? cast_int d (fst kv)
                                then cast_int d (snd kv) else old)
                  (data node_type) mapped)
      mapping mapped in
  if existsb (fun m => m =? cast_int d (-1)) mapped
  then Raise ValueError
  else one_hot 3 mapped.

(** [_drop_last(invar)]. *)
Definition _drop_last (invar : tensor3) : typed tensor3 :=
  mkTyped Float32 (Py.slice invar 0 (-1)).

(** [_push_forward(invar)]. *)
Definition _push_forward (invar : tensor3) : typed tensor3 :=
  mkTyped Float32 (Py.slice_from invar 1).

(** [_push_forward_diff(invar)]. *)
Definition _push_forward_diff (invar : tensor3) : typed tensor3 :=
  mkTyped Float32
    (zip_with (zip_with (zip_with Rminus))
              (Py.slice_from invar 1) (Py.slice invar 0 (-1))).

(** [_get_rollout_mask(node_type)]. *)
Definition _get_rollout_mask (node_type : typed (list Z)) : list bool :=
  map (fun c => (c =? 0) || (c =? 0 + 1)) (data node_type).

(** [_add_noise(features, targets, noise_std, noise_mask)]: disabled in the
    source, it returns its first two arguments. *)
Definition _add_noise (features targets : tensor3) (noise_std : R)
           (noise_mask : list bool) : tensor3 * tensor3 :=
  (features, targets).


(** ** The data of a dataset *)

(** One decoded trajectory ([data_np]): every field is an array over the
    time steps.  [t_node_type] holds one code per node and step; its
    trailing axis of size 1 is not represented. *)
Record trajectory : Type := mkTrajectory {
  t_cells : list (list (list Z));
  t_mesh_pos : tensor3;
  t_node_type : list (list Z);
  t_world_pos : tensor3;
  t_stress : tensor3
}.

Record edge_stats_t : Type := mkEdgeStats {
  edge_mean : vec;
  edge_std : vec
}.

Record node_stats_t : Type := mkNodeStats {
  world_pos_mean : vec;
  world_pos_std : vec;
  world_pos_diff_mean : vec;
  world_pos_diff_std : vec;
  stress_mean : vec;
  stress_std : vec
}.

(** The files the constructor reads: the records of the split, in the order
    the iterator of [_load_tf_data] yields them, and the two statistics
    files as [load_json] returns them. *)
Record files : Type := mkFiles {
  tfrecord : list trajectory;
  edge_stats_json : result edge_stats_t;
  node_stats_json : result node_stats_t
}.

(** [features] and [targets] of one trajectory. *)
Record features_t : Type := mkFeatures {
  features_world_pos : tensor3
}.

Record targets_t : Type := mkTargets {
  targets_world_pos : tensor3;
  targets_stress : tensor3
}.

(** The attributes of a constructed dataset ([self]); [length_] is
    [self.length]. *)
Record dataset : Type := mkDataset {
  split : String.string;
  num_samples : Z;
  num_steps : Z;
  noise_std : R;
  length_ : Z;
  graphs : list graph;
  cells : list (list (list Z));
  node_type : list (list (list Z));
  rollout_mask : list (list bool);
  mesh_pos : list tensor2;
  edge_stats : edge_stats_t;
  node_features : list features_t;
  node_targets : list targets_t;
  node_stats : node_stats_t
}.

(** What [__getitem__] returns: the graph on the train split, a triple
    otherwise. *)
Inductive item : Type :=
| TrainItem (g : graph)
| EvalItem (g : graph) (cells : list (list Z)) (rollout_mask : list bool).

(** ** The instance methods *)

(** [dataset_iterator.get_next()] of a one-shot iterator. *)
Definition get_next (it : list trajectory)
  : result (trajectory * list trajectory) :=
  match it with
  | [] => Raise OutOfRangeError
  | d :: it' => Ok (d, it')
  end.

(** [{key: arr[:num_steps].numpy() for key, arr in data_np.items()}]. *)
Definition truncate (num_steps : Z) (d : trajectory) : trajectory :=
  mkTrajectory (Py.slice_to (t_cells d) num_steps)
               (Py.slice_to (t_mesh_pos d) num_steps)
               (Py.slice_to (t_node_type d) num_steps)
               (Py.slice_to (t_world_pos d) num_steps)
               (Py.slice_to (t_stress d) num_steps).

(** The lists the first loop of [__init__] appends to. *)
Record graph_phase : Type := mkGraphPhase {
  gp_graphs : list graph;
  gp_cells : list (list (list Z));
  gp_node_type : list (list (list Z));
  gp_noise_mask : list (list bool);
  gp_rollout_mask : list (list bool);
  gp_mesh_pos : list tensor2
}.

(** The body of the first loop of [__init__]: the graph of one trajectory
    with its edge features, and the node types. *)
Definition graph_step (split : String.string) (num_steps : Z)
           (st : list trajectory * graph_phase)
  : result (list trajectory * graph_phase) :=
  let '(it, gp) := st in
  '(data_np, it) <- get_next it ;;
  let data_np := truncate num_steps data_np in
  cells0 <- Py.index (t_cells data_np) 0 ;;
  '(src, dst) <- cell_to_adj cells0 ;;
  graph <- create_graph src dst ;;
  mesh_pos0 <- Py.index (t_mesh_pos data_np) 0 ;;
  graph <- add_edge_features graph mesh_pos0 ;;
  node_type0 <- Py.index (t_node_type data_np) 0 ;;
  let node_type := mkTyped UInt8 (map to_uint8 node_type0) in
  one_hot <- _one_hot_encode node_type ;;
  let noise := map (fun c => c =? 0) (data node_type) in
  if negb (String.eqb split "train") then
    Ok (it, mkGraphPhase (gp_graphs gp ++ [graph])
                         (gp_cells gp ++ [cells0])
                         (gp_node_type gp ++ [one_hot])
                         (gp_noise_mask gp ++ [noise])
                         (gp_rollout_mask gp ++ [_get_rollout_mask node_type])
                         (gp_mesh_pos gp ++ [mesh_pos0]))
  else
    Ok (it, mkGraphPhase (gp_graphs gp ++ [graph])
                         (gp_cells gp)
                         (gp_node_type gp ++ [one_hot])
                         (gp_noise_mask gp ++ [noise])
                         (gp_rollout_mask gp)
                         (gp_mesh_pos gp)).

(** [_get_edge_stats(self)], on the graphs built so far.  Writing the file
    [edge_stats.json] is outside the model. *)
Definition _get_edge_stats (num_samples : Z) (graphs : list graph)
  : result edge_stats_t :=
  '(mean, meansqr) <-
    Py.for_loop (Py.range num_samples)
      (fun i (st : pyval * pyval) =>
         let '(mean, meansqr) := st in
         g <- Py.index graphs i ;;
         x <- get_edata_x g ;;
         mean <- iadd mean (div_int (mean0 x) num_samples) ;;
         g <- Py.index graphs i ;;
         x <- get_edata_x g ;;
         meansqr <- iadd meansqr (div_int (mean0 (map square x)) num_samples) ;;
         Ok (mean, meansqr))
      (PyInt 0, PyInt 0) ;;
  std <- std_of meansqr mean ;;
  match mean with
  | PyTensor m => Ok (mkEdgeStats m std)
  | PyInt _ => Raise TypeError
  end.

(** The six accumulators of [_get_node_stats]. *)
Record node_acc : Type := mkNodeAcc {
  acc_world_pos_mean : pyval;
  acc_world_pos_meansqr : pyval;
  acc_world_pos_diff_mean : pyval;
  acc_world_pos_diff_meansqr : pyval;
  acc_stress_mean : pyval;
  acc_stress_meansqr : pyval
}.

Definition tensor_of (a : pyval) : result vec :=
  match a with
  | PyTensor v => Ok v
  | PyInt _ => Raise TypeError
  end.

(** [_get_node_stats(self)].  Writing [node_stats.json] is outside the
    model. *)
Definition _get_node_stats (num_samples : Z)
           (node_features : list features_t) (node_targets : list targets_t)
  : result node_stats_t :=
  acc <-
    Py.for_loop (Py.range num_samples)
      (fun i (acc : node_acc) =>
         f <- Py.index node_features i ;;
         wm <- iadd (acc_world_pos_mean acc)
                    (div_int (mean01 (features_world_pos f)) num_samples) ;;
         f <- Py.index node_features i ;;
         wq <- iadd (acc_world_pos_meansqr acc)
                    (div_int (mean01 (map (map square) (features_world_pos f)))
                             num_samples) ;;
         t <- Py.index node_targets i ;;
         sm <- iadd (acc_stress_mean acc)
                    (div_int (mean01 (targets_stress t)) num_samples) ;;
         t <- Py.index node_targets i ;;
         sq <- iadd (acc_stress_meansqr acc)
                    (div_int (mean01 (map (map square) (targets_stress t)))
                             num_samples) ;;
         t <- Py.index node_targets i ;;
         dm <- iadd (acc_world_pos_diff_mean acc)
                    (div_int (mean01 (targets_world_pos t)) num_samples) ;;
         t <- Py.index node_targets i ;;
         dq <- iadd (acc_world_pos_diff_meansqr acc)
                    (div_int (mean01 (map (map square) (targets_world_pos t)))
                             num_samples) ;;
         Ok (mkNodeAcc wm wq dm dq sm sq))
      (mkNodeAcc (PyInt 0) (PyInt 0) (PyInt 0) (PyInt 0) (PyInt 0) (PyInt 0)) ;;
  world_pos_std <-
    std_of (acc_world_pos_meansqr acc) (acc_world_pos_mean acc) ;;
  stress_std <- std_of (acc_stress_meansqr acc) (acc_stress_mean acc) ;;
  world_pos_diff_std <-
    std_of (acc_world_pos_diff_meansqr acc) (acc_world_pos_diff_mean acc) ;;
  wm <- tensor_of (acc_world_pos_mean acc) ;;
  dm <- tensor_of (acc_world_pos_diff_mean acc) ;;
  sm <- tensor_of (acc_stress_mean acc) ;;
  Ok (mkNodeStats wm world_pos_std dm world_pos_diff_std sm stress_std).

(** The body of the loop of [__init__] that normalizes the edge features of
    graph [i] in place. *)
Definition normalize_edge_step (st : edge_stats_t) (i : Z)
           (graphs : list graph) : result (list graph) :=
  g <- Py.index graphs i ;;
  x <- normalize_edge g (edge_mean st) (edge_std st) ;;
  g <- Py.index graphs i ;;
  g <- set_edata_x g x ;;
  Py.set_index graphs i g.

(** The body of the second loop of [__init__]: the node features and
    targets of one trajectory. *)
Definition feature_step (split : String.string) (num_steps : Z) (noise_std : R)
           (noise_mask : list (list bool)) (i : Z)
           (st : list trajectory * (list features_t * list targets_t))
  : result (list trajectory * (list features_t * list targets_t)) :=
  let '(it, (node_features, node_targets)) := st in
  '(data_np, it) <- get_next it ;;
  let data_np := truncate num_steps data_np in
  let features := data (_drop_last (t_world_pos data_np)) in
  let targets := data (_push_forward_diff (t_world_pos data_np)) in
  let stress := data (_push_forward (t_stress data_np)) in
  if String.eqb split "train" then
    mask <- Py.index noise_mask i ;;
    let '(features, targets) := _add_noise features targets noise_std mask in
    Ok (it, (node_features ++ [mkFeatures features],
             node_targets ++ [mkTargets targets stress]))
  else
    Ok (it, (node_features ++ [mkFeatures features],
             node_targets ++ [mkTargets targets stress])).

(** The body of the loop of [__init__] that normalizes the node features
    and targets of trajectory [i] in place. *)
Definition normalize_node_step (st : node_stats_t) (i : Z)
           (ft : list features_t * list targets_t)
  : result (list features_t * list targets_t) :=
  let '(node_features, node_targets) := ft in
  f <- Py.index node_features i ;;
  w <- normalize_node (features_world_pos f)
                      (world_pos_mean st) (world_pos_std st) ;;
  node_features <- Py.set_index node_features i (mkFeatures w) ;;
  t <- Py.index node_targets i ;;
  d <- normalize_node (targets_world_pos t)
                      (world_pos_diff_mean st) (world_pos_diff_std st) ;;
  node_targets <- Py.set_index node_targets i (mkTargets d (targets_stress t)) ;;
  t <- Py.index node_targets i ;;
  s <- normalize_node (targets_stress t) (stress_mean st) (stress_std st) ;;
  node_targets <- Py.set_index node_targets i (mkTargets (targets_world_pos t) s) ;;
  Ok (node_features, node_targets).

(** [__init__(self, name, data_dir, split, num_samples, num_steps,
    noise_std, force_reload, verbose)].  [name], [force_reload] and [verbose]
    go to the base class only; the files under [data_dir] are [fs]. *)
Definition __init__ (fs : files) (split : String.string)
           (num_samples num_steps : Z) (noise_std : R) : result dataset :=
  let length := num_samples * (num_steps - 1) in
  (* create the graphs with edge features *)
  '(_, gp) <-
    Py.for_loop (Py.range num_samples)
      (fun _ st => graph_step split num_steps st)
      (tfrecord fs, mkGraphPhase [] [] [] [] [] []) ;;
  (* compute or load edge data stats *)
  edge_stats <-
    (if String.eqb split "train"
     then _get_edge_stats num_samples (gp_graphs gp)
     else edge_stats_json fs) ;;
  (* normalize edge features *)
  graphs <-
    Py.for_loop (Py.range num_samples) (normalize_edge_step edge_stats)
                (gp_graphs gp) ;;
  (* create the node features *)
  '(_, ft) <-
    Py.for_loop (Py.range num_samples)
      (feature_step split num_steps noise_std (gp_noise_mask gp))
      (tfrecord fs, ([], [])) ;;
  (* compute or load node data stats *)
  node_stats <-
    (if String.eqb split "train"
     then _get_node_stats num_samples (fst ft) (snd ft)
     else node_stats_json fs) ;;
  (* normalize node features *)
  ft <-
    Py.for_loop (Py.range num_samples) (normalize_node_step node_stats) ft ;;
  Ok (mkDataset split num_samples num_steps noise_std length
                graphs (gp_cells gp) (gp_node_type gp) (gp_rollout_mask gp)
                (gp_mesh_pos gp) edge_stats (fst ft) (snd ft) node_stats).

(** [__getitem__(self, idx)].  The graph of the trajectory is updated in
    place, so the dataset is part of the result. *)
Definition __getitem__ (self : dataset) (idx : Z) : result (item * dataset) :=
  gidx <- Py.floordiv idx (num_steps self - 1) ;;
  tidx <- Py.modulo idx (num_steps self - 1) ;;
  graph <- Py.index (graphs self) gidx ;;
  f <- Py.index (node_features self) gidx ;;
  world_pos <- Py.index (features_world_pos f) tidx ;;
  one_hot <- Py.index (node_type self) gidx ;;
  x <- cat1 world_pos (to_float one_hot) ;;
  t <- Py.index (node_targets self) gidx ;;
  diff <- Py.index (targets_world_pos t) tidx ;;
  t <- Py.index (node_targets self) gidx ;;
  stress <- Py.index (targets_stress t) tidx ;;
  y <- cat1 diff stress ;;
  graph <- set_ndata_x graph x ;;
  graph <- set_ndata_y graph y ;;
  if String.eqb (split self) "train" then
    graphs <- Py.set_index (graphs self) gidx graph ;;
    Ok (TrainItem graph,
        mkDataset (split self) (num_samples self) (num_steps self)
                  (noise_std self) (length_ self) graphs (cells self)
                  (node_type self) (rollout_mask self) (mesh_pos self)
                  (edge_stats self) (node_features self) (node_targets self)
                  (node_stats self))
  else
    mp <- Py.index (mesh_pos self) gidx ;;
    graph <- set_ndata_mesh_pos graph mp ;;
    c <- Py.index (cells self) gidx ;;
    m <- Py.index (rollout_mask self) gidx ;;
    graphs <- Py.set_index (graphs self) gidx graph ;;
    Ok (EvalItem graph c m,
        mkDataset (split self) (num_samples self) (num_steps self)
                  (noise_std self) (length_ self) graphs (cells self)
                  (node_type self) (rollout_mask self) (mesh_pos self)
                  (edge_stats self) (node_features self) (node_targets self)
                  (node_stats self)).

(** [__len__(self)]. *)
Definition __len__ (self : dataset) : Z := length_ self.

End DeformingPlateDataset.

(** * Specification-level definitions

    The vocabulary of the theorems: what the statistics, the constructor
    and the lookup are compared with, and a small data set. *)

Import Torch DGL DeformingPlateDataset.

(** ** Node-type encoding *)

(** The dense index of a raw code. *)
Definition category (c : Z) : Z :=
  (if c =? 0 then 0 else if c =? 1 then 1 else 2)%Z.

(** The one-hot vector of three categories with a one at index [k]. *)
Definition unit_row (k : Z) : list Z :=
  map (fun j => if (Z.of_nat j =? k)%Z then 1%Z else 0%Z) (seq 0 3).

(** ** Edge features and statistics *)

(** The feature of an edge between nodes at positions [pu] and [pv]. *)
Definition edge_feature (pu pv : vec) : vec :=
  zip_with Rminus pu pv ++ [norm (zip_with Rminus pu pv)].

(** Element-wise sum of [C]-channel vectors. *)
Definition vsum (C : nat) (ms : list vec) : vec :=
  fold_left (zip_with Rplus) ms (repeat 0%R C).

(** The statistic in the words of the specification: the sum over the
    trajectories of the per-trajectory means, divided by [num_samples]. *)
Definition weighted_mean (C : nat) (num_samples : Z) (ms : list vec) : vec :=
  div_int (vsum C ms) num_samples.

(** A tensor with at least one row, all rows of [C] channels. *)
Definition uniform_rows (C : nat) (x : tensor2) : Prop :=
  x <> [] /\ Forall (fun r => length r = C) x.

(** A tensor with at least one row, all of whose entries are [v]. *)
Definition constant_rows (C : nat) (v : R) (x : tensor2) : Prop :=
  x <> [] /\ Forall (eq (repeat v C)) x.

(** What an accumulator holds after the means [l] have been added. *)
Definition acc_val (C : nat) (n : Z) (l : list vec) : pyval :=
  match l with
  | [] => PyInt 0
  | _ => PyTensor (weighted_mean C n l)
  end.

(** The per-trajectory means and means of squares of the three node
    feature groups. *)
Definition world_pos_means (fs : list features_t) : list vec :=
  map (fun f => mean01 (features_world_pos f)) fs.

Definition world_pos_meansqrs (fs : list features_t) : list vec :=
  map (fun f => mean01 (map (map square) (features_world_pos f))) fs.

Definition diff_means (ts : list targets_t) : list vec :=
  map (fun t => mean01 (targets_world_pos t)) ts.

Definition diff_meansqrs (ts : list targets_t) : list vec :=
  map (fun t => mean01 (map (map square) (targets_world_pos t))) ts.

Definition stress_means (ts : list targets_t) : list vec :=
  map (fun t => mean01 (targets_stress t)) ts.

Definition stress_meansqrs (ts : list targets_t) : list vec :=
  map (fun t => mean01 (map (map square) (targets_stress t))) ts.

(** The standard deviation of a group from its per-trajectory means [ms]
    and means of squares [qs]. *)
Definition weighted_std (num_samples : Z) (C : nat) (ms qs : list vec)
  : vec :=
  sqrt (zip_with Rminus (weighted_mean C num_samples qs)
                 (square (weighted_mean C num_samples ms))).

(** ** The constructor, trajectory by trajectory *)

(** The graph of a decoded trajectory, with its raw edge features. *)
Definition traj_graph (d : trajectory) : result graph :=
  cells0 <- Py.index (t_cells d) 0 ;;
  '(src, dst) <- cell_to_adj cells0 ;;
  graph <- create_graph src dst ;;
  mesh_pos0 <- Py.index (t_mesh_pos d) 0 ;;
  add_edge_features graph mesh_pos0.

(** The node-type tensor of a decoded trajectory. *)
Definition traj_node_type (d : trajectory) : result (typed (list Z)) :=
  node_type0 <- Py.index (t_node_type d) 0 ;;
  Ok (mkTyped UInt8 (map to_uint8 node_type0)).

(** The lists of the graph phase, for the decoded trajectories [ds]. *)
Definition graph_phase_of (split : String.string) (ds : list trajectory)
           (gp : graph_phase) : Prop :=
  Forall2 (fun d G => traj_graph d = Ok G) ds (gp_graphs gp) /\
  Forall2 (fun d O => exists nt, traj_node_type d = Ok nt /\
                                 _one_hot_encode nt = Ok O)
          ds (gp_node_type gp) /\
  Forall2 (fun d M => exists nt, traj_node_type d = Ok nt /\
                                 M = map (fun c => (c =? 0)%Z) (data nt))
          ds (gp_noise_mask gp) /\
  if String.eqb split "train" then
    gp_cells gp = [] /\ gp_rollout_mask gp = [] /\ gp_mesh_pos gp = []
  else
    Forall2 (fun d c => Py.index (t_cells d) 0 = Ok c) ds (gp_cells gp) /\
    Forall2 (fun d M => exists nt, traj_node_type d = Ok nt /\
                                   M = _get_rollout_mask nt)
            ds (gp_rollout_mask gp) /\
    Forall2 (fun d p => Py.index (t_mesh_pos d) 0 = Ok p) ds (gp_mesh_pos gp).

(** Inversion of a successful [bind]. *)
Ltac bind_inv H :=
  match type of H with
  | bind ?m _ = Ok _ =>
      let E := fresh "E" in
      destruct m eqn:E; cbn [bind] in H; [|discriminate H]
  end.

(** The graph with its edge features normalized. *)
Definition normalized_graph (st : edge_stats_t) (g : graph) : result graph :=
  x <- normalize_edge g (edge_mean st) (edge_std st) ;;
  set_edata_x g x.

(** The raw features and targets of a decoded trajectory. *)
Definition raw_features (d : trajectory) : features_t :=
  mkFeatures (data (_drop_last (t_world_pos d))).

Definition raw_targets (d : trajectory) : targets_t :=
  mkTargets (data (_push_forward_diff (t_world_pos d)))
            (data (_push_forward (t_stress d))).

(** Features and targets normalized with the node statistics. *)
Definition normalized_features (st : node_stats_t) (f : features_t)
  : result features_t :=
  w <- normalize_node (features_world_pos f)
                      (world_pos_mean st) (world_pos_std st) ;;
  Ok (mkFeatures w).

Definition normalized_targets (st : node_stats_t) (t : targets_t)
  : result targets_t :=
  d <- normalize_node (targets_world_pos t)
                      (world_pos_diff_mean st) (world_pos_diff_std st) ;;
  s <- normalize_node (targets_stress t) (stress_mean st) (stress_std st) ;;
  Ok (mkTargets d s).

(** The two halves of [normalize_node_step]: the updates of
    [node_features] and of [node_targets]. *)
Definition features_step (st : node_stats_t) (i : Z) (nf : list features_t)
  : result (list features_t) :=
  f <- Py.index nf i ;;
  w <- normalize_node (features_world_pos f)
                      (world_pos_mean st) (world_pos_std st) ;;
  Py.set_index nf i (mkFeatures w).

Definition targets_step (st : node_stats_t) (i : Z) (nt : list targets_t)
  : result (list targets_t) :=
  t <- Py.index nt i ;;
  d <- normalize_node (targets_world_pos t)
                      (world_pos_diff_mean st) (world_pos_diff_std st) ;;
  nt <- Py.set_index nt i (mkTargets d (targets_stress t)) ;;
  t <- Py.index nt i ;;
  s <- normalize_node (targets_stress t) (stress_mean st) (stress_std st) ;;
  Py.set_index nt i (mkTargets (targets_world_pos t) s).

(** What [__init__] has established when it returns [self]: the attributes
    in terms of the decoded trajectories [ds] of the split. *)
Record built (fs : files) (split_ : String.string) (num_samples_ num_steps_ : Z)
       (self : dataset) : Prop := mkBuilt {
  built_source : (Z.to_nat num_samples_ <= length (tfrecord fs))%nat;
  built_split : split self = split_;
  built_num_samples : num_samples self = num_samples_;
  built_num_steps : num_steps self = num_steps_;
  built_length : length_ self = (num_samples_ * (num_steps_ - 1))%Z;
  built_graphs :
    exists gp,
      graph_phase_of split_
        (map (truncate num_steps_)
             (firstn (Z.to_nat num_samples_) (tfrecord fs))) gp /\
      cells self = gp_cells gp /\
      node_type self = gp_node_type gp /\
      rollout_mask self = gp_rollout_mask gp /\
      mesh_pos self = gp_mesh_pos gp /\
      Forall2 (fun g0 g => normalized_graph (edge_stats self) g0 = Ok g)
              (gp_graphs gp) (graphs self) /\
      (String.eqb split_ "train" = true ->
       _get_edge_stats num_samples_ (gp_graphs gp) = Ok (edge_stats self));
  built_features :
    Forall2 (fun d f => normalized_features (node_stats self) (raw_features d)
                        = Ok f)
            (map (truncate num_steps_)
                 (firstn (Z.to_nat num_samples_) (tfrecord fs)))
            (node_features self);
  built_targets :
    Forall2 (fun d t => normalized_targets (node_stats self) (raw_targets d)
                        = Ok t)
            (map (truncate num_steps_)
                 (firstn (Z.to_nat num_samples_) (tfrecord fs)))
            (node_targets self)
}.

(** ** Well-formed data and the invariant of a dataset *)

(** A decoded trajectory of [T] steps whose arrays have one row per node of
    its mesh at every step. *)
Definition regular (T : Z) (d : trajectory) : Prop :=
  exists G,
    traj_graph d = Ok G /\
    Py.len (t_world_pos d) = T /\
    Py.len (t_stress d) = T /\
    Forall (fun x => Py.len x = nnodes G) (t_world_pos d) /\
    Forall (fun x => Py.len x = nnodes G) (t_stress d) /\
    (forall c, Py.index (t_node_type d) 0 = Ok c -> Py.len c = nnodes G) /\
    (forall p, Py.index (t_mesh_pos d) 0 = Ok p -> Py.len p = nnodes G).

(** Trajectory [k] of the dataset can be assembled into samples. *)
Definition ready (self : dataset) (k : nat) : Prop :=
  exists G F Tg O,
    nth_error (graphs self) k = Some G /\
    nth_error (node_features self) k = Some F /\
    nth_error (node_targets self) k = Some Tg /\
    nth_error (node_type self) k = Some O /\
    Py.len O = nnodes G /\
    Py.len (features_world_pos F) = Z.max 0 (num_steps self - 1) /\
    Py.len (targets_world_pos Tg) = Z.max 0 (num_steps self - 1) /\
    Py.len (targets_stress Tg) = Z.max 0 (num_steps self - 1) /\
    Forall (fun x => Py.len x = nnodes G) (features_world_pos F) /\
    Forall (fun x => Py.len x = nnodes G) (targets_world_pos Tg) /\
    Forall (fun x => Py.len x = nnodes G) (targets_stress Tg) /\
    (String.eqb (split self) "train" = false ->
     exists M C Rm,
       nth_error (mesh_pos self) k = Some M /\ Py.len M = nnodes G /\
       nth_error (cells self) k = Some C /\
       nth_error (rollout_mask self) k = Some Rm).

(** The invariant of a dataset whose samples can all be assembled. *)
Record consistent (self : dataset) : Prop := mkConsistent {
  c_samples : (0 <= num_samples self)%Z;
  c_steps : (0 < num_samples self -> 0 <= num_steps self)%Z;
  c_length : length_ self = (num_samples self * (num_steps self - 1))%Z;
  c_graphs : Py.len (graphs self) = num_samples self;
  c_features : Py.len (node_features self) = num_samples self;
  c_targets : Py.len (node_targets self) = num_samples self;
  c_node_type : Py.len (node_type self) = num_samples self;
  c_eval : String.eqb (split self) "train" = false ->
           Py.len (mesh_pos self) = num_samples self /\
           Py.len (cells self) = num_samples self /\
           Py.len (rollout_mask self) = num_samples self;
  c_ready : forall k, (k < Z.to_nat (num_samples self))%nat -> ready self k
}.

Arguments c_samples {self} _.
Arguments c_steps {self} _ _.
Arguments c_length {self} _.
Arguments c_graphs {self} _.
Arguments c_features {self} _.
Arguments c_targets {self} _.
Arguments c_node_type {self} _.
Arguments c_eval {self} _ _.
Arguments c_ready {self} _ _ _.

(** ** Samples *)

(** The graph an item carries. *)
Definition item_graph (it : item) : graph :=
  match it with
  | TrainItem g => g
  | EvalItem g _ _ => g
  end.

(** The node input and target tensors of step [tidx] of trajectory [gidx]:
    the normalized position joined with the one-hot node type, and the
    normalized position difference joined with the normalized stress. *)
Definition sample_at (self : dataset) (gidx tidx : Z)
  : result (tensor2 * tensor2) :=
  f <- Py.index (node_features self) gidx ;;
  world_pos <- Py.index (features_world_pos f) tidx ;;
  one_hot <- Py.index (node_type self) gidx ;;
  x <- cat1 world_pos (to_float one_hot) ;;
  t <- Py.index (node_targets self) gidx ;;
  diff <- Py.index (targets_world_pos t) tidx ;;
  stress <- Py.index (targets_stress t) tidx ;;
  y <- cat1 diff stress ;;
  Ok (x, y).

(** A graph with the node data of a sample attached. *)
Definition with_ndata (g : graph) (x y : tensor2) (mp : option tensor2)
  : graph :=
  mkGraph (edges g) (nnodes g) (edata_x g) (Some x) (Some y) mp.

(** The dataset after the graph of trajectory [k] has been replaced. *)
Definition with_graph (self : dataset) (k : nat) (g : graph) : dataset :=
  mkDataset (split self) (num_samples self) (num_steps self)
            (noise_std self) (length_ self)
            (Py.update (graphs self) k g) (cells self)
            (node_type self) (rollout_mask self) (mesh_pos self)
            (edge_stats self) (node_features self) (node_targets self)
            (node_stats self).

(** The decoded trajectories the constructor reads. *)
Definition decoded (fs : files) (num_samples num_steps : Z) : list trajectory :=
  map (truncate num_steps) (firstn (Z.to_nat num_samples) (tfrecord fs)).


(** ** A small data set *)

(** One degenerate tetrahedron on three nodes. *)
Definition example_cells : list (list Z) := [[0; 1; 2; 2]]%Z.

Definition example_mesh_pos : tensor2 :=
  [[0; 0; 0]; [1; 0; 0]; [0; 1; 0]]%R.

Definition example_node_type : list Z := [0; 1; 3]%Z.

Definition example_world_pos (v : R) : tensor2 :=
  [[v; 0; 0]; [1; v; 0]; [0; 1; v]]%R.

Definition example_stress (v : R) : tensor2 := [[v]; [v]; [v]].

(** A trajectory with one step per element of [steps]. *)
Definition example_trajectory (steps : list R) : trajectory :=
  mkTrajectory (map (fun _ => example_cells) steps)
               (map (fun _ => example_mesh_pos) steps)
               (map (fun _ => example_node_type) steps)
               (map example_world_pos steps)
               (map example_stress steps).

Definition example_edge_stats : edge_stats_t :=
  mkEdgeStats [0; 0; 0; 0]%R [1; 1; 1; 1]%R.

Definition example_node_stats : node_stats_t :=
  mkNodeStats [0; 0; 0]%R [1; 1; 1]%R [0; 0; 0]%R [1; 1; 1]%R [0]%R [1]%R.

(** Three trajectories of five steps. *)
Definition example_files : files :=
  mkFiles [example_trajectory [0; 1; 2; 3; 4]%R;
           example_trajectory [10; 11; 12; 13; 14]%R;
           example_trajectory [20; 21; 22; 23; 24]%R]
          (Ok example_edge_stats) (Ok example_node_stats).

(** The dataset of the evaluation split built from [example_files]. *)
Definition example_built : result dataset :=
  Eval cbv - [Rplus Rminus Rmult Rdiv Rinv Ropp R_sqrt.sqrt IZR INR] in
    __init__ example_files "eval"%string 3 5 0.



(** ** Further vocabulary *)

(** The dataset with another noise level recorded. *)
Definition with_noise_std (self : dataset) (noise : R) : dataset :=
  mkDataset (split self) (num_samples self) (num_steps self)
            noise (length_ self) (graphs self) (cells self)
            (node_type self) (rollout_mask self) (mesh_pos self)
            (edge_stats self) (node_features self) (node_targets self)
            (node_stats self).



(** What a call of [__getitem__] hands to its caller. *)
Definition returned (r : result (item * dataset)) : result item :=
  match r with
  | Ok (it, _) => Ok it
  | Raise e => Raise e
  end.

(** The evaluation split of [example_files], asked for ten steps of its
    five-step trajectories. *)
Definition overlong_built : result dataset :=
  Eval cbv - [Rplus Rminus Rmult Rdiv Rinv Ropp R_sqrt.sqrt IZR INR] in
    __init__ example_files "eval"%string 3 10 0.

(** Sample 7 of the evaluation split of [example_files]. *)
Definition example_lookup : result (item * dataset) :=
  Eval cbv - [Rplus Rminus Rmult Rdiv Rinv Ropp R_sqrt.sqrt IZR INR] in
    (self <- __init__ example_files "eval"%string 3 5 0 ;;
     __getitem__ self 7).

(** ** Statistics of normalized data *)

(** The sum of a list of numbers. *)
Definition total (l : list R) : R := fold_right Rplus 0%R l.

(** Channel [c] of the rows of a tensor. *)
Definition channel (c : nat) (x : tensor2) : list R :=
  map (fun r => nth c r 0%R) x.

(** The rows of [x] normalized with [mu] and [std] of their size. *)
Definition standardize (mu std : vec) (x : tensor2) : tensor2 :=
  map (fun r => zip_with Rdiv (zip_with Rminus r mu) std) x.

(** A graph of two nodes joined in both directions, with edge features
    [x]. *)
Definition paired_graph (x : tensor2) : graph :=
  mkGraph [(0, 1); (1, 0)]%Z 2 (Some x) None None None.

(** Two trajectories of one step and two nodes with one channel. *)
Definition two_features : list features_t :=
  [mkFeatures [[[0]; [2]]]; mkFeatures [[[1]; [3]]]]%R.

Definition two_targets : list targets_t :=
  [mkTargets [[[0]; [2]]] [[[1]; [5]]];
   mkTargets [[[1]; [3]]] [[[2]; [4]]]]%R.

(** ** Outcomes and prefixes of a split *)

(** Two outcomes that agree: the same exception, or values related by
    [R]. *)
Definition agree {A B : Type} (R : A -> B -> Prop)
           (r1 : result A) (r2 : result B) : Prop :=
  match r1, r2 with
  | Ok a, Ok b => R a b
  | Raise e1, Raise e2 => e1 = e2
  | _, _ => False
  end.

(** The files with the split cut down to its first [n] records. *)
Definition first_records (fs : files) (n : Z) : files :=
  mkFiles (firstn (Z.to_nat n) (tfrecord fs))
          (edge_stats_json fs) (node_stats_json fs).

(** The iterators over the records [src] and over the first [N] of them,
    after [k] records have been read from each. *)
Definition in_step (src : list trajectory) (N k : nat)
           (it1 it2 : list trajectory) : Prop :=
  it1 = skipn k src /\ it2 = skipn k (firstn N src).

(** One step of two computations that run the same code. *)
Ltac same_bind :=
  match goal with
  | |- agree _ (bind ?m _) (bind ?m _) =>
      destruct m; cbn [bind agree]; [|reflexivity]
  | |- agree _ (let '(_, _) := ?p in _) (let '(_, _) := ?p in _) =>
      destruct p
  | |- agree _ (if ?b then _ else _) (if ?b then _ else _) =>
      destruct b
  end.

(** * Properties *)

(** ** Python sequences *)

Section PySequences.

Context {A : Type}.
Implicit Types (xs : list A) (i : Z).

Lemma index_nonneg xs i :
  (0 <= i < Py.len xs)%Z ->
  Py.index xs i = match nth_error xs (Z.to_nat i) with
                  | Some a => Ok a
                  | None => Raise IndexError
                  end.
Proof.
  intros Hi. unfold Py.index.
  destruct (Z.ltb_spec i 0); [lia|].
  destruct (Z.leb_spec 0 i); [|lia].
  destruct (Z.ltb_spec i (Py.len xs)); [|lia].
  reflexivity.
Qed.

Lemma index_some xs i a :
  (0 <= i)%Z -> nth_error xs (Z.to_nat i) = Some a -> Py.index xs i = Ok a.
Proof.
  intros Hi Hn.
  assert (Z.to_nat i < length xs)%nat
    by (apply nth_error_Some; congruence).
  rewrite index_nonneg by (unfold Py.len; lia).
  now rewrite Hn.
Qed.

Lemma index_in_range xs i :
  (0 <= i < Py.len xs)%Z -> exists a, Py.index xs i = Ok a.
Proof.
  intros Hi. rewrite index_nonneg by assumption.
  destruct (nth_error xs (Z.to_nat i)) eqn:E; eauto.
  apply nth_error_None in E. unfold Py.len in Hi. lia.
Qed.


Lemma index_out_of_range xs i :
  (i < - Py.len xs \/ Py.len xs <= i)%Z -> Py.index xs i = Raise IndexError.
Proof.
  intros Hi. unfold Py.index.
  destruct (Z.ltb_spec i 0).
  - destruct (Z.leb_spec 0 (i + Py.len xs)); simpl.
    + destruct (Z.ltb_spec (i + Py.len xs) (Py.len xs)); [|reflexivity].
      unfold Py.len in *. lia.
    + reflexivity.
  - destruct (Z.leb_spec 0 i); simpl; [|reflexivity].
    destruct (Z.ltb_spec i (Py.len xs)); [|reflexivity].
    unfold Py.len in *. lia.
Qed.

Lemma index_ok_inv xs i a :
  Py.index xs i = Ok a ->
  (- Py.len xs <= i < Py.len xs)%Z /\ In a xs.
Proof.
  intros H. split.
  - destruct (Z_lt_dec i (- Py.len xs)) as [L|L];
      [rewrite index_out_of_range in H by lia; discriminate|].
    destruct (Z_le_dec (Py.len xs) i) as [G|G];
      [rewrite index_out_of_range in H by lia; discriminate|].
    lia.
  - unfold Py.index in H.
    destruct (_ && _)%bool; [|discriminate].
    destruct (nth_error xs _) eqn:E; [|discriminate].
    inversion H; subst. eapply nth_error_In; eauto.
Qed.

Lemma clamp_nonneg xs i :
  (0 <= i)%Z -> Py.clamp xs i = Nat.min (Z.to_nat i) (length xs).
Proof.
  intros Hi. unfold Py.clamp, Py.len.
  destruct (Z.ltb_spec i 0); lia.
Qed.

Lemma clamp_negative xs i :
  (i < 0)%Z -> Py.clamp xs i = (length xs - Z.to_nat (- i))%nat.
Proof.
  intros Hi. unfold Py.clamp, Py.len.
  destruct (Z.ltb_spec i 0); lia.
Qed.

Lemma slice_drop_last xs :
  Py.slice xs 0 (-1) = firstn (length xs - 1) xs.
Proof.
  unfold Py.slice.
  rewrite clamp_nonneg, clamp_negative by lia.
  reflexivity.
Qed.

Lemma slice_from_one xs : Py.slice_from xs 1 = skipn 1 xs.
Proof.
  unfold Py.slice_from. rewrite clamp_nonneg by lia.
  destruct xs; reflexivity.
Qed.

Lemma slice_to_full xs n :
  (Py.len xs <= n)%Z -> Py.slice_to xs n = xs.
Proof.
  intros Hn. unfold Py.slice_to, Py.slice, Py.len in *.
  rewrite !clamp_nonneg by lia.
  replace (Nat.min (Z.to_nat n) (length xs)) with (length xs) by lia.
  rewrite firstn_all. reflexivity.
Qed.

Lemma slice_to_length xs n :
  (0 <= n <= Py.len xs)%Z -> Py.len (Py.slice_to xs n) = n.
Proof.
  intros Hn. unfold Py.slice_to, Py.slice, Py.len in *.
  rewrite !clamp_nonneg by lia.
  change (Nat.min (Z.to_nat 0) (length xs)) with 0%nat.
  rewrite skipn_O, length_firstn. lia.
Qed.

End PySequences.

(** ** Element-wise operations *)

Section ZipWith.

Context {A B C : Type} (f : A -> B -> C).

Lemma zip_with_length (xs : list A) (ys : list B) :
  length (zip_with f xs ys) = Nat.min (length xs) (length ys).
Proof.
  revert ys; induction xs as [|x xs IH]; intros [|y ys]; simpl; auto.
Qed.

Lemma zip_with_nth_error (xs : list A) (ys : list B) n x y :
  nth_error xs n = Some x -> nth_error ys n = Some y ->
  nth_error (zip_with f xs ys) n = Some (f x y).
Proof.
  revert ys n; induction xs as [|x0 xs IH]; intros [|y0 ys] [|n]; simpl;
    try discriminate.
  - intros [= ->] [= ->]. reflexivity.
  - apply IH.
Qed.

End ZipWith.

(** ** Feature derivation: drop-last and push-forward *)

Section FeatureDeriver.

Variables (world_pos stress : tensor3).

Lemma drop_last_length :
  Py.len (data (_drop_last world_pos)) = Z.max 0 (Py.len world_pos - 1).
Proof.
  unfold _drop_last; simpl. rewrite slice_drop_last.
  unfold Py.len. rewrite length_firstn. lia.
Qed.

Lemma push_forward_length :
  Py.len (data (_push_forward stress)) = Z.max 0 (Py.len stress - 1).
Proof.
  unfold _push_forward; simpl. rewrite slice_from_one.
  unfold Py.len. rewrite length_skipn. lia.
Qed.

Lemma push_forward_diff_length :
  Py.len (data (_push_forward_diff world_pos))
  = Z.max 0 (Py.len world_pos - 1).
Proof.
  unfold _push_forward_diff; simpl.
  rewrite slice_from_one, slice_drop_last.
  unfold Py.len. rewrite zip_with_length, length_skipn, length_firstn. lia.
Qed.

(** C3.  For a trajectory of [num_steps] steps and every step [t] in
    [[0, num_steps - 1)]: the input position is the position at [t] (the last
    step is dropped), the position target is the difference of the positions
    at [t + 1] and [t], the stress target is the stress at [t + 1]; the three
    tensors are created with a floating element type and have
    [num_steps - 1] steps. *)
Theorem derived_features_and_targets (t : Z) :
  (0 <= t < Py.len world_pos - 1)%Z ->
  Py.len stress = Py.len world_pos ->
  exists w0 w1 s1,
    Py.index world_pos t = Ok w0 /\
    Py.index world_pos (t + 1) = Ok w1 /\
    Py.index stress (t + 1) = Ok s1 /\
    Py.index (data (_drop_last world_pos)) t = Ok w0 /\
    Py.index (data (_push_forward_diff world_pos)) t
    = Ok (zip_with (zip_with Rminus) w1 w0) /\
    Py.index (data (_push_forward stress)) t = Ok s1 /\
    dtype_of (_drop_last world_pos) = Float32 /\
    dtype_of (_push_forward_diff world_pos) = Float32 /\
    dtype_of (_push_forward stress) = Float32 /\
    Py.len (data (_drop_last world_pos)) = (Py.len world_pos - 1)%Z /\
    Py.len (data (_push_forward_diff world_pos)) = (Py.len world_pos - 1)%Z /\
    Py.len (data (_push_forward stress)) = (Py.len world_pos - 1)%Z.
Proof.
  intros Ht Hlen.
  destruct (index_in_range world_pos t) as [w0 Hw0]; [lia|].
  destruct (index_in_range world_pos (t + 1)) as [w1 Hw1]; [lia|].
  destruct (index_in_range stress (t + 1)) as [s1 Hs1]; [lia|].
  exists w0, w1, s1.
  rewrite index_nonneg in Hw0, Hw1, Hs1 by lia.
  destruct (nth_error world_pos (Z.to_nat t)) as [a|] eqn:E0;
    [|discriminate].
  destruct (nth_error world_pos (Z.to_nat (t + 1))) as [b|] eqn:E1;
    [|discriminate].
  destruct (nth_error stress (Z.to_nat (t + 1))) as [c|] eqn:E2;
    [|discriminate].
  injection Hw0 as <-. injection Hw1 as <-. injection Hs1 as <-.
  assert (Hd : nth_error (firstn (length world_pos - 1) world_pos)
                         (Z.to_nat t) = Some a).
  { rewrite nth_error_firstn.
    destruct (Nat.ltb_spec (Z.to_nat t) (length world_pos - 1)); [exact E0|].
    unfold Py.len in Ht. lia. }
  assert (Hp : nth_error (skipn 1 world_pos) (Z.to_nat t) = Some b).
  { rewrite nth_error_skipn.
    replace (1 + Z.to_nat t)%nat with (Z.to_nat (t + 1)) by lia. exact E1. }
  assert (Hq : nth_error (skipn 1 stress) (Z.to_nat t) = Some c).
  { rewrite nth_error_skipn.
    replace (1 + Z.to_nat t)%nat with (Z.to_nat (t + 1)) by lia. exact E2. }
  repeat split; try reflexivity.
  - rewrite index_nonneg by lia. now rewrite E0.
  - rewrite index_nonneg by lia. now rewrite E1.
  - rewrite index_nonneg by lia. now rewrite E2.
  - apply index_some; [lia|]. unfold _drop_last; simpl.
    rewrite slice_drop_last. exact Hd.
  - apply index_some; [lia|]. unfold _push_forward_diff; simpl.
    rewrite slice_from_one, slice_drop_last.
    now apply zip_with_nth_error.
  - apply index_some; [lia|]. unfold _push_forward; simpl.
    rewrite slice_from_one. exact Hq.
  - rewrite drop_last_length. lia.
  - rewrite push_forward_diff_length. lia.
  - rewrite push_forward_length. lia.
Qed.

End FeatureDeriver.

(** ** Row-wise maps over tensors of any rank *)

Lemma mapM_ok {A B : Type} (f : A -> result B) (xs : list A) :
  (forall x, In x xs -> exists y, f x = Ok y) ->
  exists ys, mapM f xs = Ok ys.
Proof.
  induction xs as [|x xs IH]; intros H; simpl; [eauto|].
  destruct (H x) as [y Hy]; [now left|]. rewrite Hy; simpl.
  destruct IH as [ys Hys]; [intros; apply H; now right|].
  rewrite Hys; simpl. eauto.
Qed.

Lemma mapM_inv {A B : Type} (f : A -> result B) (xs : list A) ys :
  mapM f xs = Ok ys -> Forall2 (fun x y => f x = Ok y) xs ys.
Proof.
  revert ys; induction xs as [|x xs IH]; simpl; intros ys H.
  - injection H as <-. constructor.
  - destruct (f x) as [y|] eqn:E; simpl in H; [|discriminate].
    destruct (mapM f xs) as [zs|] eqn:E'; simpl in H; [|discriminate].
    injection H as <-. constructor; auto.
Qed.

Lemma Forall2_mapM {A B : Type} (f : A -> result B) (xs : list A) ys :
  Forall2 (fun x y => f x = Ok y) xs ys -> mapM f xs = Ok ys.
Proof.
  induction 1 as [|x y xs ys Hxy _ IH]; simpl; [reflexivity|].
  now rewrite Hxy, IH.
Qed.

Lemma mapM_length {A B : Type} (f : A -> result B) (xs : list A) ys :
  mapM f xs = Ok ys -> length ys = length xs.
Proof.
  intros H. apply mapM_inv in H. symmetry. eapply Forall2_length; eauto.
Qed.

Lemma TensorLaws_vec : TensorLaws (list R).
Proof.
  split; simpl.
  - intros f x H. apply H. now left.
  - intros f g x y Hf H. apply (H x y); auto.
Qed.

Lemma TensorLaws_list (T : Type) `{TensorLaws T} : TensorLaws (list T).
Proof.
  split; simpl.
  - intros f x Hx. apply mapM_ok. intros t Ht.
    apply map_rows_ok. intros r Hr. apply Hx.
    apply in_flat_map. eauto.
  - intros f g x y Hf Hfg. apply mapM_inv in Hf.
    apply Forall2_mapM.
    induction Hf as [|t u x y Htu _ IH]; constructor.
    + eapply map_rows_undo; [exact Htu|].
      intros r r' Hr. apply Hfg. simpl. apply in_or_app. now left.
    + apply IH. intros r r' Hr. apply Hfg. simpl. apply in_or_app.
      now right.
Qed.

#[export] Existing Instance TensorLaws_vec.
#[export] Existing Instance TensorLaws_list.

(** ** The normalizer *)

Section Normalizer.

Local Open Scope R_scope.

Lemma expand_same (m : vec) (n : nat) : length m = n -> expand m n = Ok m.
Proof. intros <-. unfold expand. now rewrite Nat.eqb_refl. Qed.

Lemma broadcast_same (f : R -> R -> R) (a b : vec) :
  length a = length b -> broadcast f a b = Ok (zip_with f a b).
Proof. intros E. unfold broadcast. now rewrite E, Nat.eqb_refl. Qed.

Lemma denormalize_row (r mu std : vec) :
  length r = length mu -> length mu = length std ->
  Forall (fun c => c <> 0) std ->
  zip_with Rplus (zip_with Rmult (zip_with Rdiv (zip_with Rminus r mu) std) std)
           mu = r.
Proof.
  revert mu std; induction r as [|x r IH]; intros [|m mu] [|s std];
    simpl; try discriminate; auto.
  intros [= Hr] [= Hm] Hs. inversion Hs; subst.
  f_equal; [field; assumption | now apply IH].
Qed.

Context {T : Type} `{TensorLaws T}.

(** C4.  With a standard deviation that is non-zero in every channel and
    statistics of the trailing size of [x], normalization succeeds and
    [denormalize] gives [x] back.  (Over the reals the round trip is exact;
    rounding is outside the model.) *)
Theorem normalize_denormalize_roundtrip (x : T) (mu std : vec) :
  rectangular x ->
  size_last x = length mu ->
  size_last x = length std ->
  Forall (fun c => c <> 0) std ->
  exists y, normalize_node x mu std = Ok y /\ denormalize y mu std = Ok x.
Proof.
  intros Hrect Hmu Hstd Hnz.
  unfold normalize_node, denormalize.
  rewrite <- Hmu, <- Hstd, Nat.eqb_refl. simpl.
  set (f := fun r : vec =>
              m <- expand mu (length r) ;;
              s <- expand std (length r) ;;
              Ok (zip_with Rdiv (zip_with Rminus r m) s)).
  assert (Hf : forall r, In r (rows x) ->
                         f r = Ok (zip_with Rdiv (zip_with Rminus r mu) std)).
  { intros r Hr. unfold rectangular in Hrect.
    rewrite Forall_forall in Hrect. specialize (Hrect r Hr).
    unfold f. rewrite !expand_same by congruence. reflexivity. }
  destruct (map_rows_ok f x) as [y Hy].
  { intros r Hr. rewrite Hf by assumption. eauto. }
  exists y. split; [exact Hy|].
  eapply map_rows_undo; [exact Hy|].
  intros r r' Hr Hr'. rewrite Hf in Hr' by assumption.
  injection Hr' as <-.
  unfold rectangular in Hrect. rewrite Forall_forall in Hrect.
  specialize (Hrect r Hr).
  rewrite broadcast_same
    by (rewrite !zip_with_length; lia).
  simpl. rewrite broadcast_same by (rewrite !zip_with_length; lia).
  f_equal. apply denormalize_row; congruence.
Qed.

End Normalizer.

Section ShapeCheck.

Local Open Scope R_scope.

Context {T : Type} `{TensorLaws T}.

(** The guard of [normalize_node] is exact: a statistic whose size differs
    from the trailing size of the input is refused. *)
Lemma normalize_node_mismatch (x : T) (mu std : vec) :
  size_last x <> length mu \/ size_last x <> length std ->
  normalize_node x mu std = Raise AssertionError.
Proof.
  intros Hne. unfold normalize_node.
  destruct (Nat.eqb_spec (size_last x) (length mu));
    destruct (Nat.eqb_spec (size_last x) (length std)); simpl;
    try reflexivity.
  destruct Hne; contradiction.
Qed.

Lemma normalize_node_match (x : T) (mu std : vec) :
  rectangular x ->
  size_last x = length mu -> size_last x = length std ->
  exists y, normalize_node x mu std = Ok y.
Proof.
  intros Hrect Hmu Hstd. unfold normalize_node.
  rewrite <- Hmu, <- Hstd, Nat.eqb_refl. simpl.
  apply map_rows_ok. intros r Hr.
  unfold rectangular in Hrect. rewrite Forall_forall in Hrect.
  specialize (Hrect r Hr).
  rewrite !expand_same by congruence. simpl. eauto.
Qed.

End ShapeCheck.

(** C5.  [denormalize] has no shape check: with a row of three channels and
    statistics of one channel, [normalize_node] raises its assertion error,
    and [denormalize] broadcasts the statistics and returns a result. *)
Theorem denormalize_not_shape_checked :
  normalize_node ([[1; 2; 3]]%R : tensor2) [0%R] [2%R]
  = Raise AssertionError /\
  denormalize ([[1; 2; 3]]%R : tensor2) [0%R] [2%R]
  = Ok [[1 * 2 + 0; 2 * 2 + 0; 3 * 2 + 0]]%R.
Proof. split; reflexivity. Qed.

(** ** The node-type encoder *)

Section NodeTypeEncoder.

Local Open Scope Z_scope.

Lemma zip_with_map_r {A B C : Type} (f : A -> B -> C) (g : A -> B) xs :
  zip_with f xs (map g xs) = map (fun x => f x (g x)) xs.
Proof. induction xs; simpl; congruence. Qed.

(** [mapped] after the three assignments of [_one_hot_encode]. *)
Lemma mapped_codes (d : dtype) (codes : list Z) :
  fold_left
    (fun mapped kv =>
       zip_with (fun c old => if c =? cast_int d (fst kv)
                              then cast_int d (snd kv) else old)
                codes mapped)
    mapping (map (fun _ => cast_int d (-1)) codes)
  = map (fun c =>
           if c =? cast_int d 3 then cast_int d 2
           else if c =? cast_int d 1 then cast_int d 1
           else if c =? cast_int d 0 then cast_int d 0
           else cast_int d (-1)) codes.
Proof.
  unfold mapping; simpl. rewrite !zip_with_map_r. reflexivity.
Qed.

Lemma one_hot_map (v : list Z) :
  Forall (fun k => 0 <= k < 3) v -> one_hot 3 v = Ok (map unit_row v).
Proof.
  induction 1 as [|k v Hk _ IH]; simpl; [reflexivity|].
  unfold one_hot_row.
  destruct (Z.leb_spec 0 k); [|lia].
  destruct (Z.ltb_spec k (Z.of_nat 3)); [|lia].
  simpl. rewrite IH. reflexivity.
Qed.

Variable node_type : typed (list Z).
Hypothesis integer_type : is_integer (dtype_of node_type) = true.

Lemma cast_small k :
  0 <= k <= 3 -> cast_int (dtype_of node_type) k = k.
Proof.
  intros Hk. assert (k = 0 \/ k = 1 \/ k = 2 \/ k = 3) as Hc by lia.
  destruct (dtype_of node_type); try discriminate;
    destruct Hc as [Hc|[Hc|[Hc|Hc]]]; subst k; reflexivity.
Qed.

Lemma cast_sentinel :
  cast_int (dtype_of node_type) (-1) = 255
  \/ cast_int (dtype_of node_type) (-1) = -1.
Proof.
  destruct (dtype_of node_type); try discriminate;
    (now left) || (now right).
Qed.

(** C6.  On an integer tensor whose codes all lie in {0, 1, 3} the encoder
    returns, for every node, the one-hot vector of the category of its code
    (0 to 0, 1 to 1, 3 to 2): three entries that sum to 1.  On a tensor with
    a code outside {0, 1, 3} it raises [ValueError]. *)
Theorem one_hot_encode_total :
  (Forall (fun c => c = 0 \/ c = 1 \/ c = 3) (data node_type) ->
   _one_hot_encode node_type
   = Ok (map (fun c => unit_row (category c)) (data node_type)) /\
   Forall (fun row => length row = 3%nat /\ fold_right Z.add 0 row = 1)
          (map (fun c => unit_row (category c)) (data node_type))) /\
  (Exists (fun c => c <> 0 /\ c <> 1 /\ c <> 3) (data node_type) ->
   _one_hot_encode node_type = Raise ValueError).
Proof.
  pose proof (cast_small 0 ltac:(lia)) as C0.
  pose proof (cast_small 1 ltac:(lia)) as C1.
  pose proof (cast_small 2 ltac:(lia)) as C2.
  pose proof (cast_small 3 ltac:(lia)) as C3.
  pose proof cast_sentinel as CS.
  unfold _one_hot_encode. rewrite mapped_codes, C0, C1, C2, C3.
  split.
  - intros Hall. split.
    + set (m := map _ (data node_type)).
      assert (Hm : m = map category (data node_type)).
      { subst m. apply map_ext_in. intros c Hc.
        rewrite Forall_forall in Hall.
        destruct (Hall c Hc) as [E|[E|E]]; subst c; reflexivity. }
      rewrite Hm.
      assert (Hex : existsb (fun m0 => m0 =? cast_int (dtype_of node_type) (-1))
                            (map category (data node_type)) = false).
      { apply Bool.not_true_is_false. intros Hx.
        apply existsb_exists in Hx. destruct Hx as [k [Hk Hx]].
        apply in_map_iff in Hk. destruct Hk as [c [<- _]].
        apply Z.eqb_eq in Hx. unfold category in Hx.
        destruct (c =? 0), (c =? 1); lia. }
      rewrite Hex, one_hot_map, map_map; [reflexivity|].
      apply Forall_map, Forall_forall. intros c _. unfold category.
      destruct (c =? 0), (c =? 1); lia.
    + apply Forall_map, Forall_forall. intros c _. unfold category.
      destruct (c =? 0), (c =? 1); split; reflexivity.
  - intros Hex. apply Exists_exists in Hex.
    destruct Hex as [c [Hc [N0 [N1 N3]]]].
    match goal with
    | |- (if ?b then _ else _) = _ => assert (Hb : b = true)
    end.
    { apply existsb_exists.
      eexists. split; [apply in_map; exact Hc|].
      destruct (Z.eqb_spec c 3); [lia|].
      destruct (Z.eqb_spec c 1); [lia|].
      destruct (Z.eqb_spec c 0); [lia|].
      apply Z.eqb_refl. }
    rewrite Hb. reflexivity.
Qed.

End NodeTypeEncoder.

(** ** The topology builder *)

Section TopologyBuilder.

Local Open Scope Z_scope.

Lemma in_range (n i : Z) : In i (Py.range n) <-> 0 <= i < n.
Proof.
  unfold Py.range. rewrite in_map_iff. split.
  - intros [k [<- Hk]]. apply in_seq in Hk. lia.
  - intros Hi. exists (Z.to_nat i). split; [lia|]. apply in_seq. lia.
Qed.

Lemma range_length (n : Z) : length (Py.range n) = Z.to_nat n.
Proof. unfold Py.range. now rewrite length_map, length_seq. Qed.

Lemma Forall2_combine {A B C : Type} (P : A -> B -> Prop) (Q : A -> C -> Prop)
      (l : list A) (xs : list B) (ys : list C) :
  Forall2 P l xs -> Forall2 Q l ys ->
  Forall2 (fun a e => P a (fst e) /\ Q a (snd e)) l (combine xs ys).
Proof.
  intros HP; revert ys; induction HP as [|a x l xs Hax _ IH];
    intros ys HQ; inversion HQ; subst; simpl; constructor; auto.
Qed.

Lemma Forall2_in_l {A B : Type} (P : A -> B -> Prop) l ys a :
  Forall2 P l ys -> In a l -> exists y, In y ys /\ P a y.
Proof.
  induction 1 as [|x y l ys Hxy _ IH]; simpl; [tauto|].
  intros [->|Hin]; [eauto|].
  destruct (IH Hin) as [z [Hz Pz]]; eauto.
Qed.

Lemma Forall2_in_r {A B : Type} (P : A -> B -> Prop) l ys y :
  Forall2 P l ys -> In y ys -> exists a, In a l /\ P a y.
Proof.
  induction 1 as [|x z l ys Hxz _ IH]; simpl; [tauto|].
  intros [->|Hin]; [eauto|].
  destruct (IH Hin) as [a [Ha Pa]]; eauto.
Qed.

(** The edges of a bidirected graph come in mirror pairs, without
    repetition, and contain the edges it was made from. *)
Lemma to_bidirected_symmetric (g : graph) u v :
  In (u, v) (edges (to_bidirected g)) -> In (v, u) (edges (to_bidirected g)).
Proof.
  unfold to_bidirected, to_simple, add_reverse_edges; simpl.
  rewrite !nodup_In, !in_app_iff, !in_map_iff.
  intros [Huv|[[a b] [[= <- <-] Hin]]].
  - right. exists (u, v). auto.
  - left. exact Hin.
Qed.

Lemma to_bidirected_covers (g : graph) u v :
  In (u, v) (edges g) ->
  In (u, v) (edges (to_bidirected g)) /\ In (v, u) (edges (to_bidirected g)).
Proof.
  intros Hin.
  assert (In (u, v) (edges (to_bidirected g))).
  { unfold to_bidirected, to_simple, add_reverse_edges; simpl.
    rewrite nodup_In, in_app_iff. now left. }
  split; [assumption | now apply to_bidirected_symmetric].
Qed.

Variable cells : list (list Z).
Hypothesis tetrahedra : Forall (fun c => length c = 4%nat) cells.
Hypothesis node_ids : Forall (Forall (fun u => 0 <= u)) cells.

Lemma vertex_ok (a b : Z) i :
  In (i, (a, b)) (list_prod (Py.range (Py.len cells)) edge_indices) ->
  exists c x y,
    Py.index cells i = Ok c /\ Py.index c a = Ok x /\ Py.index c b = Ok y.
Proof.
  intros Hin. apply in_prod_iff in Hin. destruct Hin as [Hi Hab].
  apply in_range in Hi.
  destruct (index_in_range cells i Hi) as [c Hc].
  pose proof (index_ok_inv _ _ _ Hc) as [_ Hcin].
  rewrite Forall_forall in tetrahedra. specialize (tetrahedra c Hcin).
  assert (0 <= a < Py.len c /\ 0 <= b < Py.len c) as [Ha Hb].
  { unfold Py.len. rewrite tetrahedra. unfold edge_indices in Hab.
    simpl in Hab.
    repeat (destruct Hab as [Hab|Hab]; [injection Hab as <- <-; lia|]).
    contradiction. }
  destruct (index_in_range c a Ha) as [x Hx].
  destruct (index_in_range c b Hb) as [y Hy].
  exists c, x, y. auto.
Qed.

(** C7.  For an array of tetrahedral cells: [cell_to_adj] lists six edges
    per cell; with the reverse edges, and before parallel edges are
    collapsed, that makes 12 times the number of cells; in the graph of
    [create_graph] every edge has its mirror edge, no edge is repeated, and
    each of the six vertex pairs of every cell is an edge in both
    orientations. *)
Theorem topology_bidirectional :
  exists src dst g0 g,
    cell_to_adj cells = Ok (src, dst) /\
    length src = (6 * length cells)%nat /\
    length dst = (6 * length cells)%nat /\
    graph_of src dst = Ok g0 /\
    length (add_reverse_edges (edges g0)) = (12 * length cells)%nat /\
    create_graph src dst = Ok g /\
    edges g = to_simple (add_reverse_edges (edges g0)) /\
    NoDup (edges g) /\
    (forall u v, In (u, v) (edges g) -> In (v, u) (edges g)) /\
    (forall c a b x y,
        In c cells -> In (a, b) edge_indices ->
        Py.index c a = Ok x -> Py.index c b = Ok y ->
        In (x, y) (edges g) /\ In (y, x) (edges g)).
Proof.
  set (prod := list_prod (Py.range (Py.len cells)) edge_indices).
  assert (Hlen : length prod = (6 * length cells)%nat).
  { unfold prod. rewrite length_prod, range_length. unfold Py.len.
    simpl. lia. }
  destruct (mapM_ok (fun ip => c <- Py.index cells (fst ip) ;;
                               Py.index c (fst (snd ip))) prod)
    as [src Hsrc].
  { intros [i [a b]] Hin. destruct (vertex_ok _ _ _ Hin) as [c [x [y [Hc [Hx _]]]]].
    simpl. rewrite Hc. simpl. eauto. }
  destruct (mapM_ok (fun ip => c <- Py.index cells (fst ip) ;;
                               Py.index c (snd (snd ip))) prod)
    as [dst Hdst].
  { intros [i [a b]] Hin. destruct (vertex_ok _ _ _ Hin) as [c [x [y [Hc [_ Hy]]]]].
    simpl. rewrite Hc. simpl. eauto. }
  pose proof (mapM_length _ _ _ Hsrc) as Ls.
  pose proof (mapM_length _ _ _ Hdst) as Ld.
  pose proof (Forall2_combine _ _ _ _ _ (mapM_inv _ _ _ Hsrc)
                               (mapM_inv _ _ _ Hdst)) as HF.
  assert (Hids : forall ip e,
             In ip prod ->
             (c <- Py.index cells (fst ip) ;; Py.index c (fst (snd ip)))
             = Ok (fst e) /\
             (c <- Py.index cells (fst ip) ;; Py.index c (snd (snd ip)))
             = Ok (snd e) ->
             exists c, Py.index cells (fst ip) = Ok c /\
                       Py.index c (fst (snd ip)) = Ok (fst e) /\
                       Py.index c (snd (snd ip)) = Ok (snd e)).
  { intros ip e _ [H1 H2].
    destruct (Py.index cells (fst ip)) as [c|]; simpl in *; [|discriminate].
    eauto. }
  assert (Hnn : forallb (fun u => 0 <=? u) (src ++ dst) = true).
  { apply forallb_forall. intros u Hu. apply Z.leb_le.
    assert (exists e, In e (combine src dst) /\ (u = fst e \/ u = snd e))
      as [e [He Hue]].
    { apply in_app_or in Hu. destruct Hu as [Hu|Hu].
      - apply In_nth_error in Hu. destruct Hu as [n Hn].
        destruct (nth_error dst n) as [w|] eqn:Ew.
        + exists (u, w). split; [|now left].
          apply nth_error_In with n.
          clear - Hn Ew. revert dst n Hn Ew.
          induction src as [|s src' IH]; intros [|d dst'] [|n]; simpl;
            try discriminate.
          * intros [= ->] [= ->]. reflexivity.
          * apply IH.
        + apply nth_error_None in Ew.
          assert (n < length src)%nat by (apply nth_error_Some; congruence).
          lia.
      - apply In_nth_error in Hu. destruct Hu as [n Hn].
        destruct (nth_error src n) as [w|] eqn:Ew.
        + exists (w, u). split; [|now right].
          apply nth_error_In with n.
          clear - Hn Ew. revert dst n Hn Ew.
          induction src as [|s src' IH]; intros [|d dst'] [|n]; simpl;
            try discriminate.
          * intros [= ->] [= ->]. reflexivity.
          * apply IH.
        + apply nth_error_None in Ew.
          assert (n < length dst)%nat by (apply nth_error_Some; congruence).
          lia. }
    destruct (Forall2_in_r _ _ _ _ HF He) as [ip [Hip Hpe]].
    destruct (Hids ip e Hip Hpe) as [c [Hc [Hx Hy]]].
    apply index_ok_inv in Hc. destruct Hc as [_ Hc].
    rewrite Forall_forall in node_ids. specialize (node_ids c Hc).
    rewrite Forall_forall in node_ids.
    apply index_ok_inv in Hx. apply index_ok_inv in Hy.
    destruct Hue as [->| ->]; apply node_ids; tauto. }
  assert (Hg0 : graph_of src dst
                = Ok (mkGraph (combine src dst) (count_nodes (combine src dst))
                              None None None None)).
  { unfold graph_of. rewrite Ls, Ld, Nat.eqb_refl. simpl.
    now rewrite Hnn. }
  exists src, dst, (mkGraph (combine src dst) (count_nodes (combine src dst))
                            None None None None).
  eexists.
  split; [unfold cell_to_adj; fold prod; now rewrite Hsrc, Hdst|].
  split; [lia|]. split; [lia|]. split; [exact Hg0|].
  split.
  { unfold add_reverse_edges. cbn [edges].
    rewrite length_app, length_map.
    change (length (combine src dst) + length (combine src dst)
            = 12 * length cells)%nat.
    rewrite length_combine. lia. }
  split; [unfold create_graph; rewrite Hg0; reflexivity|].
  split; [reflexivity|].
  split; [apply NoDup_nodup|].
  split; [apply to_bidirected_symmetric|].
  intros c a b x y Hc Hab Hx Hy.
  apply to_bidirected_covers. simpl.
  apply In_nth_error in Hc. destruct Hc as [n Hn].
  assert (Hi : Py.index cells (Z.of_nat n) = Ok c).
  { apply index_some; [lia|]. now rewrite Nat2Z.id. }
  assert (Hin : In (Z.of_nat n, (a, b)) prod).
  { apply in_prod; [|exact Hab]. apply in_range.
    apply index_ok_inv in Hi. lia. }
  destruct (Forall2_in_l _ _ _ _ HF Hin) as [e [He [H1 H2]]].
  simpl in H1, H2. rewrite Hi in H1, H2. simpl in H1, H2.
  assert (e = (x, y)) as ->; [|exact He].
  destruct e; simpl in *. congruence.
Qed.

End TopologyBuilder.

(** ** Edge features *)

Section EdgeFeatures.

Local Open Scope R_scope.

Lemma cat1_map (d : tensor2) (f : vec -> vec) :
  cat1 d (map f d) = Ok (map (fun r => r ++ f r) d).
Proof. induction d as [|r d IH]; simpl; [|rewrite IH]; reflexivity. Qed.

Lemma displacement_reverse (pu pv : vec) :
  zip_with Rminus pv pu = map Ropp (zip_with Rminus pu pv).
Proof.
  revert pv; induction pu as [|a pu IH]; intros [|b pv]; simpl; auto.
  f_equal; [lra | apply IH].
Qed.

Lemma norm_opp (d : vec) : norm (map Ropp d) = norm d.
Proof.
  unfold norm, square. f_equal. rewrite map_map.
  induction d as [|a d IH]; simpl; [reflexivity|].
  rewrite IH. lra.
Qed.

Lemma norm_nonneg (d : vec) : 0 <= norm d.
Proof. unfold norm. apply sqrt_pos. Qed.

Lemma edge_feature_rows (pos : tensor2) (es : list edge) pr pc :
  mapM (Py.index pos) (map fst es) = Ok pr ->
  mapM (Py.index pos) (map snd es) = Ok pc ->
  Forall2 (fun e f => exists pu pv,
               Py.index pos (fst e) = Ok pu /\
               Py.index pos (snd e) = Ok pv /\
               f = edge_feature pu pv)
          es
          (map (fun d => d ++ [norm d]) (zip_with (zip_with Rminus) pr pc)).
Proof.
  revert pr pc; induction es as [|e es IH]; simpl; intros pr pc Hr Hc.
  - injection Hr as <-. constructor.
  - destruct (Py.index pos (fst e)) as [pu|] eqn:Eu; simpl in Hr;
      [|discriminate].
    destruct (mapM (Py.index pos) (map fst es)) as [pr'|]; simpl in Hr;
      [|discriminate].
    destruct (Py.index pos (snd e)) as [pv|] eqn:Ev; simpl in Hc;
      [|discriminate].
    destruct (mapM (Py.index pos) (map snd es)) as [pc'|]; simpl in Hc;
      [|discriminate].
    injection Hr as <-. injection Hc as <-. simpl.
    constructor; [exists pu, pv; auto | now apply IH].
Qed.

Lemma Forall2_nth_error {A B : Type} (P : A -> B -> Prop) l l' n a b :
  Forall2 P l l' -> nth_error l n = Some a -> nth_error l' n = Some b ->
  P a b.
Proof.
  intros H; revert n; induction H as [|x y l l' Hxy _ IH]; intros [|n];
    simpl; try discriminate.
  - intros [= ->] [= ->]. exact Hxy.
  - apply IH.
Qed.

Variables (g : graph) (pos : tensor2).

Hypothesis ids_in_range :
  Forall (fun e => (0 <= fst e < Py.len pos)%Z /\ (0 <= snd e < Py.len pos)%Z)
         (edges g).

(** C10.  [add_edge_features] gives every edge one feature row, the
    displacement of its end points followed by the norm of the displacement.
    For an edge [(u, v)] and an edge [(v, u)] the displacement channels are
    negations of each other, the norm channel is the same on both, and it is
    not negative; with positions of three coordinates there are three
    displacement channels. *)
Theorem edge_features_antisymmetric :
  exists g' x,
    add_edge_features g pos = Ok g' /\
    edges g' = edges g /\
    edata_x g' = Some x /\
    length x = length (edges g) /\
    forall i j u v fi fj,
      nth_error (edges g') i = Some (u, v) ->
      nth_error (edges g') j = Some (v, u) ->
      nth_error x i = Some fi ->
      nth_error x j = Some fj ->
      exists d n,
        fi = d ++ [n] /\ fj = map Ropp d ++ [n] /\ 0 <= n /\
        (Forall (fun p => length p = 3%nat) pos -> length d = 3%nat).
Proof.
  destruct (mapM_ok (Py.index pos) (map fst (edges g))) as [pr Hr].
  { intros u Hu. apply in_map_iff in Hu. destruct Hu as [e [<- He]].
    rewrite Forall_forall in ids_in_range.
    apply index_in_range. now apply ids_in_range. }
  destruct (mapM_ok (Py.index pos) (map snd (edges g))) as [pc Hc].
  { intros u Hu. apply in_map_iff in Hu. destruct Hu as [e [<- He]].
    rewrite Forall_forall in ids_in_range.
    apply index_in_range. now apply ids_in_range. }
  pose proof (edge_feature_rows _ _ _ _ Hr Hc) as HF.
  set (x := map (fun d => d ++ [norm d]) (zip_with (zip_with Rminus) pr pc))
    in *.
  assert (Hlen : length x = length (edges g)).
  { symmetry. eapply Forall2_length; eauto. }
  exists (mkGraph (edges g) (nnodes g) (Some x)
                  (ndata_x g) (ndata_y g) (ndata_mesh_pos g)), x.
  split.
  { unfold add_edge_features, edges_of. rewrite Hr, Hc. simpl.
    unfold norm_keepdim. rewrite cat1_map. simpl.
    unfold set_edata_x. fold x.
    match goal with
    | |- (if ?b then _ else _) = _ => replace b with true; [reflexivity|]
    end.
    symmetry. apply Nat.eqb_eq. exact Hlen. }
  split; [reflexivity|]. split; [reflexivity|]. split; [exact Hlen|].
  simpl. intros i j u v fi fj Hi Hj Hfi Hfj.
  destruct (Forall2_nth_error _ _ _ _ _ _ HF Hi Hfi)
    as [pu [pv [Hu [Hv ->]]]].
  destruct (Forall2_nth_error _ _ _ _ _ _ HF Hj Hfj)
    as [pv' [pu' [Hv' [Hu' ->]]]].
  simpl in *. rewrite Hv in Hv'. rewrite Hu in Hu'.
  injection Hv' as <-. injection Hu' as <-.
  exists (zip_with Rminus pu pv), (norm (zip_with Rminus pu pv)).
  split; [reflexivity|]. split.
  { unfold edge_feature. rewrite displacement_reverse, norm_opp.
    reflexivity. }
  split; [apply norm_nonneg|].
  intros H3. rewrite Forall_forall in H3.
  rewrite zip_with_length.
  apply index_ok_inv in Hu, Hv.
  rewrite (H3 pu), (H3 pv) by tauto. reflexivity.
Qed.

End EdgeFeatures.

(** ** The statistics engine *)

Section Statistics.

Local Open Scope R_scope.

Lemma vadd_zero_l (m : vec) : zip_with Rplus (repeat 0 (length m)) m = m.
Proof.
  induction m as [|a m IH]; simpl; [reflexivity|].
  rewrite IH. f_equal. lra.
Qed.

Lemma div_int_vadd (a b : vec) (n : Z) :
  div_int (zip_with Rplus a b) n
  = zip_with Rplus (div_int a n) (div_int b n).
Proof.
  unfold div_int.
  revert b; induction a as [|x a IH]; intros [|y b]; simpl; auto.
  rewrite IH. f_equal. unfold Rdiv. lra.
Qed.

Lemma div_int_length (a : vec) (n : Z) : length (div_int a n) = length a.
Proof. unfold div_int. apply length_map. Qed.

Lemma vsum_snoc (C : nat) (l : list vec) (m : vec) :
  vsum C (l ++ [m]) = zip_with Rplus (vsum C l) m.
Proof. unfold vsum. now rewrite fold_left_app. Qed.

Lemma vsum_length (C : nat) (l : list vec) :
  Forall (fun m => length m = C) l -> length (vsum C l) = C.
Proof.
  unfold vsum. intros Hl.
  assert (Hgen : forall a, length a = C ->
                           length (fold_left (zip_with Rplus) l a) = C).
  { induction Hl as [|m l Hm _ IH]; simpl; intros a Ha; [exact Ha|].
    apply IH. rewrite zip_with_length. lia. }
  apply Hgen, repeat_length.
Qed.

(** One accumulation step of the statistics loops. *)
Lemma iadd_acc (C : nat) (n : Z) (l : list vec) (m : vec) :
  Forall (fun m => length m = C) l -> length m = C ->
  iadd (acc_val C n l) (div_int m n) = Ok (acc_val C n (l ++ [m])).
Proof.
  intros Hl Hm. destruct l as [|m0 l].
  - simpl. unfold weighted_mean, vsum. simpl. do 2 f_equal.
    rewrite <- Hm, vadd_zero_l.
    rewrite <- (map_id (div_int m n)) at 2.
    apply map_ext. intros. lra.
  - unfold acc_val.
    destruct ((m0 :: l) ++ [m]) eqn:E; [destruct l; discriminate|].
    rewrite <- E. unfold iadd, weighted_mean.
    rewrite !div_int_length, vsum_length by assumption.
    rewrite Hm, Nat.eqb_refl. do 2 f_equal.
    now rewrite vsum_snoc, div_int_vadd.
Qed.

(** The standard deviation from two accumulated tensors. *)
Lemma std_of_acc (C : nat) (n : Z) (ms qs : list vec) :
  ms <> [] -> length qs = length ms ->
  Forall (fun m => length m = C) ms -> Forall (fun m => length m = C) qs ->
  std_of (acc_val C n qs) (acc_val C n ms)
  = Ok (sqrt (zip_with Rminus (weighted_mean C n qs)
                       (square (weighted_mean C n ms)))).
Proof.
  intros Hne Hlen Hms Hqs.
  destruct ms as [|m ms]; [contradiction|].
  destruct qs as [|q qs]; [discriminate|].
  unfold acc_val, std_of.
  rewrite broadcast_same; [reflexivity|].
  unfold square, weighted_mean.
  rewrite length_map, !div_int_length, !vsum_length by assumption.
  reflexivity.
Qed.

(** A loop over [range(n)] keeps an invariant that every iteration keeps. *)
Lemma for_loop_invariant {S : Type} (I : nat -> S -> Prop)
      (body : Z -> S -> result S) (n : nat) (s0 : S) :
  I 0%nat s0 ->
  (forall k s, (k < n)%nat -> I k s ->
               exists s', body (Z.of_nat k) s = Ok s' /\ I (Datatypes.S k) s') ->
  exists s', Py.for_loop (Py.range (Z.of_nat n)) body s0 = Ok s' /\ I n s'.
Proof.
  intros H0 Hstep. unfold Py.range. rewrite Nat2Z.id.
  assert (Hgen : forall m a s, (a + m = n)%nat -> I a s ->
            exists s', Py.for_loop (map Z.of_nat (seq a m)) body s = Ok s'
                       /\ I n s').
  { induction m as [|m IH]; intros a s Ha Hs; simpl.
    - exists s. split; [reflexivity|]. now replace n with a by lia.
    - destruct (Hstep a s) as [s1 [Hb Hs1]]; [lia|exact Hs|].
      rewrite Hb. simpl. apply IH; [lia|exact Hs1]. }
  apply (Hgen n 0%nat s0); [lia|exact H0].
Qed.

Lemma firstn_succ_map {A B : Type} (f : A -> B) (l : list A) k a :
  nth_error l k = Some a ->
  firstn (S k) (map f l) = firstn k (map f l) ++ [f a].
Proof.
  revert k; induction l as [|x l IH]; intros [|k]; simpl; try discriminate.
  - intros [= ->]. reflexivity.
  - intros Hk. f_equal. now apply IH.
Qed.

Lemma Forall_firstn {A : Type} (P : A -> Prop) (l : list A) k :
  Forall P l -> Forall P (firstn k l).
Proof.
  intros H; revert k; induction H as [|x l Hx _ IH]; intros [|k]; simpl;
    auto.
Qed.

(** The mean of a tensor with rows of [C] channels has [C] channels. *)
Lemma sum0_length (C : nat) (x : tensor2) :
  uniform_rows C x -> length (sum0 x) = C.
Proof.
  intros [Hne Hx]. destruct x as [|r x]; [contradiction|]. simpl.
  apply Forall_cons_iff in Hx. destruct Hx as [Hr Hx']. clear Hne.
  revert r Hr. induction Hx' as [|r' x Hr' _ IH]; simpl; intros r Hr;
    [exact Hr|].
  apply IH. rewrite zip_with_length. lia.
Qed.

Lemma mean0_length (C : nat) (x : tensor2) :
  uniform_rows C x -> length (mean0 x) = C.
Proof. intros H. unfold mean0. rewrite length_map. now apply sum0_length. Qed.

Lemma uniform_square (C : nat) (x : tensor2) :
  uniform_rows C x -> uniform_rows C (map square x).
Proof.
  intros [Hne Hx]. split; [destruct x; [contradiction|discriminate]|].
  apply Forall_map. eapply Forall_impl; [|exact Hx].
  intros r Hr. unfold square. now rewrite length_map.
Qed.

Lemma concat_map_square (x : tensor3) :
  concat (map (map square) x) = map square (concat x).
Proof. symmetry. apply concat_map. Qed.






Lemma constant_uniform (C : nat) (v : R) (x : tensor2) :
  constant_rows C v x -> uniform_rows C x.
Proof.
  intros [Hne Hx]. split; [exact Hne|].
  eapply Forall_impl; [|exact Hx]. intros r <-. apply repeat_length.
Qed.



End Statistics.

Section StatisticsLoops.

Local Open Scope R_scope.

Variable num_samples : Z.
Hypothesis some_samples : (0 < num_samples)%Z.

Lemma nth_error_in_range {A : Type} (l : list A) (k : nat) :
  Py.len l = num_samples -> (k < Z.to_nat num_samples)%nat ->
  exists a, nth_error l k = Some a /\ Py.index l (Z.of_nat k) = Ok a.
Proof.
  intros Hl Hk. unfold Py.len in Hl.
  destruct (nth_error l k) as [a|] eqn:E.
  - exists a. split; [reflexivity|]. apply index_some; [lia|].
    now rewrite Nat2Z.id.
  - apply nth_error_None in E. lia.
Qed.

Lemma firstn_all_len {A : Type} (l : list A) :
  Py.len l = num_samples -> firstn (Z.to_nat num_samples) l = l.
Proof.
  intros Hl. unfold Py.len in Hl. apply firstn_all2. lia.
Qed.

Lemma means_nonempty {A : Type} (f : A -> vec) (l : list A) :
  Py.len l = num_samples -> map f l <> [].
Proof.
  intros Hl. unfold Py.len in Hl. destruct l; simpl in *; [lia|discriminate].
Qed.

Lemma get_edge_stats_spec (Ce : nat) (graphs : list graph)
      (xs : list tensor2) :
  Py.len graphs = num_samples ->
  map edata_x graphs = map Some xs ->
  Forall (uniform_rows Ce) xs ->
  _get_edge_stats num_samples graphs
  = Ok (mkEdgeStats
          (weighted_mean Ce num_samples (map mean0 xs))
          (sqrt (zip_with Rminus
                   (weighted_mean Ce num_samples
                      (map (fun x => mean0 (map square x)) xs))
                   (square (weighted_mean Ce num_samples (map mean0 xs)))))).
Proof.
  intros Hlen Hx Hu.
  assert (Hxl : Py.len xs = num_samples).
  { unfold Py.len in *. rewrite <- Hlen.
    rewrite <- (length_map edata_x graphs), Hx. now rewrite length_map. }
  set (ms := map mean0 xs).
  set (qs := map (fun x => mean0 (map square x)) xs).
  assert (Hms : Forall (fun m => length m = Ce) ms).
  { apply Forall_map. eapply Forall_impl; [|exact Hu].
    intros x. apply mean0_length. }
  assert (Hqs : Forall (fun m => length m = Ce) qs).
  { apply Forall_map. eapply Forall_impl; [|exact Hu].
    intros x Hxu. apply mean0_length. now apply uniform_square. }
  unfold _get_edge_stats.
  rewrite <- (Z2Nat.id num_samples) at 1 by lia.
  match goal with
  | |- bind (Py.for_loop _ ?b ?s) _ = _ =>
      destruct (for_loop_invariant
                  (fun k st => st = (acc_val Ce num_samples (firstn k ms),
                                     acc_val Ce num_samples (firstn k qs)))
                  b (Z.to_nat num_samples) s) as [st [Hloop Hst]]
  end.
  { reflexivity. }
  { intros k st Hk ->.
    destruct (nth_error_in_range graphs k Hlen Hk) as [g [Hg Hig]].
    destruct (nth_error_in_range xs k Hxl Hk) as [x [Hxk _]].
    assert (Hgx : edata_x g = Some x).
    { pose proof (map_nth_error edata_x _ _ Hg) as H1.
      pose proof (map_nth_error (@Some tensor2) _ _ Hxk) as H2.
      rewrite Hx in H1. congruence. }
    assert (Hux : uniform_rows Ce x).
    { rewrite Forall_forall in Hu. apply Hu. eapply nth_error_In; eauto. }
    rewrite Hig. cbn [bind]. unfold get_edata_x. rewrite Hgx. cbn [bind].
    rewrite iadd_acc;
      [|now apply Forall_firstn | now apply mean0_length].
    cbn [bind].
    rewrite iadd_acc;
      [|now apply Forall_firstn
       |now apply mean0_length, uniform_square].
    cbn [bind]. eexists. split; [reflexivity|].
    unfold ms, qs.
    rewrite (firstn_succ_map mean0 xs k x Hxk).
    rewrite (firstn_succ_map (fun x => mean0 (map square x)) xs k x Hxk).
    reflexivity. }
  rewrite Hloop, Hst. cbn [bind].
  unfold ms, qs. rewrite !firstn_all_len by (unfold Py.len in *;
                                             rewrite length_map; exact Hxl).
  fold ms qs.
  rewrite std_of_acc; auto.
  - cbn [bind]. unfold acc_val.
    destruct ms eqn:E; [|reflexivity].
    exfalso. eapply (means_nonempty mean0 xs Hxl). exact E.
  - apply means_nonempty. exact Hxl.
  - unfold ms, qs. now rewrite !length_map.
Qed.

Lemma mean01_length (C : nat) (x : tensor3) :
  uniform_rows C (concat x) -> length (mean01 x) = C.
Proof. apply mean0_length. Qed.

Lemma mean01_square_length (C : nat) (x : tensor3) :
  uniform_rows C (concat x) ->
  length (mean01 (map (map square) x)) = C.
Proof.
  intros Hx. unfold mean01. rewrite concat_map_square.
  now apply mean0_length, uniform_square.
Qed.

Lemma get_node_stats_spec (Cw Cs : nat)
      (node_features : list features_t) (node_targets : list targets_t) :
  Py.len node_features = num_samples ->
  Py.len node_targets = num_samples ->
  Forall (fun f => uniform_rows Cw (concat (features_world_pos f)))
         node_features ->
  Forall (fun t => uniform_rows Cw (concat (targets_world_pos t)) /\
                   uniform_rows Cs (concat (targets_stress t)))
         node_targets ->
  _get_node_stats num_samples node_features node_targets
  = Ok (mkNodeStats
          (weighted_mean Cw num_samples (world_pos_means node_features))
          (weighted_std num_samples Cw (world_pos_means node_features)
                        (world_pos_meansqrs node_features))
          (weighted_mean Cw num_samples (diff_means node_targets))
          (weighted_std num_samples Cw (diff_means node_targets)
                        (diff_meansqrs node_targets))
          (weighted_mean Cs num_samples (stress_means node_targets))
          (weighted_std num_samples Cs (stress_means node_targets)
                        (stress_meansqrs node_targets))).
Proof.
  intros Hfl Htl Hf Ht.
  assert (Hlens : forall (A : Type) (f : A -> vec) (l : list A),
             Py.len l = num_samples -> Py.len (map f l) = num_samples).
  { intros A f l Hl. unfold Py.len in *. now rewrite length_map. }
  assert (Hwm : Forall (fun m => length m = Cw)
                       (world_pos_means node_features)).
  { apply Forall_map. eapply Forall_impl; [|exact Hf].
    intros f. apply mean01_length. }
  assert (Hwq : Forall (fun m => length m = Cw)
                       (world_pos_meansqrs node_features)).
  { apply Forall_map. eapply Forall_impl; [|exact Hf].
    intros f. apply mean01_square_length. }
  assert (Hdm : Forall (fun m => length m = Cw) (diff_means node_targets)).
  { apply Forall_map. eapply Forall_impl; [|exact Ht].
    intros t [H1 _]. now apply mean01_length. }
  assert (Hdq : Forall (fun m => length m = Cw) (diff_meansqrs node_targets)).
  { apply Forall_map. eapply Forall_impl; [|exact Ht].
    intros t [H1 _]. now apply mean01_square_length. }
  assert (Hsm : Forall (fun m => length m = Cs) (stress_means node_targets)).
  { apply Forall_map. eapply Forall_impl; [|exact Ht].
    intros t [_ H2]. now apply mean01_length. }
  assert (Hsq : Forall (fun m => length m = Cs)
                       (stress_meansqrs node_targets)).
  { apply Forall_map. eapply Forall_impl; [|exact Ht].
    intros t [_ H2]. now apply mean01_square_length. }
  unfold _get_node_stats.
  rewrite <- (Z2Nat.id num_samples) at 1 by lia.
  match goal with
  | |- bind (Py.for_loop _ ?b ?s) _ = _ =>
      destruct (for_loop_invariant
        (fun k acc =>
           acc = mkNodeAcc
             (acc_val Cw num_samples (firstn k (world_pos_means node_features)))
             (acc_val Cw num_samples
                      (firstn k (world_pos_meansqrs node_features)))
             (acc_val Cw num_samples (firstn k (diff_means node_targets)))
             (acc_val Cw num_samples (firstn k (diff_meansqrs node_targets)))
             (acc_val Cs num_samples (firstn k (stress_means node_targets)))
             (acc_val Cs num_samples
                      (firstn k (stress_meansqrs node_targets))))
        b (Z.to_nat num_samples) s) as [acc [Hloop Hacc]]
  end.
  { reflexivity. }
  { intros k acc Hk ->.
    destruct (nth_error_in_range node_features k Hfl Hk) as [f [Hfk Hif]].
    destruct (nth_error_in_range node_targets k Htl Hk) as [t [Htk Hit]].
    assert (Huf : uniform_rows Cw (concat (features_world_pos f))).
    { rewrite Forall_forall in Hf. apply Hf. eapply nth_error_In; eauto. }
    assert (Hut : uniform_rows Cw (concat (targets_world_pos t)) /\
                  uniform_rows Cs (concat (targets_stress t))).
    { rewrite Forall_forall in Ht. apply Ht. eapply nth_error_In; eauto. }
    destruct Hut as [Hud Hus].
    rewrite Hif, Hit. cbn [bind acc_world_pos_mean acc_world_pos_meansqr
                             acc_world_pos_diff_mean acc_world_pos_diff_meansqr
                             acc_stress_mean acc_stress_meansqr].
    rewrite iadd_acc;
      [|now apply Forall_firstn | now apply mean01_length].
    cbn [bind].
    rewrite iadd_acc;
      [|now apply Forall_firstn | now apply mean01_square_length].
    cbn [bind].
    rewrite iadd_acc;
      [|now apply Forall_firstn | now apply mean01_length].
    cbn [bind].
    rewrite iadd_acc;
      [|now apply Forall_firstn | now apply mean01_square_length].
    cbn [bind].
    rewrite iadd_acc;
      [|now apply Forall_firstn | now apply mean01_length].
    cbn [bind].
    rewrite iadd_acc;
      [|now apply Forall_firstn | now apply mean01_square_length].
    cbn [bind]. eexists. split; [reflexivity|].
    unfold world_pos_means, world_pos_meansqrs, diff_means, diff_meansqrs,
      stress_means, stress_meansqrs.
    rewrite !(firstn_succ_map _ node_features k f Hfk).
    rewrite !(firstn_succ_map _ node_targets k t Htk).
    reflexivity. }
  rewrite Hloop, Hacc. cbn [bind acc_world_pos_mean acc_world_pos_meansqr
                             acc_world_pos_diff_mean acc_world_pos_diff_meansqr
                             acc_stress_mean acc_stress_meansqr].
  rewrite !firstn_all_len
    by (unfold world_pos_means, world_pos_meansqrs, diff_means,
        diff_meansqrs, stress_means, stress_meansqrs; now apply Hlens).
  assert (Hne1 : world_pos_means node_features <> [])
    by now apply means_nonempty.
  assert (Hne2 : diff_means node_targets <> []) by now apply means_nonempty.
  assert (Hne3 : stress_means node_targets <> []) by now apply means_nonempty.
  rewrite !std_of_acc; auto;
    try (unfold world_pos_means, world_pos_meansqrs, diff_means,
         diff_meansqrs, stress_means, stress_meansqrs;
         now rewrite !length_map).
  cbn [bind]. unfold acc_val, weighted_std.
  destruct (world_pos_means node_features); [contradiction|].
  destruct (diff_means node_targets); [contradiction|].
  destruct (stress_means node_targets); [contradiction|].
  reflexivity.
Qed.

End StatisticsLoops.

Section ConstantData.

Local Open Scope R_scope.

Variables (num_samples : Z) (C : nat) (v : R).
Hypothesis some_samples : (0 < num_samples)%Z.



End ConstantData.


(** ** Loops of the constructor *)

Section Loops.

Lemma range_to_nat (n : Z) : Py.range n = Py.range (Z.of_nat (Z.to_nat n)).
Proof. unfold Py.range. now rewrite Nat2Z.id. Qed.

(** What a loop over [range(n)] that ended without exception establishes. *)
Lemma for_loop_ok_inv {S : Type} (I : nat -> S -> Prop)
      (body : Z -> S -> result S) (n : nat) (s0 s' : S) :
  Py.for_loop (Py.range (Z.of_nat n)) body s0 = Ok s' ->
  I 0%nat s0 ->
  (forall k s s1, (k < n)%nat -> I k s -> body (Z.of_nat k) s = Ok s1 ->
                  I (Datatypes.S k) s1) ->
  I n s'.
Proof.
  intros Hloop H0 Hstep. unfold Py.range in Hloop. rewrite Nat2Z.id in Hloop.
  assert (Hgen : forall m a s, (a + m = n)%nat -> I a s ->
            Py.for_loop (map Z.of_nat (seq a m)) body s = Ok s' -> I n s').
  { induction m as [|m IH]; intros a s Ha Hs; simpl.
    - intros [= <-]. now replace n with a by lia.
    - destruct (body (Z.of_nat a) s) as [s1|] eqn:Hb; simpl; [|discriminate].
      apply IH; [lia|]. apply (Hstep a s s1); [lia|assumption|assumption]. }
  apply (Hgen n 0%nat s0); [lia|assumption|assumption].
Qed.

Lemma update_length {A : Type} (xs : list A) k v :
  length (Py.update xs k v) = length xs.
Proof.
  revert k; induction xs as [|x xs IH]; intros [|k]; simpl; auto.
Qed.

Lemma update_nth_error_eq {A : Type} (xs : list A) k v :
  (k < length xs)%nat -> nth_error (Py.update xs k v) k = Some v.
Proof.
  revert k; induction xs as [|x xs IH]; intros [|k]; simpl; intros Hk;
    try lia; auto.
  apply IH. lia.
Qed.

Lemma update_nth_error_neq {A : Type} (xs : list A) k j v :
  j <> k -> nth_error (Py.update xs k v) j = nth_error xs j.
Proof.
  revert k j; induction xs as [|x xs IH]; intros [|k] [|j]; simpl;
    intros Hjk; try congruence; auto.
Qed.

Lemma set_index_nonneg {A : Type} (xs : list A) k v :
  (k < length xs)%nat ->
  Py.set_index xs (Z.of_nat k) v = Ok (Py.update xs k v).
Proof.
  intros Hk. unfold Py.set_index, Py.len.
  destruct (Z.ltb_spec (Z.of_nat k) 0); [lia|].
  destruct (Z.leb_spec 0 (Z.of_nat k)); [|lia].
  destruct (Z.ltb_spec (Z.of_nat k) (Z.of_nat (length xs))); [|lia].
  simpl. now rewrite Nat2Z.id.
Qed.

Lemma set_index_ok_inv {A : Type} (xs : list A) k v ys :
  Py.set_index xs (Z.of_nat k) v = Ok ys ->
  (k < length xs)%nat /\ ys = Py.update xs k v.
Proof.
  unfold Py.set_index, Py.len.
  destruct (Z.ltb_spec (Z.of_nat k) 0); [lia|].
  destruct (Z.leb_spec 0 (Z.of_nat k)); [|lia].
  destruct (Z.ltb_spec (Z.of_nat k) (Z.of_nat (length xs))); simpl;
    [|discriminate].
  rewrite Nat2Z.id. intros [= <-]. split; [lia|reflexivity].
Qed.

Lemma index_nat_inv {A : Type} (xs : list A) k a :
  Py.index xs (Z.of_nat k) = Ok a -> nth_error xs k = Some a.
Proof.
  intros H. pose proof (index_ok_inv _ _ _ H) as [Hr _].
  rewrite index_nonneg in H by lia. rewrite Nat2Z.id in H.
  destruct (nth_error xs k); congruence.
Qed.

Lemma firstn_snoc {A : Type} (l : list A) k a :
  nth_error l k = Some a -> firstn (S k) l = firstn k l ++ [a].
Proof.
  revert k; induction l as [|x l IH]; intros [|k]; simpl; try discriminate.
  - intros [= ->]. reflexivity.
  - intros Hk. f_equal. now apply IH.
Qed.

Lemma skipn_cons_nth {A : Type} (l : list A) k a rest :
  skipn k l = a :: rest -> nth_error l k = Some a /\ skipn (S k) l = rest.
Proof.
  revert k; induction l as [|x l IH]; intros [|k]; simpl; try discriminate.
  - intros [= -> ->]. auto.
  - apply IH.
Qed.

Lemma Forall2_snoc {A B : Type} (P : A -> B -> Prop) l l' a b :
  Forall2 P l l' -> P a b -> Forall2 P (l ++ [a]) (l' ++ [b]).
Proof. intros H Hab. apply Forall2_app; [exact H|]. now constructor. Qed.

End Loops.

(** ** What the constructor builds *)

Section GraphPhase.

Variables (split : String.string) (num_steps : Z) (src : list trajectory).

Lemma get_next_skipn k d it :
  get_next (skipn k src) = Ok (d, it) ->
  nth_error src k = Some d /\ it = skipn (S k) src.
Proof.
  unfold get_next. destruct (skipn k src) as [|d' it'] eqn:E; [discriminate|].
  intros [= -> ->]. apply skipn_cons_nth in E. destruct E; auto.
Qed.

Lemma graph_step_inv k gp st :
  graph_phase_of split (map (truncate num_steps) (firstn k src)) gp ->
  graph_step split num_steps (skipn k src, gp) = Ok st ->
  fst st = skipn (S k) src /\
  graph_phase_of split (map (truncate num_steps) (firstn (S k) src)) (snd st).
Proof.
  intros [HG [HO [HN HS]]] Hstep. unfold graph_step in Hstep.
  bind_inv Hstep. destruct a as [d it].
  apply get_next_skipn in E. destruct E as [Hd ->].
  bind_inv Hstep. rename a into cells0.
  bind_inv Hstep. destruct a as [s t].
  bind_inv Hstep. rename a into g0.
  bind_inv Hstep. rename a into mp0.
  bind_inv Hstep. rename a into g1.
  bind_inv Hstep. rename a into nt0.
  bind_inv Hstep. rename a into oh.
  assert (Htg : traj_graph (truncate num_steps d) = Ok g1).
  { unfold traj_graph. rewrite E. cbn [bind]. rewrite E0. cbn [bind].
    rewrite E1. cbn [bind]. rewrite E2. cbn [bind]. exact E3. }
  assert (Hnt : traj_node_type (truncate num_steps d)
                = Ok (mkTyped UInt8 (map to_uint8 nt0))).
  { unfold traj_node_type. rewrite E4. reflexivity. }
  rewrite (firstn_snoc _ _ _ Hd), map_app. cbn [map].
  unfold graph_phase_of.
  destruct (String.eqb split "train") eqn:Es; cbn [negb] in Hstep;
    injection Hstep as <-; cbn [fst snd gp_graphs gp_cells gp_node_type
                                  gp_noise_mask gp_rollout_mask gp_mesh_pos].
  - split; [reflexivity|].
    split; [now apply Forall2_snoc|].
    split; [apply Forall2_snoc; eauto|].
    split; [apply Forall2_snoc; eauto|].
    exact HS.
  - split; [reflexivity|].
    split; [now apply Forall2_snoc|].
    split; [apply Forall2_snoc; eauto|].
    split; [apply Forall2_snoc; eauto|].
    destruct HS as [HC [HR HM]].
    split; [now apply Forall2_snoc|].
    split; [apply Forall2_snoc; eauto|].
    now apply Forall2_snoc.
Qed.

Lemma graph_loop_inv (n : Z) it gp :
  Py.for_loop (Py.range n) (fun _ st => graph_step split num_steps st)
              (src, mkGraphPhase [] [] [] [] [] []) = Ok (it, gp) ->
  (Z.to_nat n <= length src)%nat /\
  graph_phase_of split (map (truncate num_steps) (firstn (Z.to_nat n) src)) gp.
Proof.
  intros Hloop. rewrite range_to_nat in Hloop.
  pose proof (for_loop_ok_inv
    (fun k st => (k <= length src)%nat /\ fst st = skipn k src /\
                 graph_phase_of split
                   (map (truncate num_steps) (firstn k src)) (snd st))
    _ _ _ _ Hloop) as Hinv.
  cbn [fst snd] in Hinv.
  destruct Hinv as [Hn [_ Hgp]]; [| |auto].
  - split; [lia|]. split; [reflexivity|].
    unfold graph_phase_of; simpl.
    repeat split; try constructor.
    destruct (String.eqb split "train"); repeat split; constructor.
  - intros k [it0 gp0] st1 Hk [Hlen [Hit Hg]] Hstep.
    cbn [fst snd] in *. subst it0.
    destruct (graph_step_inv k gp0 st1 Hg Hstep) as [H1 H2].
    split; [|auto].
    unfold graph_step in Hstep. bind_inv Hstep. destruct a as [d it'].
    apply get_next_skipn in E. destruct E as [Hd _].
    assert (k < length src)%nat by (apply nth_error_Some; congruence).
    lia.
Qed.

End GraphPhase.

(** ** Loops that update a list in place *)

Section InPlace.

Context {A : Type}.

Lemma firstn_update_succ (xs : list A) k v :
  (k < length xs)%nat ->
  firstn (S k) (Py.update xs k v) = firstn k xs ++ [v].
Proof.
  revert k; induction xs as [|x xs IH]; intros [|k]; simpl; intros Hk;
    try lia; auto.
  f_equal. apply IH. lia.
Qed.

Lemma skipn_update_succ (xs : list A) k v :
  skipn (S k) (Py.update xs k v) = skipn (S k) xs.
Proof.
  revert k; induction xs as [|x xs IH]; intros [|k]; simpl; auto.
  apply IH.
Qed.

Lemma update_update (xs : list A) k v w :
  Py.update (Py.update xs k v) k w = Py.update xs k w.
Proof.
  revert k; induction xs as [|x xs IH]; intros [|k]; simpl; auto.
  f_equal. apply IH.
Qed.

Lemma skipn_eq_nth (xs ys : list A) k :
  skipn k xs = skipn k ys ->
  nth_error xs k = nth_error ys k /\ skipn (S k) xs = skipn (S k) ys.
Proof.
  intros H. split.
  - rewrite <- (Nat.add_0_r k) at 1 2. rewrite <- !nth_error_skipn.
    now rewrite H.
  - change (S k) with (1 + k)%nat. rewrite <- !skipn_skipn. now rewrite H.
Qed.

Variable f : A -> result A.

(** A loop whose iteration [k] replaces element [k] by its image under
    [f]. *)
Lemma inplace_loop (body : Z -> list A -> result (list A)) (n : Z)
      (xs0 xs : list A) :
  (forall k l l', body (Z.of_nat k) l = Ok l' ->
                  exists a b, nth_error l k = Some a /\ f a = Ok b /\
                              l' = Py.update l k b) ->
  Py.for_loop (Py.range n) body xs0 = Ok xs ->
  length xs = length xs0 /\
  (Z.to_nat n <= length xs0)%nat /\
  Forall2 (fun a b => f a = Ok b)
          (firstn (Z.to_nat n) xs0) (firstn (Z.to_nat n) xs) /\
  skipn (Z.to_nat n) xs = skipn (Z.to_nat n) xs0.
Proof.
  intros Hbody Hloop. rewrite range_to_nat in Hloop.
  apply (for_loop_ok_inv
           (fun k l => length l = length xs0 /\ (k <= length xs0)%nat /\
                       Forall2 (fun a b => f a = Ok b)
                               (firstn k xs0) (firstn k l) /\
                       skipn k l = skipn k xs0)
           _ _ _ _ Hloop).
  - repeat split; [lia | constructor].
  - intros k l l' Hk [Hlen [Hle [HF Hs]]] Hb.
    destruct (Hbody k l l' Hb) as [a [b [Ha [Hfa ->]]]].
    assert (Hkl : (k < length l)%nat) by (apply nth_error_Some; congruence).
    destruct (skipn_eq_nth _ _ _ Hs) as [Hnth Hs'].
    rewrite Ha in Hnth. symmetry in Hnth.
    split; [now rewrite update_length|].
    split; [lia|].
    split.
    + rewrite firstn_update_succ by assumption.
      rewrite (firstn_snoc _ _ _ Hnth). now apply Forall2_snoc.
    + now rewrite skipn_update_succ.
Qed.

End InPlace.

(** A loop on a pair of states that are updated independently. *)
Lemma for_loop_pair {S T : Type} (bs : Z -> S -> result S)
      (bt : Z -> T -> result T) (idxs : list Z) s0 t0 s t :
  Py.for_loop idxs
    (fun i st => s' <- bs i (fst st) ;; t' <- bt i (snd st) ;; Ok (s', t'))
    (s0, t0) = Ok (s, t) ->
  Py.for_loop idxs bs s0 = Ok s /\ Py.for_loop idxs bt t0 = Ok t.
Proof.
  revert s0 t0; induction idxs as [|i idxs IH]; simpl; intros s0 t0 H.
  - injection H as <- <-. auto.
  - destruct (bs i s0) as [s1|]; cbn [bind] in *; [|discriminate].
    destruct (bt i t0) as [t1|]; cbn [bind] in *; [|discriminate].
    now apply IH.
Qed.

(** ** The normalization loops and the feature phase *)

Section NormalizationLoops.

Lemma for_loop_ext {S : Type} (b1 b2 : Z -> S -> result S) idxs s :
  (forall i s, b1 i s = b2 i s) ->
  Py.for_loop idxs b1 s = Py.for_loop idxs b2 s.
Proof.
  intros Hb. revert s; induction idxs as [|i idxs IH]; intros s; simpl;
    [reflexivity|].
  rewrite Hb. destruct (b2 i s); simpl; auto.
Qed.

Lemma normalize_edge_step_inv (st : edge_stats_t) k l l' :
  normalize_edge_step st (Z.of_nat k) l = Ok l' ->
  exists a b, nth_error l k = Some a /\ normalized_graph st a = Ok b /\
              l' = Py.update l k b.
Proof.
  unfold normalize_edge_step. intros H.
  bind_inv H. rename a into g. apply index_nat_inv in E.
  bind_inv H. rename a into x.
  bind_inv H. rename a into g'.
  apply set_index_ok_inv in H. destruct H as [_ ->].
  exists g, g'. split; [exact E|]. split; [|reflexivity].
  unfold normalized_graph. rewrite E0. exact E1.
Qed.

Lemma normalize_node_step_split (st : node_stats_t) i ft :
  normalize_node_step st i ft
  = (nf <- features_step st i (fst ft) ;;
     nt <- targets_step st i (snd ft) ;;
     Ok (nf, nt)).
Proof.
  destruct ft as [nf nt]. unfold normalize_node_step, features_step,
    targets_step. cbn [fst snd].
  repeat match goal with
         | |- context [bind ?m _] =>
             match m with
             | bind _ _ => fail 1
             | _ => destruct m; cbn [bind]; try reflexivity
             end
         end.
Qed.

Lemma features_step_inv (st : node_stats_t) k l l' :
  features_step st (Z.of_nat k) l = Ok l' ->
  exists a b, nth_error l k = Some a /\ normalized_features st a = Ok b /\
              l' = Py.update l k b.
Proof.
  unfold features_step. intros H.
  bind_inv H. rename a into f. apply index_nat_inv in E.
  bind_inv H. rename a into w.
  apply set_index_ok_inv in H. destruct H as [_ ->].
  exists f, (mkFeatures w). split; [exact E|]. split; [|reflexivity].
  unfold normalized_features. now rewrite E0.
Qed.

Lemma targets_step_inv (st : node_stats_t) k l l' :
  targets_step st (Z.of_nat k) l = Ok l' ->
  exists a b, nth_error l k = Some a /\ normalized_targets st a = Ok b /\
              l' = Py.update l k b.
Proof.
  unfold targets_step. intros H.
  bind_inv H. rename a into t. apply index_nat_inv in E.
  bind_inv H. rename a into d.
  bind_inv H. rename a into l1.
  apply set_index_ok_inv in E1. destruct E1 as [Hk ->].
  bind_inv H. rename a into t'. apply index_nat_inv in E1.
  rewrite update_nth_error_eq in E1 by assumption. injection E1 as <-.
  bind_inv H. rename a into s.
  apply set_index_ok_inv in H. destruct H as [_ ->].
  cbn [targets_world_pos targets_stress] in *.
  exists t, (mkTargets d s). split; [exact E|]. split.
  - unfold normalized_targets. now rewrite E0, E1.
  - apply update_update.
Qed.

End NormalizationLoops.

Section FeaturePhase.

Variables (split : String.string) (num_steps : Z) (noise_std : R)
          (noise_mask : list (list bool)) (src : list trajectory).

Lemma feature_step_inv k fs ts st :
  feature_step split num_steps noise_std noise_mask (Z.of_nat k)
               (skipn k src, (fs, ts)) = Ok st ->
  exists d, nth_error src k = Some d /\
            st = (skipn (S k) src,
                  (fs ++ [raw_features (truncate num_steps d)],
                   ts ++ [raw_targets (truncate num_steps d)])).
Proof.
  unfold feature_step. intros H.
  bind_inv H. destruct a as [d it].
  apply get_next_skipn in E. destruct E as [Hd ->].
  exists d. split; [exact Hd|].
  destruct (String.eqb split "train").
  - bind_inv H. unfold _add_noise in H. now injection H as <-.
  - now injection H as <-.
Qed.

Lemma feature_loop_inv (n : Z) it fs ts :
  Py.for_loop (Py.range n)
              (feature_step split num_steps noise_std noise_mask)
              (src, ([], [])) = Ok (it, (fs, ts)) ->
  fs = map raw_features (map (truncate num_steps) (firstn (Z.to_nat n) src)) /\
  ts = map raw_targets (map (truncate num_steps) (firstn (Z.to_nat n) src)).
Proof.
  intros Hloop. rewrite range_to_nat in Hloop.
  pose proof (for_loop_ok_inv
    (fun k st =>
       fst st = skipn k src /\
       fst (snd st)
       = map raw_features (map (truncate num_steps) (firstn k src)) /\
       snd (snd st)
       = map raw_targets (map (truncate num_steps) (firstn k src)))
    _ _ _ _ Hloop) as Hinv.
  cbn [fst snd] in Hinv. destruct Hinv as [_ [H1 H2]]; auto.
  intros k [it0 [fs0 ts0]] st1 Hk [Hit [Hf Ht]] Hstep.
  cbn [fst snd] in *. subst it0.
  apply feature_step_inv in Hstep. destruct Hstep as [d [Hd ->]].
  cbn [fst snd]. rewrite (firstn_snoc _ _ _ Hd), !map_app. cbn [map].
  subst fs0 ts0. auto.
Qed.

End FeaturePhase.

(** ** The constructed dataset *)

Section Constructor.

Variables (fs : files) (split0 : String.string) (n T : Z) (noise : R).

Lemma firstn_length_le {A : Type} (l : list A) k :
  (k <= length l)%nat -> length (firstn k l) = k.
Proof. intros. rewrite length_firstn. lia. Qed.

Lemma firstn_all_eq {A : Type} (l : list A) k :
  length l = k -> firstn k l = l.
Proof. intros <-. apply firstn_all. Qed.

Lemma Forall2_map_left {A B C : Type} (f : A -> B) (P : B -> C -> Prop)
      (l : list A) (l' : list C) :
  Forall2 P (map f l) l' -> Forall2 (fun a c => P (f a) c) l l'.
Proof.
  revert l'; induction l as [|a l IH]; intros l' H; inversion H; subst;
    constructor; auto.
Qed.

(** The constructor establishes [built]. *)
Lemma init_built (self : dataset) :
  __init__ fs split0 n T noise = Ok self -> built fs split0 n T self.
Proof.
  unfold __init__. intros H.
  bind_inv H. destruct a as [it gp].
  apply graph_loop_inv in E. destruct E as [Hsrc Hgp].
  bind_inv H. rename a into est.
  bind_inv H. rename a into gs.
  bind_inv H. destruct a as [it' [fs0 ts0]].
  apply feature_loop_inv in E1. destruct E1 as [-> ->].
  bind_inv H. rename a into nst.
  bind_inv H. destruct a as [fs1 ts1].
  injection H as <-.
  set (D := map (truncate T) (firstn (Z.to_nat n) (tfrecord fs))) in *.
  assert (HD : length D = Z.to_nat n).
  { unfold D. rewrite length_map. now apply firstn_length_le. }
  assert (Hgl : length (gp_graphs gp) = Z.to_nat n).
  { destruct Hgp as [HG _]. apply Forall2_length in HG. congruence. }
  (* the edge normalization loop *)
  apply (inplace_loop (normalized_graph est)) in E0;
    [|apply normalize_edge_step_inv].
  destruct E0 as [Hgs [_ [HFg _]]].
  rewrite (firstn_all_eq (gp_graphs gp)) in HFg by assumption.
  rewrite (firstn_all_eq gs) in HFg by congruence.
  (* the node normalization loop *)
  rewrite (for_loop_ext _ _ _ _ (normalize_node_step_split nst)) in E2.
  apply for_loop_pair in E2. destruct E2 as [Ef Et].
  apply (inplace_loop (normalized_features nst)) in Ef;
    [|apply features_step_inv].
  apply (inplace_loop (normalized_targets nst)) in Et;
    [|apply targets_step_inv].
  destruct Ef as [Hfl [_ [HFf _]]]. destruct Et as [Htl [_ [HFt _]]].
  rewrite length_map in Hfl, Htl.
  rewrite (firstn_all_eq (map raw_features D)) in HFf
    by (now rewrite length_map).
  rewrite (firstn_all_eq fs1) in HFf by congruence.
  rewrite (firstn_all_eq (map raw_targets D)) in HFt
    by (now rewrite length_map).
  rewrite (firstn_all_eq ts1) in HFt by congruence.
  constructor; cbn [split num_samples num_steps length_ graphs cells
                      node_type rollout_mask mesh_pos edge_stats
                      node_features node_targets node_stats fst snd];
    try reflexivity; try assumption.
  - exists gp.
    split; [exact Hgp|]. do 4 (split; [reflexivity|]).
    split; [exact HFg|].
    intros Htrain. rewrite Htrain in E. exact E.
  - apply Forall2_map_left in HFf. exact HFf.
  - apply Forall2_map_left in HFt. exact HFt.
Qed.

End Constructor.

(** ** Shapes of the normalized tensors *)

Section Shapes.

Lemma mapM_Forall2_length {A B : Type} (f : list A -> result (list B)) xs ys :
  (forall x y, f x = Ok y -> length y = length x) ->
  mapM f xs = Ok ys ->
  length ys = length xs /\ Forall2 (fun x y => length y = length x) xs ys.
Proof.
  intros Hf H. split; [eapply mapM_length; eauto|].
  apply mapM_inv in H. induction H; constructor; auto.
Qed.

(** [normalize_node] keeps the numbers of steps and of rows per step. *)
Lemma normalize_node_shape (x y : tensor3) (mu std : vec) :
  normalize_node x mu std = Ok y ->
  length y = length x /\ Forall2 (fun a b => length b = length a) x y.
Proof.
  unfold normalize_node.
  destruct (_ || _)%bool; [discriminate|]. cbn [map_rows Tensor_list].
  apply mapM_Forall2_length. intros a b. apply mapM_length.
Qed.

Lemma Forall2_Forall_r {A B : Type} (P : A -> Prop) (Q : B -> Prop)
      (R : A -> B -> Prop) l l' :
  (forall a b, P a -> R a b -> Q b) ->
  Forall2 R l l' -> Forall P l -> Forall Q l'.
Proof.
  intros HPQ H; induction H as [|a b l l' Hab _ IH]; intros HP;
    constructor; inversion HP; subst; eauto.
Qed.

Lemma normalize_node_rows (N : Z) (x y : tensor3) (mu std : vec) :
  normalize_node x mu std = Ok y ->
  Forall (fun a => Py.len a = N) x ->
  Py.len y = Py.len x /\ Forall (fun b => Py.len b = N) y.
Proof.
  intros H Hx. apply normalize_node_shape in H. destruct H as [Hl HF].
  split; [unfold Py.len; now rewrite Hl|].
  eapply Forall2_Forall_r; [|exact HF|exact Hx].
  intros a b Ha Hab. unfold Py.len in *. now rewrite Hab.
Qed.

Lemma one_hot_length (k : nat) (v : list Z) (o : list (list Z)) :
  one_hot k v = Ok o -> length o = length v.
Proof.
  revert o; induction v as [|c v IH]; simpl; intros o H.
  - now injection H as <-.
  - destruct (one_hot_row k c); cbn [bind] in H; [|discriminate].
    destruct (one_hot k v); cbn [bind] in H; [|discriminate].
    injection H as <-. simpl. f_equal. now apply IH.
Qed.

Lemma one_hot_encode_length (nt : typed (list Z)) (o : list (list Z)) :
  _one_hot_encode nt = Ok o -> length o = length (data nt).
Proof.
  unfold _one_hot_encode. destruct (existsb _ _); [discriminate|].
  intros H. apply one_hot_length in H. rewrite H, mapped_codes.
  apply length_map.
Qed.

Lemma cat1_ok (a b : tensor2) :
  length a = length b ->
  cat1 a b = Ok (zip_with (@app R) a b).
Proof.
  revert b; induction a as [|r a IH]; intros [|s b]; simpl; try discriminate;
    [reflexivity|].
  intros [= Hl]. now rewrite IH.
Qed.

Lemma drop_last_steps (x : tensor3) (P : tensor2 -> Prop) :
  Forall P x -> Forall P (data (_drop_last x)).
Proof.
  intros H. unfold _drop_last; simpl. rewrite slice_drop_last.
  now apply Forall_firstn.
Qed.

Lemma Forall_skipn {A : Type} (P : A -> Prop) (l : list A) k :
  Forall P l -> Forall P (skipn k l).
Proof.
  intros H; revert k; induction H as [|x l Hx Hl IH]; intros [|k]; simpl;
    auto.
Qed.

Lemma push_forward_steps (x : tensor3) (P : tensor2 -> Prop) :
  Forall P x -> Forall P (data (_push_forward x)).
Proof.
  intros H. unfold _push_forward; simpl. rewrite slice_from_one.
  now apply Forall_skipn.
Qed.

Lemma Forall_zip_with {A B C : Type} (f : A -> B -> C) (P : A -> Prop)
      (Q : B -> Prop) (S : C -> Prop) xs ys :
  (forall a b, P a -> Q b -> S (f a b)) ->
  Forall P xs -> Forall Q ys -> Forall S (zip_with f xs ys).
Proof.
  intros Hf Hx; revert ys; induction Hx as [|x xs Hx _ IH]; intros ys Hy;
    destruct Hy; simpl; constructor; auto.
Qed.

Lemma push_forward_diff_steps (x : tensor3) (N : Z) :
  Forall (fun a => Py.len a = N) x ->
  Forall (fun a => Py.len a = N) (data (_push_forward_diff x)).
Proof.
  intros H. unfold _push_forward_diff; simpl.
  rewrite slice_from_one, slice_drop_last.
  eapply Forall_zip_with;
    [|apply Forall_skipn, H | apply Forall_firstn, H].
  intros a b Ha Hb. unfold Py.len in *.
  rewrite zip_with_length.
  assert (E : length a = length b)
    by (apply Nat2Z.inj; transitivity N; [exact Ha | symmetry; exact Hb]).
  rewrite E, Nat.min_id. exact Hb.
Qed.

End Shapes.

(** ** Well-formed data and the invariant of a constructed dataset *)

Section Invariant.

Lemma Forall2_nth_l {A B : Type} (P : A -> B -> Prop) l l' k a :
  Forall2 P l l' -> nth_error l k = Some a ->
  exists b, nth_error l' k = Some b /\ P a b.
Proof.
  intros H; revert k; induction H as [|x y l l' Hxy _ IH]; intros [|k];
    simpl; try discriminate.
  - intros [= ->]. eauto.
  - apply IH.
Qed.

Lemma normalized_graph_inv (st : edge_stats_t) (g0 g : graph) :
  normalized_graph st g0 = Ok g ->
  edges g = edges g0 /\ nnodes g = nnodes g0 /\
  exists x, normalize_edge g0 (edge_mean st) (edge_std st) = Ok x /\
            edata_x g = Some x /\
            ndata_x g = ndata_x g0 /\ ndata_y g = ndata_y g0 /\
            ndata_mesh_pos g = ndata_mesh_pos g0.
Proof.
  unfold normalized_graph. intros H. bind_inv H. rename a into x.
  unfold set_edata_x in H. destruct (Nat.eqb _ _); [|discriminate].
  injection H as <-. simpl. eauto 10.
Qed.

Variables (fs : files) (split0 : String.string) (n T : Z) (self : dataset).

Hypothesis Hbuilt : built fs split0 n T self.
Hypothesis Hn : (0 <= n)%Z.
Hypothesis Hreg : Forall (regular T) (decoded fs n T).

Lemma decoded_length : length (decoded fs n T) = Z.to_nat n.
Proof.
  unfold decoded. rewrite length_map, length_firstn.
  pose proof (built_source _ _ _ _ _ Hbuilt). lia.
Qed.

Lemma built_consistent : consistent self.
Proof.
  destruct Hbuilt as [Hsrc Hsp Hns Hnt Hlen [gp Hgp] HF HT].
  destruct Hgp as [[HG [HO [_ HS]]] [Hc [Hty [Hrm [Hmp [HN _]]]]]].
  pose proof decoded_length as HD.
  fold (decoded fs n T) in HG, HO, HS, HF, HT.
  set (D := decoded fs n T) in *.
  assert (Hlens : forall (A : Type) (l : list A),
             length D = length l -> Py.len l = n).
  { intros A l Hl. unfold Py.len. rewrite <- Hl, HD. lia. }
  constructor.
  - now rewrite Hns.
  - rewrite Hns, Hnt. intros Hpos.
    destruct D as [|d D'] eqn:ED; [simpl in HD; lia|].
    apply Forall_inv in Hreg. destruct Hreg as [G [_ [Hw _]]].
    unfold Py.len in Hw. lia.
  - now rewrite Hlen, Hns, Hnt.
  - rewrite Hns. apply Hlens. apply Forall2_length in HG, HN. congruence.
  - rewrite Hns. apply Hlens. now apply Forall2_length in HF.
  - rewrite Hns. apply Hlens. now apply Forall2_length in HT.
  - rewrite Hns, Hty. apply Hlens. now apply Forall2_length in HO.
  - rewrite Hsp, Hns, Hc, Hrm, Hmp. intros Hev. rewrite Hev in HS.
    destruct HS as [H1 [H2 H3]].
    apply Forall2_length in H1, H2, H3. auto.
  - rewrite Hns. intros k Hk.
    destruct (nth_error D k) as [d|] eqn:Ed;
      [|apply nth_error_None in Ed; lia].
    rewrite Forall_forall in Hreg.
    destruct (Hreg d (nth_error_In _ _ Ed))
      as [G0 [HG0 [Hw [Hs [Hwr [Hsr [Hcr Hpr]]]]]]].
    destruct (Forall2_nth_l _ _ _ _ _ HG Ed) as [G0' [EG0 HG0']].
    rewrite HG0 in HG0'. injection HG0' as <-.
    destruct (Forall2_nth_l _ _ _ _ _ HN EG0) as [G [EG HGn]].
    apply normalized_graph_inv in HGn. destruct HGn as [_ [Hnn _]].
    destruct (Forall2_nth_l _ _ _ _ _ HF Ed) as [F [EF HFn]].
    destruct (Forall2_nth_l _ _ _ _ _ HT Ed) as [Tg [ET HTn]].
    destruct (Forall2_nth_l _ _ _ _ _ HO Ed) as [O [EO [nt [Hnt0 Hoh]]]].
    unfold traj_node_type in Hnt0. bind_inv Hnt0. injection Hnt0 as <-.
    apply one_hot_encode_length in Hoh. cbn [data] in Hoh.
    rewrite length_map in Hoh.
    unfold normalized_features in HFn. bind_inv HFn. injection HFn as <-.
    unfold normalized_targets in HTn. bind_inv HTn. bind_inv HTn.
    injection HTn as <-.
    cbn [raw_features raw_targets features_world_pos targets_world_pos
         targets_stress] in *.
    apply (normalize_node_rows (nnodes G0)) in E0;
      [|now apply drop_last_steps].
    apply (normalize_node_rows (nnodes G0)) in E1;
      [|now apply push_forward_diff_steps].
    apply (normalize_node_rows (nnodes G0)) in E2;
      [|now apply push_forward_steps].
    destruct E0 as [L0 R0]. destruct E1 as [L1 R1]. destruct E2 as [L2 R2].
    rewrite drop_last_length in L0. rewrite push_forward_diff_length in L1.
    rewrite push_forward_length in L2. rewrite Hw in L0, L1.
    rewrite Hs in L2.
    exists G. eexists. eexists. exists O. rewrite Hnn, Hnt.
    split; [exact EG|]. split; [exact EF|]. split; [exact ET|].
    split; [rewrite Hty; exact EO|].
    cbn [features_world_pos targets_world_pos targets_stress].
    split; [unfold Py.len; rewrite Hoh; apply (Hcr _ eq_refl)|].
    split; [exact L0|]. split; [exact L1|]. split; [exact L2|].
    split; [exact R0|]. split; [exact R1|]. split; [exact R2|].
    rewrite Hsp. intros Hev. rewrite Hev in HS.
    destruct HS as [H1 [H2 H3]].
    destruct (Forall2_nth_l _ _ _ _ _ H1 Ed) as [C [EC _]].
    destruct (Forall2_nth_l _ _ _ _ _ H2 Ed) as [Rm [ER _]].
    destruct (Forall2_nth_l _ _ _ _ _ H3 Ed) as [M [EM HM]].
    exists M, C, Rm. rewrite Hmp, Hc, Hrm. auto.
Qed.

End Invariant.

(** ** The sample indexer *)

Section SampleIndexer.

Local Open Scope Z_scope.

Variable self : dataset.
Hypothesis Hc : consistent self.

Lemma nth_error_index {A : Type} (l : list A) (i : Z) a :
  0 <= i -> nth_error l (Z.to_nat i) = Some a -> Py.index l i = Ok a.
Proof. intros. now apply index_some. Qed.

Lemma Forall_nth_error {A : Type} (P : A -> Prop) (l : list A) k a :
  Forall P l -> nth_error l k = Some a -> P a.
Proof.
  intros H E. rewrite Forall_forall in H. apply H.
  eapply nth_error_In; eauto.
Qed.

Lemma len_nth_error {A : Type} (l : list A) (i : Z) :
  0 <= i < Py.len l -> exists a, nth_error l (Z.to_nat i) = Some a.
Proof.
  intros Hi. destruct (nth_error l (Z.to_nat i)) eqn:E; eauto.
  apply nth_error_None in E. unfold Py.len in Hi. lia.
Qed.

Lemma zip_with_len {A B C : Type} (f : A -> B -> C) xs ys (N : Z) :
  Py.len xs = N -> Py.len ys = N -> Py.len (zip_with f xs ys) = N.
Proof.
  unfold Py.len. intros Hx Hy. rewrite zip_with_length. lia.
Qed.

Lemma to_float_len (O : list (list Z)) : Py.len (to_float O) = Py.len O.
Proof. unfold Py.len, to_float. now rewrite length_map. Qed.

(** A flat index within the length splits into a trajectory and a step. *)
Lemma index_split (idx : Z) :
  0 <= idx < length_ self ->
  0 < num_steps self - 1 /\
  0 <= idx / (num_steps self - 1) < num_samples self /\
  0 <= idx mod (num_steps self - 1) < num_steps self - 1.
Proof.
  intros Hi. rewrite (c_length Hc) in Hi. pose proof (c_samples Hc) as Hn.
  assert (0 < num_steps self - 1) by nia.
  split; [assumption|]. split.
  - split; [apply Z.div_pos; lia|].
    apply Z.div_lt_upper_bound; [lia|]. nia.
  - apply Z.mod_pos_bound. lia.
Qed.

(** The sample at trajectory [g] and step [t], and what [__getitem__]
    returns for an index that resolves to them. *)
Lemma getitem_at (idx g t : Z) :
  num_steps self - 1 <> 0 ->
  g = idx / (num_steps self - 1) ->
  t = idx mod (num_steps self - 1) ->
  0 <= g < num_samples self ->
  0 <= t < num_steps self - 1 ->
  exists G x y,
    Py.index (graphs self) g = Ok G /\
    sample_at self g t = Ok (x, y) /\
    Py.len x = nnodes G /\ Py.len y = nnodes G /\
    if String.eqb (split self) "train" then
      __getitem__ self idx
      = Ok (TrainItem (with_ndata G x y (ndata_mesh_pos G)),
            with_graph self (Z.to_nat g)
                       (with_ndata G x y (ndata_mesh_pos G)))
    else
      exists M C Rm,
        Py.index (mesh_pos self) g = Ok M /\
        Py.index (cells self) g = Ok C /\
        Py.index (rollout_mask self) g = Ok Rm /\
        __getitem__ self idx
        = Ok (EvalItem (with_ndata G x y (Some M)) C Rm,
              with_graph self (Z.to_nat g) (with_ndata G x y (Some M))).
Proof.
  intros Hnz Hg Ht Hgr Htr.
  destruct (c_ready Hc (Z.to_nat g)) as
    [G [F [Tg [O [EG [EF [ET [EO [HO [LF [LD [LS [RF [RD [RS Hev]]]]]]]]]]]]]]];
    [lia|].
  rewrite Z.max_r in LF, LD, LS by lia.
  destruct (len_nth_error (features_world_pos F) t) as [wp Ewp]; [lia|].
  destruct (len_nth_error (targets_world_pos Tg) t) as [df Edf]; [lia|].
  destruct (len_nth_error (targets_stress Tg) t) as [st Est]; [lia|].
  pose proof (Forall_nth_error _ _ _ _ RF Ewp) as Hwp.
  pose proof (Forall_nth_error _ _ _ _ RD Edf) as Hdf.
  pose proof (Forall_nth_error _ _ _ _ RS Est) as Hst.
  assert (IG : Py.index (graphs self) g = Ok G)
    by (apply nth_error_index; [lia|exact EG]).
  assert (IF : Py.index (node_features self) g = Ok F)
    by (apply nth_error_index; [lia|exact EF]).
  assert (IT : Py.index (node_targets self) g = Ok Tg)
    by (apply nth_error_index; [lia|exact ET]).
  assert (IO : Py.index (node_type self) g = Ok O)
    by (apply nth_error_index; [lia|exact EO]).
  assert (Iwp : Py.index (features_world_pos F) t = Ok wp)
    by (apply nth_error_index; [lia|exact Ewp]).
  assert (Idf : Py.index (targets_world_pos Tg) t = Ok df)
    by (apply nth_error_index; [lia|exact Edf]).
  assert (Ist : Py.index (targets_stress Tg) t = Ok st)
    by (apply nth_error_index; [lia|exact Est]).
  assert (Cx : cat1 wp (to_float O) = Ok (zip_with (@app R) wp (to_float O))).
  { apply cat1_ok. unfold to_float. rewrite length_map.
    apply Nat2Z.inj. unfold Py.len in *. congruence. }
  assert (Cy : cat1 df st = Ok (zip_with (@app R) df st)).
  { apply cat1_ok. apply Nat2Z.inj. unfold Py.len in *. congruence. }
  set (x := zip_with (@app R) wp (to_float O)) in *.
  set (y := zip_with (@app R) df st) in *.
  assert (Lx : @Py.len vec x = nnodes G).
  { apply zip_with_len; [exact Hwp|]. now rewrite to_float_len. }
  assert (Ly : @Py.len vec y = nnodes G).
  { apply zip_with_len; assumption. }
  assert (HkG : (Z.to_nat g < length (graphs self))%nat)
    by (apply nth_error_Some; congruence).
  assert (SG : forall v, Py.set_index (graphs self) g v
                         = Ok (Py.update (graphs self) (Z.to_nat g) v)).
  { intros v. rewrite <- (Z2Nat.id g) at 1 by lia.
    now apply set_index_nonneg. }
  exists G, x, y.
  split; [exact IG|]. split.
  { unfold sample_at. rewrite IF. cbn [bind]. rewrite Iwp. cbn [bind].
    rewrite IO. cbn [bind]. rewrite Cx. cbn [bind]. rewrite IT. cbn [bind].
    rewrite Idf. cbn [bind]. rewrite Ist. cbn [bind]. rewrite Cy.
    reflexivity. }
  split; [exact Lx|]. split; [exact Ly|].
  assert (Hhead :
    forall k : Z -> graph -> result (item * dataset),
      (gidx <- Py.floordiv idx (num_steps self - 1) ;;
       tidx <- Py.modulo idx (num_steps self - 1) ;;
       graph <- Py.index (graphs self) gidx ;;
       f <- Py.index (node_features self) gidx ;;
       world_pos <- Py.index (features_world_pos f) tidx ;;
       one_hot <- Py.index (node_type self) gidx ;;
       x <- cat1 world_pos (to_float one_hot) ;;
       t <- Py.index (node_targets self) gidx ;;
       diff <- Py.index (targets_world_pos t) tidx ;;
       t <- Py.index (node_targets self) gidx ;;
       stress <- Py.index (targets_stress t) tidx ;;
       y <- cat1 diff stress ;;
       graph <- set_ndata_x graph x ;;
       graph <- set_ndata_y graph y ;;
       k gidx graph)
      = k g (with_ndata G x y (ndata_mesh_pos G))).
  { intros k. unfold Py.floordiv, Py.modulo.
    destruct (Z.eqb_spec (num_steps self - 1) 0); [contradiction|].
    cbn [bind]. rewrite <- Hg, <- Ht.
    rewrite IG. cbn [bind]. rewrite IF. cbn [bind]. rewrite Iwp. cbn [bind].
    rewrite IO. cbn [bind]. rewrite Cx. cbn [bind]. rewrite IT. cbn [bind].
    rewrite Idf. cbn [bind]. rewrite Ist. cbn [bind]. rewrite Cy.
    cbn [bind]. unfold set_ndata_x. rewrite Lx, Z.eqb_refl. cbn [bind].
    unfold set_ndata_y. cbn [nnodes]. rewrite Ly, Z.eqb_refl. cbn [bind].
    reflexivity. }
  unfold __getitem__.
  destruct (String.eqb (split self) "train") eqn:Es.
  - rewrite (Hhead (fun gidx graph =>
      graphs <- Py.set_index (graphs self) gidx graph ;;
      Ok (TrainItem graph,
          mkDataset (split self) (num_samples self) (num_steps self)
                    (noise_std self) (length_ self) graphs (cells self)
                    (node_type self) (rollout_mask self) (mesh_pos self)
                    (edge_stats self) (node_features self)
                    (node_targets self) (node_stats self)))).
    cbn beta. rewrite SG. reflexivity.
  - destruct (Hev eq_refl) as [M [C [Rm [EM [LM [EC ER]]]]]].
    assert (IM : Py.index (mesh_pos self) g = Ok M)
      by (apply nth_error_index; [lia|exact EM]).
    assert (IC : Py.index (cells self) g = Ok C)
      by (apply nth_error_index; [lia|exact EC]).
    assert (IR : Py.index (rollout_mask self) g = Ok Rm)
      by (apply nth_error_index; [lia|exact ER]).
    exists M, C, Rm. split; [exact IM|]. split; [exact IC|].
    split; [exact IR|].
    rewrite (Hhead (fun gidx graph =>
      mp <- Py.index (mesh_pos self) gidx ;;
      graph <- set_ndata_mesh_pos graph mp ;;
      c <- Py.index (cells self) gidx ;;
      m <- Py.index (rollout_mask self) gidx ;;
      graphs <- Py.set_index (graphs self) gidx graph ;;
      Ok (EvalItem graph c m,
          mkDataset (split self) (num_samples self) (num_steps self)
                    (noise_std self) (length_ self) graphs (cells self)
                    (node_type self) (rollout_mask self) (mesh_pos self)
                    (edge_stats self) (node_features self)
                    (node_targets self) (node_stats self)))).
    cbn beta. rewrite IM. cbn [bind].
    unfold set_ndata_mesh_pos, with_ndata. cbn [nnodes].
    rewrite LM, Z.eqb_refl. cbn [bind]. rewrite IC. cbn [bind].
    rewrite IR. cbn [bind]. rewrite SG. reflexivity.
Qed.

End SampleIndexer.

Section BuiltDataset.

Local Open Scope Z_scope.

Variables (fs : files) (split0 : String.string) (n T : Z) (noise : R)
          (self : dataset).

Hypothesis Hinit : __init__ fs split0 n T noise = Ok self.
Hypothesis Hn : 0 <= n.
Hypothesis Hreg : Forall (regular T) (decoded fs n T).

Lemma init_consistent : consistent self.
Proof.
  eapply built_consistent;
    [apply (init_built _ _ _ _ _ _ Hinit) | exact Hn | exact Hreg].
Qed.

Lemma init_attributes :
  split self = split0 /\ num_samples self = n /\ num_steps self = T /\
  length_ self = n * (T - 1).
Proof.
  destruct (init_built _ _ _ _ _ _ Hinit); auto.
Qed.



End BuiltDataset.

Section PerSampleContract.

Local Open Scope Z_scope.

Variables (fs : files) (split0 : String.string) (n T : Z) (noise : R)
          (self : dataset).

Hypothesis Hinit : __init__ fs split0 n T noise = Ok self.
Hypothesis Hn : 0 <= n.
Hypothesis Hreg : Forall (regular T) (decoded fs n T).

(** C2.  A dataset built with [n] trajectories of [T] steps has length
    [n * (T - 1)]; a flat index [idx] within the length is resolved to
    trajectory [idx / (T - 1)] and step [idx mod (T - 1)], both in range, and
    [__getitem__] returns the graph of that trajectory carrying the node
    input and target tensors of that step. *)
Theorem sample_index_resolution (idx : Z) :
  0 <= idx < n * (T - 1) ->
  __len__ self = n * (T - 1) /\
  0 <= idx / (T - 1) < n /\
  0 <= idx mod (T - 1) < T - 1 /\
  exists G x y it self',
    Py.index (graphs self) (idx / (T - 1)) = Ok G /\
    sample_at self (idx / (T - 1)) (idx mod (T - 1)) = Ok (x, y) /\
    __getitem__ self idx = Ok (it, self') /\
    edges (item_graph it) = edges G /\
    edata_x (item_graph it) = edata_x G /\
    ndata_x (item_graph it) = Some x /\
    ndata_y (item_graph it) = Some y.
Proof.
  intros Hidx.
  pose proof (init_consistent _ _ _ _ _ _ Hinit Hn Hreg) as Hc.
  destruct (init_attributes _ _ _ _ _ _ Hinit) as [Hsp [Hns [Hnt Hlen]]].
  destruct (index_split self Hc idx) as [Hpos [Hg Ht]]; [now rewrite Hlen|].
  rewrite Hns, Hnt in *.
  split; [exact Hlen|]. split; [exact Hg|]. split; [exact Ht|].
  destruct (getitem_at self Hc idx (idx / (T - 1)) (idx mod (T - 1)))
    as [G [x [y [IG [Hs [_ [_ Hget]]]]]]];
    rewrite ?Hns, ?Hnt; auto; [lia|].
  destruct (String.eqb (split self) "train").
  - exists G, x, y. eexists. eexists.
    split; [exact IG|]. split; [exact Hs|]. split; [exact Hget|].
    repeat split.
  - destruct Hget as [M [C [Rm [_ [_ [_ Hget]]]]]].
    exists G, x, y. eexists. eexists.
    split; [exact IG|]. split; [exact Hs|]. split; [exact Hget|].
    repeat split.
Qed.


End PerSampleContract.

(** ** Indices outside the length *)

Section OutOfRange.

Local Open Scope Z_scope.




Variable self : dataset.
Hypothesis Hc : consistent self.








End OutOfRange.

Section IndexRange.

Local Open Scope Z_scope.

Variables (fs : files) (split0 : String.string) (n T : Z) (noise : R)
          (self : dataset).

Hypothesis Hinit : __init__ fs split0 n T noise = Ok self.
Hypothesis Hn : 0 <= n.
Hypothesis Hreg : Forall (regular T) (decoded fs n T).


End IndexRange.

(** ** The small data set is regular *)

Lemma example_regular (v : R) (steps : list R) :
  regular (Py.len (v :: steps)) (example_trajectory (v :: steps)).
Proof.
  unfold regular. eexists. split; [reflexivity|].
  unfold example_trajectory, Py.len; cbn [t_world_pos t_stress t_node_type
                                          t_mesh_pos].
  rewrite !length_map.
  split; [reflexivity|]. split; [reflexivity|].
  split; [apply Forall_map, Forall_forall; intros; reflexivity|].
  split; [apply Forall_map, Forall_forall; intros; reflexivity|].
  split.
  - intros c Hc. apply index_ok_inv in Hc. destruct Hc as [_ Hc].
    apply in_map_iff in Hc. destruct Hc as [? [<- _]]. reflexivity.
  - intros c Hc. apply index_ok_inv in Hc. destruct Hc as [_ Hc].
    apply in_map_iff in Hc. destruct Hc as [? [<- _]]. reflexivity.
Qed.

Lemma example_files_regular :
  Forall (regular 5) (decoded example_files 3 5).
Proof.
  repeat constructor;
    match goal with
    | |- regular _ _ =>
        exact (example_regular _ [_; _; _; _])
    end.
Qed.



Lemma example_built_eq :
  __init__ example_files "eval"%string 3 5 0 = example_built.
Proof. reflexivity. Qed.

(** With three trajectories of five steps the length is 12 and index 7 is
    step 3 of trajectory 1. *)
Lemma sample_index_resolution_witness :
  exists self,
    __init__ example_files "eval"%string 3 5 0 = Ok self /\
    __len__ self = 12%Z /\
    (7 / (5 - 1) = 1)%Z /\ (7 mod (5 - 1) = 3)%Z /\
    exists G x y it self',
      Py.index (graphs self) 1 = Ok G /\
      sample_at self 1 3 = Ok (x, y) /\
      __getitem__ self 7 = Ok (it, self') /\
      edges (item_graph it) = edges G /\
      edata_x (item_graph it) = edata_x G /\
      ndata_x (item_graph it) = Some x /\
      ndata_y (item_graph it) = Some y.
Proof.
  eexists. split; [exact example_built_eq|].
  split; [reflexivity|]. split; [reflexivity|]. split; [reflexivity|].
  refine (proj2 (proj2 (proj2
    (sample_index_resolution example_files "eval"%string 3 5 0 _
       example_built_eq _ example_files_regular 7 _)))); lia.
Defined.

(** Index 11 is step 3 of trajectory 2. *)
Lemma example_last_index :
  (11 / (5 - 1) = 2)%Z /\ (11 mod (5 - 1) = 3)%Z /\
  exists self r x y,
    __init__ example_files "eval"%string 3 5 0 = Ok self /\
    __getitem__ self 11 = Ok r /\
    sample_at self 2 3 = Ok (x, y) /\
    ndata_x (item_graph (fst r)) = Some x /\
    ndata_y (item_graph (fst r)) = Some y.
Proof.
  split; [reflexivity|]. split; [reflexivity|].
  eexists. eexists. eexists. eexists.
  split; [exact example_built_eq|].
  repeat split; reflexivity.
Qed.

(** ** Instances of the theorems on concrete data *)

(** Three steps of one node with one coordinate, at step 1. *)
Lemma derived_features_and_targets_witness :
  exists w0 w1 s1,
    Py.index [[[1]]; [[3]]; [[6]]]%R 1 = Ok w0 /\
    Py.index [[[1]]; [[3]]; [[6]]]%R (1 + 1) = Ok w1 /\
    Py.index [[[10]]; [[20]]; [[30]]]%R (1 + 1) = Ok s1 /\
    Py.index (data (_drop_last [[[1]]; [[3]]; [[6]]]%R)) 1 = Ok w0 /\
    Py.index (data (_push_forward_diff [[[1]]; [[3]]; [[6]]]%R)) 1
    = Ok (zip_with (zip_with Rminus) w1 w0) /\
    Py.index (data (_push_forward [[[10]]; [[20]]; [[30]]]%R)) 1 = Ok s1 /\
    dtype_of (_drop_last [[[1]]; [[3]]; [[6]]]%R) = Float32 /\
    dtype_of (_push_forward_diff [[[1]]; [[3]]; [[6]]]%R) = Float32 /\
    dtype_of (_push_forward [[[10]]; [[20]]; [[30]]]%R) = Float32 /\
    Py.len (data (_drop_last [[[1]]; [[3]]; [[6]]]%R)) = (3 - 1)%Z /\
    Py.len (data (_push_forward_diff [[[1]]; [[3]]; [[6]]]%R)) = (3 - 1)%Z /\
    Py.len (data (_push_forward [[[10]]; [[20]]; [[30]]]%R)) = (3 - 1)%Z.
Proof.
  apply (derived_features_and_targets
           [[[1]]; [[3]]; [[6]]]%R [[[10]]; [[20]]; [[30]]]%R 1).
  - unfold Py.len; simpl; lia.
  - reflexivity.
Defined.

(** A 2 x 2 tensor with two channels. *)
Lemma normalize_denormalize_roundtrip_witness :
  exists y,
    normalize_node ([[1; 2]; [3; 4]]%R : tensor2) [1; 1]%R [2; 4]%R = Ok y /\
    denormalize y [1; 1]%R [2; 4]%R = Ok ([[1; 2]; [3; 4]]%R : tensor2).
Proof.
  apply (normalize_denormalize_roundtrip
           ([[1; 2]; [3; 4]]%R : tensor2) [1; 1]%R [2; 4]%R).
  - repeat constructor.
  - reflexivity.
  - reflexivity.
  - repeat constructor; lra.
Defined.

(** Four nodes of the three known types, and a tensor with an unknown
    code. *)
Lemma one_hot_encode_total_witness :
  _one_hot_encode (mkTyped UInt8 [0; 1; 3; 1]%Z)
  = Ok [[1; 0; 0]; [0; 1; 0]; [0; 0; 1]; [0; 1; 0]]%Z /\
  Forall (fun row => length row = 3%nat /\ fold_right Z.add 0%Z row = 1%Z)
         [[1; 0; 0]; [0; 1; 0]; [0; 0; 1]; [0; 1; 0]]%Z /\
  _one_hot_encode (mkTyped UInt8 [0; 2]%Z) = Raise ValueError.
Proof.
  split; [|split].
  - apply (proj1 (one_hot_encode_total (mkTyped UInt8 [0; 1; 3; 1]%Z)
                                       eq_refl)).
    repeat constructor; lia.
  - apply (proj1 (one_hot_encode_total (mkTyped UInt8 [0; 1; 3; 1]%Z)
                                       eq_refl)).
    repeat constructor; lia.
  - apply (proj2 (one_hot_encode_total (mkTyped UInt8 [0; 2]%Z) eq_refl)).
    apply Exists_cons_tl, Exists_cons_hd. lia.
Defined.

(** Two tetrahedra that share a face. *)
Lemma topology_bidirectional_witness :
  exists src dst g0 g,
    cell_to_adj [[0; 1; 2; 3]; [1; 2; 3; 4]]%Z = Ok (src, dst) /\
    length src = 12%nat /\
    length dst = 12%nat /\
    graph_of src dst = Ok g0 /\
    length (add_reverse_edges (edges g0)) = 24%nat /\
    create_graph src dst = Ok g /\
    edges g = to_simple (add_reverse_edges (edges g0)) /\
    NoDup (edges g) /\
    (forall u v, In (u, v) (edges g) -> In (v, u) (edges g)) /\
    (forall c a b x y,
        In c [[0; 1; 2; 3]; [1; 2; 3; 4]]%Z -> In (a, b) edge_indices ->
        Py.index c a = Ok x -> Py.index c b = Ok y ->
        In (x, y) (edges g) /\ In (y, x) (edges g)).
Proof.
  apply (topology_bidirectional [[0; 1; 2; 3]; [1; 2; 3; 4]]%Z).
  - repeat constructor.
  - repeat constructor; lia.
Defined.

(** Two nodes joined by an edge in each direction. *)
Lemma edge_features_antisymmetric_witness :
  exists g' x,
    add_edge_features (mkGraph [(0, 1); (1, 0)]%Z 2 None None None None)
                      [[0; 0; 0]; [1; 2; 2]]%R = Ok g' /\
    edges g' = [(0, 1); (1, 0)]%Z /\
    edata_x g' = Some x /\
    length x = 2%nat /\
    forall i j u v fi fj,
      nth_error (edges g') i = Some (u, v) ->
      nth_error (edges g') j = Some (v, u) ->
      nth_error x i = Some fi ->
      nth_error x j = Some fj ->
      exists d n,
        fi = d ++ [n] /\ fj = map Ropp d ++ [n] /\ (0 <= n)%R /\
        (Forall (fun p => length p = 3%nat) [[0; 0; 0]; [1; 2; 2]]%R ->
         length d = 3%nat).
Proof.
  apply (edge_features_antisymmetric
           (mkGraph [(0, 1); (1, 0)]%Z 2 None None None None)
           [[0; 0; 0]; [1; 2; 2]]%R).
  repeat constructor; unfold Py.len; simpl; lia.
Defined.







(** * Further properties *)

(** ** The constructor: samples, records and the noise level *)

Section ConstructorEdges.

Local Open Scope Z_scope.

Lemma range_nonpositive (n : Z) : n <= 0 -> Py.range n = [].
Proof.
  intros Hn. unfold Py.range. replace (Z.to_nat n) with 0%nat by lia.
  reflexivity.
Qed.

(** X1.  Without samples the statistics cannot be computed: for
    [num_samples <= 0] the accumulators are still the Python integer 0 when
    [torch.square] is applied, so both statistics methods raise [TypeError],
    and so does the constructor on the train split.  On another split the
    constructor then needs nothing but the two statistics files. *)
Theorem statistics_need_samples
        (fs : files) (split0 : String.string) (n T : Z) (noise : R)
        (graphs : list graph) (node_features : list features_t)
        (node_targets : list targets_t) :
  n <= 0 ->
  _get_edge_stats n graphs = Raise TypeError /\
  _get_node_stats n node_features node_targets = Raise TypeError /\
  __init__ fs "train"%string n T noise = Raise TypeError /\
  (String.eqb split0 "train"%string = false ->
   __init__ fs split0 n T noise
   = (es <- edge_stats_json fs ;;
      ns <- node_stats_json fs ;;
      Ok (mkDataset split0 n T noise (n * (T - 1))
                    [] [] [] [] [] es [] [] ns))).
Proof.
  intros Hn.
  assert (He : forall gs, _get_edge_stats n gs = Raise TypeError).
  { intros gs. unfold _get_edge_stats. rewrite range_nonpositive by assumption.
    reflexivity. }
  split; [apply He|]. split.
  { unfold _get_node_stats. rewrite range_nonpositive by assumption.
    reflexivity. }
  split.
  - unfold __init__. rewrite range_nonpositive by assumption.
    cbn [Py.for_loop bind]. rewrite He. reflexivity.
  - intros Hs. unfold __init__. rewrite range_nonpositive by assumption.
    cbn [Py.for_loop bind]. rewrite Hs.
    destruct (edge_stats_json fs); cbn [bind]; [|reflexivity].
    destruct (node_stats_json fs); reflexivity.
Qed.

Lemma for_loop_app {S : Type} (l1 l2 : list Z) (body : Z -> S -> result S)
      (s : S) :
  Py.for_loop (l1 ++ l2) body s
  = (s' <- Py.for_loop l1 body s ;; Py.for_loop l2 body s').
Proof.
  revert s; induction l1 as [|i l1 IH]; intros s; simpl; [reflexivity|].
  destruct (body i s); simpl; auto.
Qed.

Lemma range_split (k n : nat) :
  (k < n)%nat ->
  Py.range (Z.of_nat n)
  = Py.range (Z.of_nat k) ++ Z.of_nat k
      :: map Z.of_nat (seq (S k) (n - S k)).
Proof.
  intros Hk. unfold Py.range. rewrite !Nat2Z.id.
  replace n with (k + S (n - S k))%nat at 1 by lia.
  rewrite seq_app, map_app. reflexivity.
Qed.

(** The iterator after the first loop of the constructor. *)
Lemma graph_loop_iterator (split0 : String.string) (T : Z)
      (src : list trajectory) (k : nat) it gp :
  Py.for_loop (Py.range (Z.of_nat k))
              (fun _ st => graph_step split0 T st)
              (src, mkGraphPhase [] [] [] [] [] []) = Ok (it, gp) ->
  it = skipn k src.
Proof.
  intros Hloop.
  apply (for_loop_ok_inv
           (fun j st => fst st = skipn j src /\
                        graph_phase_of split0
                          (map (truncate T) (firstn j src)) (snd st))
           _ _ _ _ Hloop).
  - split; [reflexivity|]. unfold graph_phase_of; simpl.
    repeat split; try constructor.
    destruct (String.eqb split0 "train"%string); repeat split; constructor.
  - intros j [it0 gp0] st1 _ [Hit Hg] Hstep. cbn [fst snd] in *. subst it0.
    apply (graph_step_inv split0 T src j gp0 st1 Hg Hstep).
Qed.

(** X2.  The constructor reads one record per sample: it returns a dataset
    only if the split holds at least [num_samples] records, and when it can
    build a dataset from all the records of the split, asking for more
    samples raises the iterator's [OutOfRangeError]. *)
Theorem constructor_needs_records
        (fs : files) (split0 : String.string) (n T : Z) (noise : R) :
  (forall self, __init__ fs split0 n T noise = Ok self ->
                n <= Py.len (tfrecord fs)) /\
  (forall self0,
      __init__ fs split0 (Py.len (tfrecord fs)) T noise = Ok self0 ->
      Py.len (tfrecord fs) < n ->
      __init__ fs split0 n T noise = Raise OutOfRangeError).
Proof.
  split.
  - intros self H. apply init_built in H.
    pose proof (built_source _ _ _ _ _ H). unfold Py.len. lia.
  - intros self0 H0 Hlt. unfold __init__ in H0.
    bind_inv H0. destruct a as [it gp]. clear H0.
    unfold Py.len in E.
    pose proof (graph_loop_iterator _ _ _ _ _ _ E) as Hit.
    rewrite skipn_all in Hit. subst it.
    unfold __init__. unfold Py.len in Hlt.
    rewrite <- (Z2Nat.id n) by lia.
    rewrite (range_split (length (tfrecord fs)) (Z.to_nat n)) by lia.
    rewrite for_loop_app, E. cbn [bind Py.for_loop]. reflexivity.
Qed.

End ConstructorEdges.

(** X3.  The noise level has no effect on the data: [_add_noise] returns its
    arguments, so constructing with another [noise_std] gives the same
    outcome, the recorded attribute apart. *)
Theorem noise_std_is_ignored
        (fs : files) (split0 : String.string) (n T : Z) (noise noise' : R) :
  __init__ fs split0 n T noise'
  = (self <- __init__ fs split0 n T noise ;; Ok (with_noise_std self noise')).
Proof.
  assert (Hstep : forall m, feature_step split0 T noise' m
                            = feature_step split0 T noise m)
    by reflexivity.
  unfold __init__.
  destruct (Py.for_loop (Py.range n) (fun _ st => graph_step split0 T st) _)
    as [[it gp]|e]; cbn [bind]; [|reflexivity].
  destruct (if String.eqb split0 "train"%string
            then _get_edge_stats n (gp_graphs gp) else edge_stats_json fs)
    as [es|e]; cbn [bind]; [|reflexivity].
  destruct (Py.for_loop (Py.range n) (normalize_edge_step es) (gp_graphs gp))
    as [gs|e]; cbn [bind]; [|reflexivity].
  rewrite Hstep.
  destruct (Py.for_loop (Py.range n)
              (feature_step split0 T noise (gp_noise_mask gp)) _)
    as [[it' ft]|e]; cbn [bind]; [|reflexivity].
  destruct (if String.eqb split0 "train"%string
            then _get_node_stats n (fst ft) (snd ft) else node_stats_json fs)
    as [ns|e]; cbn [bind]; [|reflexivity].
  destruct (Py.for_loop (Py.range n) (normalize_node_step ns) ft)
    as [ft'|e]; cbn [bind]; reflexivity.
Qed.

(** ** The mesh: [cell_to_adj] and [add_edge_features] *)


Lemma mapM_map {A B C : Type} (f : B -> result C) (g : A -> B)
      (xs : list A) :
  mapM f (map g xs) = mapM (fun x => f (g x)) xs.
Proof.
  induction xs as [|x xs IH]; simpl; [reflexivity|]. now rewrite IH.
Qed.

Lemma mapM_pure {A B : Type} (f : A -> result B) (g : A -> B)
      (xs : list A) :
  (forall x, In x xs -> f x = Ok (g x)) -> mapM f xs = Ok (map g xs).
Proof.
  induction xs as [|x xs IH]; intros H; simpl; [reflexivity|].
  rewrite (H x) by now left. simpl. rewrite IH; [reflexivity|].
  intros y Hy. apply H. now right.
Qed.






Section CellToAdj.

Local Open Scope Z_scope.

Variable cells : list (list Z).




End CellToAdj.


Section MeshPositions.

Local Open Scope Z_scope.









End MeshPositions.


(** ** Lookups write into the stored graphs *)

Section InPlaceLookup.

Local Open Scope Z_scope.

(** Where an index lands depends on the length of the list only. *)
Lemma index_resolve {A : Type} (xs : list A) (i : Z) :
  (forall (B : Type) (ys : list B),
      length ys = length xs ->
      Py.index ys i = Raise IndexError /\
      forall v, Py.set_index ys i v = Raise IndexError) \/
  (exists k, (k < length xs)%nat /\
     forall (B : Type) (ys : list B),
       length ys = length xs ->
       Py.index ys i = match nth_error ys k with
                       | Some b => Ok b
                       | None => Raise IndexError
                       end /\
       forall v, Py.set_index ys i v = Ok (Py.update ys k v)).
Proof.
  set (j := if i <? 0 then i + Py.len xs else i).
  destruct ((0 <=? j) && (j <? Py.len xs))%bool eqn:Hj.
  - right. exists (Z.to_nat j). split.
    { apply andb_prop in Hj. unfold Py.len in Hj. lia. }
    intros B ys Hlen. unfold Py.index, Py.set_index, Py.len.
    rewrite Hlen. fold (Py.len xs). fold j. rewrite Hj. now split.
  - left. intros B ys Hlen. unfold Py.index, Py.set_index, Py.len.
    rewrite Hlen. fold (Py.len xs). fold j. rewrite Hj. now split.
Qed.

Lemma set_ndata_x_inv (g g' : graph) (x : tensor2) :
  set_ndata_x g x = Ok g' ->
  Py.len x = nnodes g /\
  g' = mkGraph (edges g) (nnodes g) (edata_x g)
               (Some x) (ndata_y g) (ndata_mesh_pos g).
Proof.
  unfold set_ndata_x. destruct (Z.eqb_spec (Py.len x) (nnodes g));
    [|discriminate].
  intros [= <-]. now split.
Qed.

Lemma set_ndata_y_inv (g g' : graph) (y : tensor2) :
  set_ndata_y g y = Ok g' ->
  Py.len y = nnodes g /\
  g' = mkGraph (edges g) (nnodes g) (edata_x g)
               (ndata_x g) (Some y) (ndata_mesh_pos g).
Proof.
  unfold set_ndata_y. destruct (Z.eqb_spec (Py.len y) (nnodes g));
    [|discriminate].
  intros [= <-]. now split.
Qed.

Lemma set_ndata_mesh_pos_inv (g g' : graph) (m : tensor2) :
  set_ndata_mesh_pos g m = Ok g' ->
  Py.len m = nnodes g /\
  g' = mkGraph (edges g) (nnodes g) (edata_x g)
               (ndata_x g) (ndata_y g) (Some m).
Proof.
  unfold set_ndata_mesh_pos. destruct (Z.eqb_spec (Py.len m) (nnodes g));
    [|discriminate].
  intros [= <-]. now split.
Qed.

(** What a successful lookup has done. *)
Lemma getitem_frame (self self' : dataset) (idx : Z) (it : item) :
  __getitem__ self idx = Ok (it, self') ->
  exists k G,
    nth_error (graphs self) k = Some G /\
    self' = with_graph self k (item_graph it) /\
    edges (item_graph it) = edges G /\
    nnodes (item_graph it) = nnodes G /\
    edata_x (item_graph it) = edata_x G /\
    (String.eqb (split self) "train"%string = true ->
     ndata_mesh_pos (item_graph it) = ndata_mesh_pos G).
Proof.
  unfold __getitem__. intros H.
  destruct (Py.floordiv idx (num_steps self - 1)) as [gidx|];
    cbn [bind] in H; [|discriminate].
  destruct (Py.modulo idx (num_steps self - 1)) as [tidx|];
    cbn [bind] in H; [|discriminate].
  destruct (index_resolve (graphs self) gidx) as [Hno|[k [Hk Hat]]].
  { rewrite (proj1 (Hno _ _ eq_refl)) in H. discriminate. }
  destruct (Hat _ (graphs self) eq_refl) as [Hidx Hset].
  rewrite Hidx in H.
  destruct (nth_error (graphs self) k) as [G|] eqn:HG;
    cbn [bind] in H; [|discriminate].
  repeat bind_inv H.
  match goal with
  | Hx : set_ndata_x G _ = Ok _ |- _ =>
      apply set_ndata_x_inv in Hx; destruct Hx as [_ ->]
  end.
  match goal with
  | Hy : set_ndata_y _ _ = Ok _ |- _ =>
      apply set_ndata_y_inv in Hy; destruct Hy as [_ ->]
  end.
  exists k, G. split; [exact HG|].
  destruct (String.eqb (split self) "train"%string).
  - rewrite Hset in H. cbn [bind] in H. injection H as <- <-.
    repeat split; reflexivity.
  - repeat bind_inv H.
    match goal with
    | Hm : set_ndata_mesh_pos _ _ = Ok _ |- _ =>
        apply set_ndata_mesh_pos_inv in Hm; destruct Hm as [_ ->]
    end.
    match goal with
    | Hs : Py.set_index _ _ _ = Ok _ |- _ =>
        rewrite Hset in Hs; injection Hs as <-
    end.
    injection H as <- <-.
    repeat split; try reflexivity. discriminate.
Qed.

End InPlaceLookup.

(** X6.  A successful lookup writes into the dataset: the graph of the
    trajectory is replaced by the returned graph, so the dataset and the
    caller share it, and every other attribute and graph is as before.  The
    returned graph has the edges, the node count and the edge features of
    the stored one. *)
Theorem getitem_updates_stored_graph
        (self self' : dataset) (idx : Z) (it : item) :
  __getitem__ self idx = Ok (it, self') ->
  exists k G,
    nth_error (graphs self) k = Some G /\
    nth_error (graphs self') k = Some (item_graph it) /\
    (forall j, j <> k -> nth_error (graphs self') j
                         = nth_error (graphs self) j) /\
    self' = with_graph self k (item_graph it) /\
    edges (item_graph it) = edges G /\
    nnodes (item_graph it) = nnodes G /\
    edata_x (item_graph it) = edata_x G.
Proof.
  intros H.
  destruct (getitem_frame _ _ _ _ H) as [k [G [HG [-> [He [Hn [Hx _]]]]]]].
  exists k, G. split; [exact HG|]. cbn [with_graph graphs].
  split.
  { apply update_nth_error_eq. apply nth_error_Some. congruence. }
  split.
  { intros j Hj. now apply update_nth_error_neq. }
  repeat split; assumption.
Qed.

Lemma returned_bind {A : Type} (m : result A)
      (k1 k2 : A -> result (item * dataset)) :
  (forall a, m = Ok a -> returned (k1 a) = returned (k2 a)) ->
  returned (bind m k1) = returned (bind m k2).
Proof. destruct m; cbn [bind]; auto. Qed.

(** X7.  What a lookup returns does not depend on the lookups made before
    it: after a successful [__getitem__], every index gives the item, or the
    exception, it gave before.  In particular the same index gives the same
    item again. *)
Theorem getitem_history_independent
        (self self' : dataset) (idx idx' : Z) (it : item) :
  __getitem__ self idx = Ok (it, self') ->
  returned (__getitem__ self' idx') = returned (__getitem__ self idx').
Proof.
  intros H.
  destruct (getitem_frame _ _ _ _ H)
    as [k [G [HG [-> [He [Hn [Hx Hm]]]]]]].
  set (g' := item_graph it) in *.
  unfold __getitem__.
  cbn [with_graph split num_samples num_steps noise_std length_ graphs cells
       node_type rollout_mask mesh_pos edge_stats node_features node_targets
       node_stats].
  apply returned_bind; intros gidx _.
  apply returned_bind; intros tidx _.
  destruct (index_resolve (graphs self) gidx) as [Hno|[k2 [Hk2 Hat]]].
  { rewrite (proj1 (Hno _ (Py.update (graphs self) k g')
                        (update_length _ _ _))).
    rewrite (proj1 (Hno _ (graphs self) eq_refl)). reflexivity. }
  destruct (Hat _ (Py.update (graphs self) k g') (update_length _ _ _))
    as [HiL HsL].
  destruct (Hat _ (graphs self) eq_refl) as [HiR HsR].
  rewrite HiL, HiR.
  assert (Hrel : exists GL GR,
             nth_error (Py.update (graphs self) k g') k2 = Some GL /\
             nth_error (graphs self) k2 = Some GR /\
             edges GL = edges GR /\ nnodes GL = nnodes GR /\
             edata_x GL = edata_x GR /\
             (String.eqb (split self) "train"%string = true ->
              ndata_mesh_pos GL = ndata_mesh_pos GR)).
  { destruct (Nat.eq_dec k2 k) as [->|Hne].
    - exists g', G. rewrite update_nth_error_eq by assumption.
      repeat split; assumption.
    - rewrite update_nth_error_neq by assumption.
      destruct (nth_error (graphs self) k2) as [G2|] eqn:HG2.
      + exists G2, G2. repeat split; reflexivity.
      + apply nth_error_None in HG2. lia. }
  destruct Hrel as [GL [GR [HL [HR [He' [Hn' [Hx' Hm']]]]]]].
  rewrite HL, HR. cbn [bind].
  do 9 (apply returned_bind; intros ? _).
  unfold set_ndata_x. rewrite Hn'.
  destruct (Py.len _ =? nnodes GR)%Z; cbn [bind]; [|reflexivity].
  unfold set_ndata_y. cbn [nnodes].
  destruct (Py.len _ =? nnodes GR)%Z; cbn [bind]; [|reflexivity].
  cbn [edges nnodes edata_x ndata_x ndata_y ndata_mesh_pos].
  rewrite He', Hx'.
  destruct (String.eqb (split self) "train"%string).
  - rewrite HsL, HsR, (Hm' eq_refl). reflexivity.
  - apply returned_bind; intros mp _.
    unfold set_ndata_mesh_pos. cbn [nnodes].
    destruct (Py.len mp =? nnodes GR)%Z; cbn [bind]; [|reflexivity].
    do 2 (apply returned_bind; intros ? _).
    rewrite HsL, HsR. reflexivity.
Qed.

(** ** Trajectories shorter than [num_steps] *)

Lemma slice_to_len {A : Type} (xs : list A) (hi : Z) :
  (Py.len (Py.slice_to xs hi) <= Py.len xs)%Z.
Proof.
  unfold Py.slice_to, Py.slice, Py.len.
  rewrite length_skipn, length_firstn. lia.
Qed.

Lemma overlong_built_eq :
  __init__ example_files "eval"%string 3 10 0 = overlong_built.
Proof. reflexivity. Qed.

(** X8.  The constructor does not compare [num_steps] with the length of
    the trajectories: [arr[:num_steps]] silently keeps a shorter
    trajectory, and [length] still counts [num_steps - 1] samples for it.
    The missing samples fail at lookup: an index that is within [length]
    but whose step is not in the trajectory raises [IndexError]. *)
Theorem short_trajectory_lookup_fails
        (fs : files) (split0 : String.string) (n T : Z) (noise : R)
        (self : dataset) (idx : Z) (d : trajectory) :
  __init__ fs split0 n T noise = Ok self ->
  (1 < T)%Z ->
  (0 <= idx < __len__ self)%Z ->
  nth_error (tfrecord fs) (Z.to_nat (idx / (T - 1))) = Some d ->
  (Py.len (t_world_pos d) - 1 <= idx mod (T - 1))%Z ->
  __getitem__ self idx = Raise IndexError.
Proof.
  intros Hinit HT1 Hidx Hd Hshort.
  pose proof (init_built _ _ _ _ _ _ Hinit) as Hb.
  destruct Hb as [Hsrc Hsplit Hns Hnt Hlen
                  [gp [Hgp [_ [_ [_ [_ [Hgraphs _]]]]]]] Hfeat _].
  unfold __len__ in Hidx. rewrite Hlen in Hidx.
  assert (HT : (0 < T - 1)%Z) by lia.
  assert (Hn : (0 < n)%Z) by nia.
  assert (Hg : (0 <= idx / (T - 1) < n)%Z).
  { split; [apply Z.div_pos; lia|].
    apply Z.div_lt_upper_bound; [lia|]. nia. }
  pose proof (Z.mod_pos_bound idx (T - 1) HT) as Ht.
  set (g := (idx / (T - 1))%Z) in *. set (t := (idx mod (T - 1))%Z) in *.
  assert (Hdec : nth_error (map (truncate T)
                              (firstn (Z.to_nat n) (tfrecord fs)))
                           (Z.to_nat g) = Some (truncate T d)).
  { rewrite nth_error_map, nth_error_firstn.
    replace (Z.to_nat g <? Z.to_nat n)%nat with true
      by (symmetry; apply Nat.ltb_lt; lia).
    now rewrite Hd. }
  destruct Hgp as [HG _].
  destruct (Forall2_nth_l _ _ _ _ _ HG Hdec) as [G0 [HG0 _]].
  destruct (Forall2_nth_l _ _ _ _ _ Hgraphs HG0) as [G [HGs _]].
  destruct (Forall2_nth_l _ _ _ _ _ Hfeat Hdec) as [f [Hf Hnorm]].
  unfold normalized_features in Hnorm. bind_inv Hnorm.
  injection Hnorm as <-.
  apply normalize_node_shape in E. destruct E as [Hlenw _].
  unfold __getitem__. rewrite Hnt. unfold Py.floordiv, Py.modulo.
  destruct (Z.eqb_spec (T - 1) 0) as [|_]; [lia|]. cbn [bind].
  fold g t.
  rewrite (index_some _ g G) by (lia || assumption). cbn [bind].
  rewrite (index_some _ g _ (proj1 Hg) Hf). cbn [bind features_world_pos].
  rewrite index_out_of_range; [reflexivity|]. right.
  unfold Py.len. rewrite Hlenw.
  pose proof (drop_last_length (t_world_pos (truncate T d))) as Hdl.
  unfold Py.len in Hdl. cbn [raw_features features_world_pos]. rewrite Hdl.
  pose proof (slice_to_len (t_world_pos d) T) as Hsl.
  cbn [truncate t_world_pos]. unfold Py.len in *. lia.
Qed.

Lemma short_trajectory_lookup_fails_witness :
  exists self,
    __init__ example_files "eval"%string 3 10 0 = Ok self /\
    (1 < 10)%Z /\
    (0 <= 4 < __len__ self)%Z /\
    nth_error (tfrecord example_files) (Z.to_nat (4 / (10 - 1)))
    = Some (example_trajectory [0; 1; 2; 3; 4]%R) /\
    (Py.len (t_world_pos (example_trajectory [0; 1; 2; 3; 4]%R)) - 1
     <= 4 mod (10 - 1))%Z /\
    __getitem__ self 4 = Raise IndexError.
Proof.
  eexists. split; [exact overlong_built_eq|].
  split; [lia|].
  split; [vm_compute; split; [discriminate|reflexivity]|].
  split; [reflexivity|].
  split; [vm_compute; discriminate|].
  apply (short_trajectory_lookup_fails
           example_files "eval"%string 3 10 0 _ 4
           (example_trajectory [0; 1; 2; 3; 4]%R)).
  - exact overlong_built_eq.
  - lia.
  - vm_compute. split; [discriminate|reflexivity].
  - reflexivity.
  - vm_compute. discriminate.
Defined.

(** ** Edge normalization *)

Lemma rows_tensor2 (x : tensor2) (r : vec) : In r x -> In r (rows x).
Proof.
  intros Hin. cbn [rows Tensor_list]. apply in_flat_map.
  exists r. split; [exact Hin|]. now left.
Qed.

Lemma mapM_id {A : Type} (f : A -> result A) (xs : list A) :
  (forall x, In x xs -> f x = Ok x) -> mapM f xs = Ok xs.
Proof.
  intros Hf. rewrite (mapM_pure f (fun x => x)) by assumption.
  now rewrite map_id.
Qed.

(** X9.  [normalize_edge] reads the edge features of the graph: on features
    with rows of the size of the statistics it returns what
    [normalize_node] returns on them, and with a standard deviation that is
    non-zero in every channel [denormalize] gives the features back. *)
Theorem normalize_edge_roundtrip
        (g : graph) (x : tensor2) (mu std : vec) :
  edata_x g = Some x ->
  rectangular x ->
  size_last x = length mu ->
  size_last x = length std ->
  Forall (fun c => c <> 0%R) std ->
  exists y,
    normalize_edge g mu std = Ok y /\
    normalize_node x mu std = Ok y /\
    denormalize y mu std = Ok x.
Proof.
  intros Hx Hrect Hmu Hstd Hnz.
  unfold rectangular in Hrect. rewrite Forall_forall in Hrect.
  assert (Hrow : forall r, In r x -> length r = length mu).
  { intros r Hr. rewrite <- Hmu. apply Hrect. now apply rows_tensor2. }
  exists (map (fun r => zip_with Rdiv (zip_with Rminus r mu) std) x).
  split; [|split].
  - unfold normalize_edge, get_edata_x. rewrite Hx. cbn [bind].
    rewrite <- Hmu, <- Hstd, Nat.eqb_refl. cbn [negb orb].
    cbn [map_rows Tensor_list Tensor_vec].
    apply mapM_pure. intros r Hr.
    rewrite broadcast_same by now apply Hrow. cbn [bind].
    apply broadcast_same. rewrite zip_with_length, (Hrow r Hr). lia.
  - unfold normalize_node.
    rewrite <- Hmu, <- Hstd, Nat.eqb_refl. cbn [negb orb].
    cbn [map_rows Tensor_list Tensor_vec].
    apply mapM_pure. intros r Hr.
    rewrite !expand_same by (rewrite (Hrow r Hr); congruence).
    reflexivity.
  - unfold denormalize. cbn [map_rows Tensor_list Tensor_vec].
    rewrite mapM_map. apply mapM_id. intros r Hr.
    pose proof (Hrow r Hr) as Hl.
    rewrite broadcast_same by (rewrite !zip_with_length; lia).
    cbn [bind].
    rewrite broadcast_same by (rewrite !zip_with_length; lia).
    f_equal. apply denormalize_row; congruence.
Qed.

(** ** Features plus targets *)

Section NextPosition.

Local Open Scope R_scope.

Lemma row_plus_diff (a b : vec) :
  length a = length b -> zip_with Rplus a (zip_with Rminus b a) = b.
Proof.
  revert b; induction a as [|x a IH]; intros [|y b]; simpl;
    try discriminate; [reflexivity|].
  intros [= Hl]. f_equal; [ring|now apply IH].
Qed.

Lemma step_plus_diff (N C : nat) (a b : tensor2) :
  length a = N -> Forall (fun r => length r = C) a ->
  length b = N -> Forall (fun r => length r = C) b ->
  zip_with (zip_with Rplus) a (zip_with (zip_with Rminus) b a) = b.
Proof.
  intros Ha HCa Hb HCb. subst N. revert b Hb HCb.
  induction a as [|r a IH]; intros [|s b]; simpl; try discriminate;
    [reflexivity|].
  intros [= Hl] HCb. inversion HCa; subst. inversion HCb; subst.
  f_equal; [apply row_plus_diff; congruence|now apply IH].
Qed.

Lemma steps_plus_diff (N C : nat) (a : tensor2) (rest : tensor3) :
  Forall (fun s => length s = N /\ Forall (fun r => length r = C) s)
         (a :: rest) ->
  zip_with (zip_with (zip_with Rplus))
           (firstn (length rest) (a :: rest))
           (zip_with (zip_with (zip_with Rminus))
                     rest (firstn (length rest) (a :: rest)))
  = rest.
Proof.
  revert a; induction rest as [|b rest IH]; intros a Hall; [reflexivity|].
  inversion Hall as [|? ? [Ha HCa] Hrest]; subst.
  inversion Hrest as [|? ? [Hb HCb] _]; subst.
  cbn [length firstn zip_with]. f_equal.
  - apply (step_plus_diff (length a) C); auto.
  - apply IH. exact Hrest.
Qed.

End NextPosition.

(** X10.  The targets are the steps that lead from the features to the next
    positions: for a tensor whose time steps all have [N] rows of [C]
    channels, adding [_push_forward_diff] to [_drop_last] step by step
    gives [_push_forward]. *)
Theorem features_plus_targets (N C : nat) (invar : tensor3) :
  Forall (fun s => length s = N /\ Forall (fun r => length r = C) s) invar ->
  zip_with (zip_with (zip_with Rplus))
           (data (_drop_last invar)) (data (_push_forward_diff invar))
  = data (_push_forward invar).
Proof.
  intros Hall. unfold _drop_last, _push_forward_diff, _push_forward.
  cbn [data]. rewrite slice_drop_last, slice_from_one.
  destruct invar as [|a rest]; [reflexivity|].
  replace (length (a :: rest) - 1)%nat with (length rest)
    by (cbn [length]; lia).
  cbn [skipn]. exact (steps_plus_diff N C a rest Hall).
Qed.

(** ** Degenerate [num_steps] *)

Lemma slice_to_zero {A : Type} (xs : list A) : Py.slice_to xs 0 = [].
Proof.
  unfold Py.slice_to, Py.slice. rewrite clamp_nonneg by lia. reflexivity.
Qed.

(** X11.  With [num_steps = 0] every record is cut down to no step at all,
    so the first access to [data_np["cells"][0]] fails: whenever at least
    one sample is asked for and a record is there, the constructor raises
    [IndexError]. *)
Theorem constructor_rejects_zero_steps
        (fs : files) (split0 : String.string) (n : Z) (noise : R) :
  (0 < n)%Z -> tfrecord fs <> [] ->
  __init__ fs split0 n 0 noise = Raise IndexError.
Proof.
  intros Hn Hrec. unfold __init__.
  rewrite <- (Z2Nat.id n) by lia.
  rewrite (range_split 0 (Z.to_nat n)) by lia.
  cbn [Py.range Z.to_nat Z.of_nat seq map app Py.for_loop].
  destruct (tfrecord fs) as [|d rest]; [contradiction|].
  unfold graph_step at 1. cbn [get_next bind truncate t_cells].
  rewrite slice_to_zero. reflexivity.
Qed.

Lemma constructor_rejects_zero_steps_witness :
  (0 < 3)%Z /\ tfrecord example_files <> [] /\
  __init__ example_files "train"%string 3 0 0 = Raise IndexError.
Proof.
  split; [lia|]. split; [discriminate|].
  apply constructor_rejects_zero_steps; [lia|discriminate].
Defined.

(** ** The rollout mask and the node types *)

Section MaskAndTypes.

Local Open Scope Z_scope.

Variable node_type : typed (list Z).
Hypothesis integer_type : is_integer (dtype_of node_type) = true.

(** What a successful [_one_hot_encode] tells about its argument. *)
Lemma one_hot_encode_inv (O : list (list Z)) :
  _one_hot_encode node_type = Ok O ->
  Forall (fun c => c = 0 \/ c = 1 \/ c = 3) (data node_type) /\
  O = map (fun c => unit_row (category c)) (data node_type).
Proof.
  pose proof (cast_small node_type integer_type 0 ltac:(lia)) as C0.
  pose proof (cast_small node_type integer_type 1 ltac:(lia)) as C1.
  pose proof (cast_small node_type integer_type 2 ltac:(lia)) as C2.
  pose proof (cast_small node_type integer_type 3 ltac:(lia)) as C3.
  unfold _one_hot_encode. rewrite mapped_codes, C0, C1, C2, C3.
  destruct (existsb _ _) eqn:Hex; [discriminate|]. intros Hoh.
  assert (Hall : Forall (fun c => c = 0 \/ c = 1 \/ c = 3) (data node_type)).
  { apply Forall_forall. intros c Hc.
    destruct (Z.eq_dec c 3) as [|N3]; [tauto|].
    destruct (Z.eq_dec c 1) as [|N1]; [tauto|].
    destruct (Z.eq_dec c 0) as [|N0]; [tauto|].
    exfalso. apply Bool.not_true_iff_false in Hex. apply Hex.
    apply existsb_exists. eexists. split; [apply in_map; exact Hc|].
    destruct (Z.eqb_spec c 3); [lia|].
    destruct (Z.eqb_spec c 1); [lia|].
    destruct (Z.eqb_spec c 0); [lia|].
    apply Z.eqb_refl. }
  split; [exact Hall|].
  assert (Hm : map (fun c => if c =? 3 then 2 else if c =? 1 then 1
                             else if c =? 0 then 0
                             else cast_int (dtype_of node_type) (-1))
                   (data node_type)
               = map category (data node_type)).
  { apply map_ext_in. intros c Hc. rewrite Forall_forall in Hall.
    destruct (Hall c Hc) as [E|[E|E]]; subst c; reflexivity. }
  rewrite Hm, one_hot_map, map_map in Hoh.
  - now injection Hoh as <-.
  - apply Forall_map, Forall_forall. intros c _. unfold category.
    destruct (c =? 0), (c =? 1); lia.
Qed.

End MaskAndTypes.

(** X12.  The rollout mask and the one-hot node types agree: when
    [_one_hot_encode] accepts an integer tensor, [_get_rollout_mask] is true
    for exactly the nodes whose one-hot row is that of the first or of the
    second category. *)
Theorem rollout_mask_matches_one_hot
        (node_type : typed (list Z)) (O : list (list Z)) :
  is_integer (dtype_of node_type) = true ->
  _one_hot_encode node_type = Ok O ->
  Forall2 (fun m row => m = true <-> row = [1; 0; 0]%Z \/ row = [0; 1; 0]%Z)
          (_get_rollout_mask node_type) O.
Proof.
  intros Hint Hoh.
  destruct (one_hot_encode_inv node_type Hint O Hoh) as [Hall ->].
  unfold _get_rollout_mask. clear Hoh. revert Hall.
  generalize (data node_type). intros codes Hall.
  induction Hall as [|c codes Hc _ IH]; cbn [map]; constructor; [|exact IH].
  destruct Hc as [E|[E|E]]; subst c; cbn; split; intros H;
    try tauto; try discriminate; destruct H; discriminate.
Qed.

Lemma rollout_mask_matches_one_hot_witness :
  exists O,
    is_integer (dtype_of (mkTyped UInt8 [0; 3; 1]%Z)) = true /\
    _one_hot_encode (mkTyped UInt8 [0; 3; 1]%Z) = Ok O /\
    Forall2 (fun m row => m = true <-> row = [1; 0; 0]%Z \/ row = [0; 1; 0]%Z)
            (_get_rollout_mask (mkTyped UInt8 [0; 3; 1]%Z)) O.
Proof.
  eexists. split; [reflexivity|]. split; [reflexivity|].
  apply rollout_mask_matches_one_hot; reflexivity.
Defined.

(** ** The further properties on the small data set *)

Lemma statistics_need_samples_witness :
  (0 <= 0)%Z /\
  _get_edge_stats 0 [] = Raise TypeError /\
  _get_node_stats 0 [] [] = Raise TypeError /\
  __init__ example_files "train"%string 0 5 0 = Raise TypeError /\
  (String.eqb "eval" "train" = false ->
   __init__ example_files "eval"%string 0 5 0
   = (es <- edge_stats_json example_files ;;
      ns <- node_stats_json example_files ;;
      Ok (mkDataset "eval"%string 0 5 0 (0 * (5 - 1))
                    [] [] [] [] [] es [] [] ns))).
Proof.
  split; [lia|].
  apply (statistics_need_samples example_files "eval"%string 0 5 0 [] [] []).
  lia.
Defined.

Lemma constructor_needs_records_witness :
  exists self,
    __init__ example_files "eval"%string 3 5 0 = Ok self /\
    (3 <= Py.len (tfrecord example_files))%Z /\
    (Py.len (tfrecord example_files) < 4)%Z /\
    __init__ example_files "eval"%string 4 5 0 = Raise OutOfRangeError.
Proof.
  eexists. split; [exact example_built_eq|].
  split.
  { exact (proj1 (constructor_needs_records
                    example_files "eval"%string 3 5 0) _ example_built_eq). }
  split; [cbn; lia|].
  apply (proj2 (constructor_needs_records
                  example_files "eval"%string 4 5 0) _ example_built_eq).
  cbn; lia.
Defined.



Lemma example_lookup_eq :
  (self <- __init__ example_files "eval"%string 3 5 0 ;; __getitem__ self 7)
  = example_lookup.
Proof. reflexivity. Qed.

Lemma getitem_updates_stored_graph_witness :
  exists self it self',
    __init__ example_files "eval"%string 3 5 0 = Ok self /\
    __getitem__ self 7 = Ok (it, self') /\
    exists k G,
      nth_error (graphs self) k = Some G /\
      nth_error (graphs self') k = Some (item_graph it) /\
      (forall j, j <> k -> nth_error (graphs self') j
                           = nth_error (graphs self) j) /\
      self' = with_graph self k (item_graph it) /\
      edges (item_graph it) = edges G /\
      nnodes (item_graph it) = nnodes G /\
      edata_x (item_graph it) = edata_x G.
Proof.
  pose proof example_lookup_eq as Hget. rewrite example_built_eq in Hget.
  unfold example_built, example_lookup in Hget. cbn [bind] in Hget.
  do 3 eexists. split; [exact example_built_eq|]. split; [exact Hget|].
  exact (getitem_updates_stored_graph _ _ 7 _ Hget).
Defined.

Lemma getitem_history_independent_witness :
  exists self it self',
    __init__ example_files "eval"%string 3 5 0 = Ok self /\
    __getitem__ self 7 = Ok (it, self') /\
    returned (__getitem__ self' 7) = Ok it /\
    returned (__getitem__ self' 4) = returned (__getitem__ self 4) /\
    returned (__getitem__ self' 12) = returned (__getitem__ self 12).
Proof.
  pose proof example_lookup_eq as Hget. rewrite example_built_eq in Hget.
  unfold example_built, example_lookup in Hget. cbn [bind] in Hget.
  do 3 eexists. split; [exact example_built_eq|]. split; [exact Hget|].
  split.
  { rewrite (getitem_history_independent _ _ 7 7 _ Hget), Hget.
    reflexivity. }
  split; exact (getitem_history_independent _ _ 7 _ _ Hget).
Defined.

Lemma normalize_edge_roundtrip_witness :
  exists y,
    rectangular ([[3; 4; 5]; [1; 0; 1]]%R : tensor2) /\
    Forall (fun c => c <> 0%R) [2; 2; 4]%R /\
    normalize_edge (mkGraph [(0, 1); (1, 0)]%Z 2
                            (Some [[3; 4; 5]; [1; 0; 1]]%R) None None None)
                   [1; 0; 1]%R [2; 2; 4]%R = Ok y /\
    normalize_node ([[3; 4; 5]; [1; 0; 1]]%R : tensor2)
                   [1; 0; 1]%R [2; 2; 4]%R = Ok y /\
    denormalize y [1; 0; 1]%R [2; 2; 4]%R = Ok [[3; 4; 5]; [1; 0; 1]]%R.
Proof.
  assert (Hr : rectangular ([[3; 4; 5]; [1; 0; 1]]%R : tensor2))
    by (repeat constructor).
  assert (Hs : Forall (fun c => c <> 0%R) [2; 2; 4]%R)
    by (repeat constructor; lra).
  destruct (normalize_edge_roundtrip
              (mkGraph [(0, 1); (1, 0)]%Z 2
                       (Some [[3; 4; 5]; [1; 0; 1]]%R) None None None)
              [[3; 4; 5]; [1; 0; 1]]%R [1; 0; 1]%R [2; 2; 4]%R
              eq_refl Hr eq_refl eq_refl Hs) as [y Hy].
  exists y. split; [exact Hr|]. split; [exact Hs|]. exact Hy.
Defined.

Lemma features_plus_targets_witness :
  Forall (fun s => length s = 2%nat /\ Forall (fun r => length r = 1%nat) s)
         [[[1]; [2]]; [[4]; [8]]; [[5]; [3]]]%R /\
  zip_with (zip_with (zip_with Rplus))
           (data (_drop_last [[[1]; [2]]; [[4]; [8]]; [[5]; [3]]]%R))
           (data (_push_forward_diff [[[1]; [2]]; [[4]; [8]]; [[5]; [3]]]%R))
  = [[[4]; [8]]; [[5]; [3]]]%R.
Proof.
  assert (H : Forall (fun s => length s = 2%nat /\
                               Forall (fun r => length r = 1%nat) s)
                     [[[1]; [2]]; [[4]; [8]]; [[5]; [3]]]%R)
    by (repeat constructor).
  split; [exact H|].
  exact (features_plus_targets 2 1 _ H).
Defined.

(** ** Statistics of normalized data *)

Section Channels.

Local Open Scope R_scope.

Lemma nth_zip_with (f : R -> R -> R) (a b : vec) (c : nat) :
  (c < length a)%nat -> (c < length b)%nat ->
  nth c (zip_with f a b) 0 = f (nth c a 0) (nth c b 0).
Proof.
  revert a b; induction c as [|c IH]; intros [|x a] [|y b]; simpl;
    try lia; [reflexivity|].
  intros Ha Hb. apply IH; lia.
Qed.

Lemma nth_map_in (f : R -> R) (l : vec) (c : nat) :
  (c < length l)%nat -> nth c (map f l) 0 = f (nth c l 0).
Proof.
  intros Hc. rewrite (nth_indep _ 0 (f 0)) by now rewrite length_map.
  apply map_nth.
Qed.

Lemma fold_add_channel (C c : nat) (l : list vec) (acc : vec) :
  (c < C)%nat -> length acc = C -> Forall (fun r => length r = C) l ->
  nth c (fold_left (zip_with Rplus) l acc) 0
  = nth c acc 0 + total (channel c l).
Proof.
  intros Hc. revert acc; induction l as [|r l IH]; intros acc Hacc Hl;
    cbn [fold_left channel map total fold_right]; [ring|].
  inversion Hl as [|? ? Hr Hl']; subst.
  rewrite IH; [|rewrite zip_with_length; lia|assumption].
  rewrite nth_zip_with by lia. fold (channel c l). fold (total (channel c l)).
  ring.
Qed.

Lemma sum0_channel (C c : nat) (x : tensor2) :
  (c < C)%nat -> uniform_rows C x ->
  nth c (sum0 x) 0 = total (channel c x).
Proof.
  intros Hc [Hne Hall]. destruct x as [|r x]; [contradiction|].
  inversion Hall; subst. cbn [sum0].
  rewrite (fold_add_channel (length r) c) by auto. reflexivity.
Qed.

Lemma mean0_channel (C c : nat) (x : tensor2) :
  (c < C)%nat -> uniform_rows C x ->
  nth c (mean0 x) 0 = total (channel c x) / INR (length x).
Proof.
  intros Hc Hu. unfold mean0.
  rewrite nth_map_in by (rewrite (sum0_length C x Hu); exact Hc).
  now rewrite (sum0_channel C c x Hc Hu).
Qed.

Lemma weighted_mean_channel (C c : nat) (n : Z) (ms : list vec) :
  (c < C)%nat -> Forall (fun m => length m = C) ms ->
  nth c (weighted_mean C n ms) 0 = total (channel c ms) / IZR n.
Proof.
  intros Hc Hms. unfold weighted_mean, div_int.
  rewrite nth_map_in by (rewrite (vsum_length C ms Hms); exact Hc).
  unfold vsum. rewrite (fold_add_channel C c) by
      (auto; apply repeat_length).
  rewrite nth_repeat_lt by exact Hc. f_equal. ring.
Qed.

End Channels.

Section Standardized.

Local Open Scope R_scope.

Lemma total_shifted {A : Type} (v : A -> R) (m s : R) (l : list A) :
  total (map (fun a => (v a - m) / s) l)
  = (total (map v l) - INR (length l) * m) / s.
Proof.
  induction l as [|a l IH]; cbn [map total fold_right length].
  - simpl. unfold Rdiv. ring.
  - fold (total (map (fun a0 => (v a0 - m) / s) l)). rewrite IH.
    fold (total (map v l)). rewrite S_INR. unfold Rdiv. ring.
Qed.

Lemma total_shifted_square {A : Type} (q v : A -> R) (m s : R)
      (l : list A) :
  total (map (fun a => (q a - 2 * m * v a + m * m) / (s * s)) l)
  = (total (map q l) - 2 * m * total (map v l) + INR (length l) * (m * m))
    / (s * s).
Proof.
  induction l as [|a l IH]; cbn [map total fold_right length].
  - simpl. unfold Rdiv. ring.
  - fold (total (map (fun a0 => (q a0 - 2 * m * v a0 + m * m) / (s * s)) l)).
    rewrite IH. fold (total (map q l)). fold (total (map v l)).
    rewrite S_INR. unfold Rdiv. ring.
Qed.

Lemma channel_square (C c : nat) (x : tensor2) :
  (c < C)%nat -> Forall (fun r => length r = C) x ->
  channel c (map square x) = map (fun v => v * v) (channel c x).
Proof.
  intros Hc Hx. unfold channel. rewrite !map_map.
  apply map_ext_in. intros r Hr. rewrite Forall_forall in Hx.
  unfold square. apply (nth_map_in (fun v => v * v) r c).
  rewrite (Hx r Hr). exact Hc.
Qed.

Variables (C : nat) (mu std : vec).
Hypothesis mu_size : length mu = C.
Hypothesis std_size : length std = C.

Lemma standardize_rows (x : tensor2) :
  Forall (fun r => length r = C) x ->
  Forall (fun r => length r = C) (standardize mu std x).
Proof.
  intros Hx. unfold standardize. apply Forall_map.
  eapply Forall_impl; [|exact Hx]. cbn beta. intros r Hr.
  rewrite !zip_with_length. lia.
Qed.

Lemma standardize_uniform (x : tensor2) :
  uniform_rows C x -> uniform_rows C (standardize mu std x).
Proof.
  intros [Hne Hx]. split; [|now apply standardize_rows].
  destruct x; [contradiction|discriminate].
Qed.

Lemma channel_standardize (c : nat) (x : tensor2) :
  (c < C)%nat -> Forall (fun r => length r = C) x ->
  channel c (standardize mu std x)
  = map (fun v => (v - nth c mu 0) / nth c std 0) (channel c x).
Proof.
  intros Hc Hx. unfold channel, standardize. rewrite !map_map.
  apply map_ext_in. intros r Hr. rewrite Forall_forall in Hx.
  pose proof (Hx r Hr) as Hl.
  rewrite nth_zip_with by (rewrite ?zip_with_length; lia).
  rewrite nth_zip_with by lia. reflexivity.
Qed.

(** The mean of a normalized tensor, channel by channel. *)
Lemma mean0_standardize (c : nat) (x : tensor2) :
  (c < C)%nat -> uniform_rows C x ->
  nth c (mean0 (standardize mu std x)) 0
  = (nth c (mean0 x) 0 - nth c mu 0) / nth c std 0.
Proof.
  intros Hc Hu. pose proof Hu as [Hne Hx].
  rewrite (mean0_channel C c _ Hc (standardize_uniform x Hu)).
  rewrite (mean0_channel C c x Hc Hu).
  rewrite channel_standardize by assumption.
  rewrite (total_shifted (fun v => v)), map_id.
  unfold standardize. rewrite !length_map.
  assert (Hk : INR (length x) <> 0).
  { apply not_0_INR. destruct x; [contradiction|discriminate]. }
  replace (length (channel c x)) with (length x)
    by (unfold channel; now rewrite length_map).
  unfold vec in *.
  destruct (Req_dec (nth c std 0) 0) as [Hs|Hs].
  - rewrite Hs. unfold Rdiv. rewrite Rinv_0. ring.
  - field. split; assumption.
Qed.

(** The mean of the squares of a normalized tensor. *)
Lemma meansqr_standardize (c : nat) (x : tensor2) :
  (c < C)%nat -> uniform_rows C x ->
  nth c (mean0 (map square (standardize mu std x))) 0
  = (nth c (mean0 (map square x)) 0
     - 2 * nth c mu 0 * nth c (mean0 x) 0 + nth c mu 0 * nth c mu 0)
    / (nth c std 0 * nth c std 0).
Proof.
  intros Hc Hu. pose proof Hu as [Hne Hx].
  pose proof (standardize_uniform x Hu) as Hsu.
  rewrite (mean0_channel C c _ Hc (uniform_square C _ Hsu)).
  rewrite (mean0_channel C c _ Hc (uniform_square C _ Hu)).
  rewrite (mean0_channel C c x Hc Hu).
  rewrite (channel_square C c) by (assumption || apply Hsu).
  rewrite (channel_square C c) by assumption.
  rewrite channel_standardize by assumption.
  rewrite map_map.
  unfold standardize. rewrite !length_map.
  assert (Hk : INR (length x) <> 0).
  { apply not_0_INR. destruct x; [contradiction|discriminate]. }
  set (k := INR (length x)) in *. set (m := nth c mu 0).
  set (s := nth c std 0).
  assert (Hsum : total (map (fun v => (v - m) / s * ((v - m) / s))
                            (channel c x))
                 = (total (map (fun v => v * v) (channel c x))
                    - 2 * m * total (channel c x) + k * (m * m)) / (s * s)).
  { transitivity
      (total (map (fun v => (v * v - 2 * m * v + m * m) / (s * s))
                  (channel c x))).
    - f_equal. apply map_ext. intros v. unfold Rdiv.
      destruct (Req_dec s 0) as [Hs|Hs].
      + rewrite Hs, Rmult_0_l. rewrite Rinv_0. ring.
      + field. exact Hs.
    - rewrite (total_shifted_square (fun v => v * v) (fun v => v) m s).
      rewrite map_id. subst k.
      replace (length (channel c x)) with (length x)
        by (unfold channel; now rewrite length_map).
      reflexivity. }
  rewrite Hsum. set (q := total (map (fun v => v * v) (channel c x))).
  set (t := total (channel c x)).
  unfold vec in *. change (INR (length x)) with k.
  destruct (Req_dec s 0) as [Hs|Hs].
  - rewrite Hs, Rmult_0_l. unfold Rdiv. rewrite Rinv_0. ring.
  - field. split; assumption.
Qed.

End Standardized.

Section StandardizedStatistics.

Local Open Scope R_scope.

Variables (C : nat) (n : Z) (xs : list tensor2).
Hypothesis some_samples : (0 < n)%Z.
Hypothesis samples : Py.len xs = n.
Hypothesis shapes : Forall (uniform_rows C) xs.

Variables (mu meansqr std : vec).
Hypothesis mu_def : mu = weighted_mean C n (map mean0 xs).
Hypothesis meansqr_def :
  meansqr = weighted_mean C n (map (fun x => mean0 (map square x)) xs).
Hypothesis std_def : std = sqrt (zip_with Rminus meansqr (square mu)).

Lemma means_size (f : tensor2 -> tensor2) :
  (forall x, uniform_rows C x -> uniform_rows C (f x)) ->
  Forall (fun m => length m = C) (map (fun x => mean0 (f x)) xs).
Proof.
  intros Hf. apply Forall_map. eapply Forall_impl; [|exact shapes].
  cbn beta. intros x Hx. apply mean0_length. now apply Hf.
Qed.

Lemma mu_size : length mu = C.
Proof.
  rewrite mu_def. unfold weighted_mean. rewrite div_int_length.
  apply vsum_length.
  exact (means_size (fun x => x) (fun x H => H)).
Qed.

Lemma meansqr_size : length meansqr = C.
Proof.
  rewrite meansqr_def. unfold weighted_mean. rewrite div_int_length.
  apply vsum_length.
  exact (means_size (map square) (uniform_square C)).
Qed.

Lemma std_size : length std = C.
Proof.
  rewrite std_def. unfold sqrt, square.
  rewrite length_map, zip_with_length, length_map, meansqr_size, mu_size.
  lia.
Qed.

Lemma samples_INR : IZR n = INR (length xs).
Proof. rewrite <- samples. unfold Py.len. symmetry. apply INR_IZR_INZ. Qed.

Lemma samples_nonzero : INR (length xs) <> 0.
Proof. rewrite <- samples_INR. apply eq_IZR_contrapositive. lia. Qed.

Lemma mu_channel (c : nat) :
  (c < C)%nat ->
  nth c mu 0 = total (map (fun x => nth c (mean0 x) 0) xs) / INR (length xs).
Proof.
  intros Hc. rewrite mu_def.
  rewrite (weighted_mean_channel C c) by
      (assumption || exact (means_size (fun x => x) (fun x H => H))).
  unfold channel. now rewrite map_map, samples_INR.
Qed.

Lemma meansqr_channel (c : nat) :
  (c < C)%nat ->
  nth c meansqr 0
  = total (map (fun x => nth c (mean0 (map square x)) 0) xs)
    / INR (length xs).
Proof.
  intros Hc. rewrite meansqr_def.
  rewrite (weighted_mean_channel C c) by
      (assumption || exact (means_size (map square) (uniform_square C))).
  unfold channel. now rewrite map_map, samples_INR.
Qed.

Lemma std_channel (c : nat) :
  (c < C)%nat ->
  nth c std 0
  = R_sqrt.sqrt (nth c meansqr 0 - nth c mu 0 * nth c mu 0).
Proof.
  intros Hc. rewrite std_def at 1. unfold sqrt.
  rewrite (nth_map_in R_sqrt.sqrt) by
      (rewrite zip_with_length; unfold square; rewrite length_map,
         meansqr_size, mu_size; lia).
  rewrite nth_zip_with by
      (unfold square; rewrite ?length_map, ?meansqr_size, ?mu_size; lia).
  unfold square.
  rewrite (nth_map_in (fun x => x * x)) by (rewrite mu_size; lia).
  reflexivity.
Qed.

(** The statistics of the data normalized with its own statistics. *)
Lemma standardized_mean :
  weighted_mean C n (map mean0 (map (standardize mu std) xs))
  = repeat 0 C.
Proof.
  assert (Hsz : Forall (fun m => length m = C)
                       (map mean0 (map (standardize mu std) xs))).
  { rewrite map_map.
    exact (means_size (standardize mu std)
             (standardize_uniform C mu std mu_size std_size)). }
  apply (nth_ext _ _ 0 0).
  { unfold weighted_mean.
    now rewrite div_int_length, (vsum_length C _ Hsz), repeat_length. }
  intros c Hc. unfold weighted_mean in Hc.
  rewrite div_int_length, (vsum_length C _ Hsz) in Hc.
  rewrite nth_repeat_lt by exact Hc.
  rewrite (weighted_mean_channel C c _ _ Hc Hsz).
  unfold channel. rewrite !map_map.
  rewrite (map_ext_in _ (fun x => (nth c (mean0 x) 0 - nth c mu 0)
                                  / nth c std 0)).
  2:{ intros x Hx. pose proof shapes as Hsh.
      rewrite Forall_forall in Hsh.
      apply (mean0_standardize C mu std mu_size std_size c x Hc).
      now apply Hsh. }
  rewrite total_shifted, (mu_channel c Hc), samples_INR.
  pose proof samples_nonzero as Hk.
  set (t := total (map (fun x => nth c (mean0 x) 0) xs)).
  replace (t - INR (length xs) * (t / INR (length xs))) with 0
    by (field; exact Hk).
  unfold Rdiv. ring.
Qed.

Lemma standardized_std :
  Forall (fun s => s <> 0) std ->
  sqrt (zip_with Rminus
          (weighted_mean C n
             (map (fun x => mean0 (map square x))
                  (map (standardize mu std) xs)))
          (square (repeat 0 C)))
  = repeat 1 C.
Proof.
  intros Hnz.
  assert (Hsz : Forall (fun m => length m = C)
                       (map (fun x => mean0 (map square x))
                            (map (standardize mu std) xs))).
  { rewrite map_map.
    apply (means_size (fun x => map square (standardize mu std x))).
    intros x Hx. apply uniform_square.
    now apply (standardize_uniform C mu std mu_size std_size). }
  assert (Hwl : length (weighted_mean C n
                          (map (fun x => mean0 (map square x))
                               (map (standardize mu std) xs))) = C).
  { unfold weighted_mean. now rewrite div_int_length, (vsum_length C _ Hsz). }
  assert (Hzl : length (zip_with Rminus
                          (weighted_mean C n
                             (map (fun x => mean0 (map square x))
                                  (map (standardize mu std) xs)))
                          (square (repeat 0 C))) = C).
  { rewrite zip_with_length, Hwl. unfold square.
    rewrite length_map, repeat_length. lia. }
  apply (nth_ext _ _ 0 0).
  { unfold sqrt. now rewrite length_map, Hzl, repeat_length. }
  intros c Hc. unfold sqrt in Hc. rewrite length_map, Hzl in Hc.
  rewrite nth_repeat_lt by exact Hc. unfold sqrt.
  rewrite (nth_map_in R_sqrt.sqrt) by (rewrite Hzl; exact Hc).
  rewrite nth_zip_with by
      (rewrite ?Hwl; unfold square; rewrite ?length_map, ?repeat_length;
       exact Hc).
  unfold square at 1.
  rewrite (nth_map_in (fun x => x * x)) by (now rewrite repeat_length).
  rewrite nth_repeat_lt by exact Hc.
  rewrite (weighted_mean_channel C c _ _ Hc Hsz).
  unfold channel. rewrite !map_map.
  set (m := nth c mu 0). set (s := nth c std 0).
  rewrite (map_ext_in _
             (fun x => (nth c (mean0 (map square x)) 0
                        - 2 * m * nth c (mean0 x) 0 + m * m) / (s * s))).
  2:{ intros x Hx. pose proof shapes as Hsh.
      rewrite Forall_forall in Hsh.
      apply (meansqr_standardize C mu std mu_size std_size c x Hc).
      now apply Hsh. }
  rewrite total_shifted_square, samples_INR.
  assert (Hs : s <> 0).
  { rewrite Forall_forall in Hnz. apply Hnz. apply nth_In.
    now rewrite std_size. }
  pose proof (std_channel c Hc) as Hsc. fold s m in Hsc.
  pose proof (mu_channel c Hc) as Hmc. fold m in Hmc.
  pose proof (meansqr_channel c Hc) as Hqc.
  pose proof samples_nonzero as Hk.
  set (q := total (map (fun x => nth c (mean0 (map square x)) 0) xs)) in *.
  set (t := total (map (fun x => nth c (mean0 x) 0) xs)) in *.
  set (k := INR (length xs)) in *.
  assert (Hpos : 0 < nth c meansqr 0 - m * m).
  { destruct (Rlt_or_le 0 (nth c meansqr 0 - m * m)) as [H|H]; [exact H|].
    exfalso. apply Hs. rewrite Hsc. now apply sqrt_neg_0. }
  assert (Hss : s * s = nth c meansqr 0 - m * m).
  { rewrite Hsc. apply sqrt_sqrt. lra. }
  assert (Hden : s * s <> 0) by (rewrite Hss; lra).
  assert (Hnum : q - 2 * m * t + k * (m * m) = k * (s * s)).
  { rewrite Hss, Hqc. clearbody m. subst m. field. exact Hk. }
  change (R_sqrt.sqrt ((q - 2 * m * t + k * (m * m)) / (s * s) / k - 0 * 0)
          = 1).
  rewrite Hnum.
  replace (k * (s * s) / (s * s) / k - 0 * 0) with 1
    by (field; split; assumption).
  apply sqrt_1.
Qed.

End StandardizedStatistics.

Section NormalizedEdges.

Local Open Scope R_scope.

Lemma normalize_edge_uniform (C : nat) (g : graph) (x : tensor2)
      (mu std : vec) :
  edata_x g = Some x -> uniform_rows C x ->
  length mu = C -> length std = C ->
  normalize_edge g mu std = Ok (standardize mu std x).
Proof.
  intros Hx [Hne Hrows] Hmu Hstd. rewrite Forall_forall in Hrows.
  unfold normalize_edge, get_edata_x. rewrite Hx. cbn [bind].
  assert (Hlast : size_last x = C).
  { destruct x as [|r x]; [contradiction|]. cbn [size_last Tensor_list
      Tensor_vec]. apply Hrows. now left. }
  rewrite Hlast, Hmu, Hstd, Nat.eqb_refl. cbn [negb orb].
  cbn [map_rows Tensor_list Tensor_vec].
  apply mapM_pure. intros r Hr.
  rewrite broadcast_same by (rewrite (Hrows r Hr); congruence).
  cbn [bind]. apply broadcast_same.
  rewrite zip_with_length, (Hrows r Hr). lia.
Qed.

Lemma normalized_edata (C : nat) (st : edge_stats_t)
      (graphs graphs' : list graph) (xs : list tensor2) :
  length (edge_mean st) = C -> length (edge_std st) = C ->
  Forall (uniform_rows C) xs ->
  map edata_x graphs = map Some xs ->
  Forall2 (fun g g' => normalized_graph st g = Ok g') graphs graphs' ->
  map edata_x graphs'
  = map Some (map (standardize (edge_mean st) (edge_std st)) xs).
Proof.
  intros Hmu Hstd Hxs Hmap HF. revert xs Hxs Hmap.
  induction HF as [|g g' graphs graphs' Hg _ IH]; intros [|x xs] Hxs Hmap;
    try discriminate; [reflexivity|].
  cbn [map] in *. injection Hmap as Hx Hmap.
  pose proof (Forall_inv Hxs) as Hux.
  pose proof (Forall_inv_tail Hxs) as Hxs'.
  destruct (normalized_graph_inv _ _ _ Hg) as [_ [_ [y [Hy [Hy' _]]]]].
  rewrite (normalize_edge_uniform C g x _ _ Hx Hux Hmu Hstd) in Hy.
  injection Hy as <-. rewrite Hy'. f_equal. now apply IH.
Qed.

End NormalizedEdges.

(** X13.  Normalization does what the statistics promise: when the edge
    statistics of the graphs are computed, every standard deviation is
    non-zero, and the loop of the constructor normalizes the edge features
    with them, then computing the edge statistics again gives mean 0 and
    standard deviation 1 in every channel (over exact reals, for features
    with at least one row of [C] channels per graph). *)
Theorem normalized_edge_statistics
        (n : Z) (C : nat) (graphs graphs' : list graph)
        (xs : list tensor2) (st : edge_stats_t) :
  (0 < n)%Z ->
  Py.len graphs = n ->
  map edata_x graphs = map Some xs ->
  Forall (uniform_rows C) xs ->
  _get_edge_stats n graphs = Ok st ->
  Forall (fun s => s <> 0%R) (edge_std st) ->
  Py.for_loop (Py.range n) (normalize_edge_step st) graphs = Ok graphs' ->
  _get_edge_stats n graphs' = Ok (mkEdgeStats (repeat 0%R C) (repeat 1%R C)).
Proof.
  intros Hn Hlen Hmap Hxs Hstats Hnz Hloop.
  assert (Hxl : Py.len xs = n).
  { rewrite <- Hlen. unfold Py.len. f_equal.
    rewrite <- (length_map edata_x graphs), Hmap. symmetry.
    apply length_map. }
  rewrite (get_edge_stats_spec n Hn C graphs xs Hlen Hmap Hxs) in Hstats.
  injection Hstats as <-. cbn [edge_std edge_mean] in *.
  set (mu := weighted_mean C n (map mean0 xs)) in *.
  set (meansqr := weighted_mean C n (map (fun x => mean0 (map square x)) xs))
    in *.
  set (std := sqrt (zip_with Rminus meansqr (square mu))) in *.
  pose proof (mu_size C n xs Hxs mu eq_refl) as Hmu.
  pose proof (std_size C n xs Hxs mu meansqr std eq_refl eq_refl eq_refl)
    as Hstd.
  apply (inplace_loop (normalized_graph (mkEdgeStats mu std))) in Hloop;
    [|apply normalize_edge_step_inv].
  destruct Hloop as [Hl' [_ [HF _]]].
  assert (Hgl : length graphs = Z.to_nat n)
    by (unfold Py.len in Hlen; lia).
  rewrite (firstn_all_eq graphs) in HF by assumption.
  rewrite (firstn_all_eq graphs') in HF by congruence.
  pose proof (normalized_edata C (mkEdgeStats mu std) graphs graphs' xs
                Hmu Hstd Hxs Hmap HF) as Hmap'.
  cbn [edge_mean edge_std] in Hmap'.
  rewrite (get_edge_stats_spec n Hn C graphs'
             (map (standardize mu std) xs)).
  - rewrite (standardized_mean C n xs Hn Hxl Hxs mu meansqr std
               eq_refl eq_refl eq_refl).
    rewrite (standardized_std C n xs Hn Hxl Hxs mu meansqr std
               eq_refl eq_refl eq_refl Hnz).
    reflexivity.
  - unfold Py.len in *. lia.
  - exact Hmap'.
  - apply Forall_map. eapply Forall_impl; [|exact Hxs]. cbn beta.
    apply (standardize_uniform C mu std Hmu Hstd).
Qed.

Section NormalizedNodes.

Local Open Scope R_scope.

(** A successful [normalize_node] on a rank-3 tensor with rows of the size
    of the statistics. *)
Lemma normalize_node_uniform (C : nat) (x y : tensor3) (mu std : vec) :
  Forall (fun r => length r = C) (concat x) ->
  length mu = C -> length std = C ->
  normalize_node x mu std = Ok y ->
  y = map (standardize mu std) x.
Proof.
  intros Hrows Hmu Hstd. unfold normalize_node.
  destruct (negb _ || negb _)%bool; [discriminate|].
  cbn [map_rows Tensor_list Tensor_vec]. intros Hy.
  rewrite (mapM_pure _ (standardize mu std)) in Hy; [congruence|].
  intros s Hs. unfold standardize. apply mapM_pure. intros r Hr.
  rewrite Forall_forall in Hrows.
  assert (Hl : length r = C).
  { apply Hrows. apply in_concat. exists s. now split. }
  rewrite !expand_same by congruence. reflexivity.
Qed.

Lemma concat_standardize (mu std : vec) (x : tensor3) :
  concat (map (standardize mu std) x) = standardize mu std (concat x).
Proof. unfold standardize. symmetry. apply concat_map. Qed.

(** The per-trajectory means of a group of normalized tensors. *)
Lemma group_means {A B : Type} (p : A -> tensor3) (p' : B -> tensor3)
      (mu std : vec) (l : list A) (l' : list B) :
  Forall2 (fun a b => p' b = map (standardize mu std) (p a)) l l' ->
  map (fun b => mean01 (p' b)) l'
  = map mean0 (map (standardize mu std) (map (fun a => concat (p a)) l)) /\
  map (fun b => mean01 (map (map square) (p' b))) l'
  = map (fun x => mean0 (map square x))
        (map (standardize mu std) (map (fun a => concat (p a)) l)).
Proof.
  induction 1 as [|a b l l' Hab _ [IH1 IH2]]; [now split|].
  cbn [map]. rewrite IH1, IH2. unfold mean01.
  rewrite concat_map_square, Hab, concat_standardize. now split.
Qed.

Lemma group_uniform {A B : Type} (C : nat) (p : A -> tensor3)
      (p' : B -> tensor3) (mu std : vec) (l : list A) (l' : list B) :
  length mu = C -> length std = C ->
  Forall (fun a => uniform_rows C (concat (p a))) l ->
  Forall2 (fun a b => p' b = map (standardize mu std) (p a)) l l' ->
  Forall (fun b => uniform_rows C (concat (p' b))) l'.
Proof.
  intros Hmu Hstd Hl HF. induction HF as [|a b l l' Hab _ IH];
    [constructor|].
  constructor.
  - rewrite Hab, concat_standardize.
    apply (standardize_uniform C mu std Hmu Hstd).
    exact (Forall_inv Hl).
  - apply IH. exact (Forall_inv_tail Hl).
Qed.

(** The statistics of a group after normalization with its own
    statistics. *)
Lemma group_standardized {A B : Type} (C : nat) (n : Z) (p : A -> tensor3)
      (p' : B -> tensor3) (l : list A) (l' : list B) (mu std : vec) :
  (0 < n)%Z -> Py.len l = n ->
  Forall (fun a => uniform_rows C (concat (p a))) l ->
  mu = weighted_mean C n (map (fun a => mean01 (p a)) l) ->
  std = weighted_std n C (map (fun a => mean01 (p a)) l)
                     (map (fun a => mean01 (map (map square) (p a))) l) ->
  Forall (fun s => s <> 0) std ->
  Forall2 (fun a b => p' b = map (standardize mu std) (p a)) l l' ->
  weighted_mean C n (map (fun b => mean01 (p' b)) l') = repeat 0 C /\
  weighted_std n C (map (fun b => mean01 (p' b)) l')
               (map (fun b => mean01 (map (map square) (p' b))) l')
  = repeat 1 C.
Proof.
  intros Hn Hlen Hu Hmu Hstd Hnz HF.
  destruct (group_means p p' mu std l l' HF) as [Hm Hq].
  set (xs := map (fun a => concat (p a)) l) in *.
  assert (Hxl : Py.len xs = n).
  { unfold xs, Py.len. rewrite length_map. exact Hlen. }
  assert (Hxs : Forall (uniform_rows C) xs).
  { unfold xs. apply Forall_map. exact Hu. }
  assert (Hmu' : mu = weighted_mean C n (map mean0 xs)).
  { rewrite Hmu. unfold xs. now rewrite map_map. }
  assert (Hstd' : std = sqrt (zip_with Rminus
                                (weighted_mean C n
                                   (map (fun x => mean0 (map square x)) xs))
                                (square mu))).
  { assert (Hqq : map (fun a => mean01 (map (map square) (p a))) l
                  = map (fun x => mean0 (map square x)) xs).
    { unfold xs. rewrite map_map. apply map_ext. intros a. unfold mean01.
      now rewrite concat_map_square. }
    rewrite Hstd. unfold weighted_std. rewrite Hqq, <- Hmu. reflexivity. }
  unfold weighted_std. rewrite Hm, Hq.
  rewrite (standardized_mean C n xs Hn Hxl Hxs mu _ std Hmu' eq_refl Hstd').
  split; [reflexivity|].
  apply (standardized_std C n xs Hn Hxl Hxs mu _ std Hmu' eq_refl Hstd' Hnz).
Qed.

End NormalizedNodes.

Section NormalizedNodeLoop.

Local Open Scope R_scope.

Lemma Forall2_refine {A B : Type} (P : A -> Prop) (Q R : A -> B -> Prop)
      (l : list A) (l' : list B) :
  (forall a b, P a -> Q a b -> R a b) ->
  Forall P l -> Forall2 Q l l' -> Forall2 R l l'.
Proof.
  intros HR HP HQ. induction HQ as [|a b l l' Hab _ IH]; constructor.
  - apply HR; [exact (Forall_inv HP)|exact Hab].
  - apply IH. exact (Forall_inv_tail HP).
Qed.

Lemma group_sizes {A : Type} (C : nat) (n : Z) (p : A -> tensor3)
      (l : list A) :
  Forall (fun a => uniform_rows C (concat (p a))) l ->
  length (weighted_mean C n (map (fun a => mean01 (p a)) l)) = C /\
  length (weighted_std n C (map (fun a => mean01 (p a)) l)
                       (map (fun a => mean01 (map (map square) (p a))) l))
  = C.
Proof.
  intros Hu.
  assert (Hm : length (weighted_mean C n (map (fun a => mean01 (p a)) l))
               = C).
  { unfold weighted_mean. rewrite div_int_length. apply vsum_length.
    apply Forall_map. eapply Forall_impl; [|exact Hu]. cbn beta.
    intros a. apply mean01_length. }
  split; [exact Hm|].
  unfold weighted_std, sqrt, square.
  rewrite length_map, zip_with_length, length_map, Hm.
  unfold weighted_mean. rewrite div_int_length, vsum_length; [lia|].
  apply Forall_map. eapply Forall_impl; [|exact Hu]. cbn beta.
  intros a. apply mean01_square_length.
Qed.

End NormalizedNodeLoop.

(** X14.  The same for the node data: when the node statistics of the
    features and targets are computed, every standard deviation is
    non-zero, and the loop of the constructor normalizes the three groups
    with them, then computing the node statistics again gives mean 0 and
    standard deviation 1 in every channel of every group (over exact
    reals). *)
Theorem normalized_node_statistics
        (n : Z) (Cw Cs : nat)
        (node_features node_features' : list features_t)
        (node_targets node_targets' : list targets_t)
        (st : node_stats_t) :
  (0 < n)%Z ->
  Py.len node_features = n ->
  Py.len node_targets = n ->
  Forall (fun f => uniform_rows Cw (concat (features_world_pos f)))
         node_features ->
  Forall (fun t => uniform_rows Cw (concat (targets_world_pos t)) /\
                   uniform_rows Cs (concat (targets_stress t)))
         node_targets ->
  _get_node_stats n node_features node_targets = Ok st ->
  Forall (fun s => s <> 0%R) (world_pos_std st) ->
  Forall (fun s => s <> 0%R) (world_pos_diff_std st) ->
  Forall (fun s => s <> 0%R) (stress_std st) ->
  Py.for_loop (Py.range n) (normalize_node_step st)
              (node_features, node_targets)
  = Ok (node_features', node_targets') ->
  _get_node_stats n node_features' node_targets'
  = Ok (mkNodeStats (repeat 0%R Cw) (repeat 1%R Cw)
                    (repeat 0%R Cw) (repeat 1%R Cw)
                    (repeat 0%R Cs) (repeat 1%R Cs)).
Proof.
  intros Hn Hlf Hlt Hfu Htu Hstats Hzw Hzd Hzs Hloop.
  assert (Hdu : Forall (fun t => uniform_rows Cw (concat (targets_world_pos t)))
                       node_targets)
    by (eapply Forall_impl; [|exact Htu]; cbn beta; tauto).
  assert (Hsu : Forall (fun t => uniform_rows Cs (concat (targets_stress t)))
                       node_targets)
    by (eapply Forall_impl; [|exact Htu]; cbn beta; tauto).
  rewrite (get_node_stats_spec n Hn Cw Cs _ _ Hlf Hlt Hfu Htu) in Hstats.
  injection Hstats as <-.
  cbn [world_pos_std world_pos_diff_std stress_std] in Hzw, Hzd, Hzs.
  unfold world_pos_means, world_pos_meansqrs, diff_means, diff_meansqrs,
    stress_means, stress_meansqrs in *.
  destruct (group_sizes Cw n features_world_pos node_features Hfu)
    as [Hmw Hsw].
  destruct (group_sizes Cw n targets_world_pos node_targets Hdu)
    as [Hmd Hsd].
  destruct (group_sizes Cs n targets_stress node_targets Hsu)
    as [Hms Hss].
  set (muw := weighted_mean Cw n
                 (map (fun f => mean01 (features_world_pos f))
                      node_features)) in *.
  set (sdw := weighted_std n Cw
                 (map (fun f => mean01 (features_world_pos f)) node_features)
                 (map (fun f => mean01 (map (map square)
                                            (features_world_pos f)))
                      node_features)) in *.
  set (mud := weighted_mean Cw n
                 (map (fun t => mean01 (targets_world_pos t))
                      node_targets)) in *.
  set (sdd := weighted_std n Cw
                 (map (fun t => mean01 (targets_world_pos t)) node_targets)
                 (map (fun t => mean01 (map (map square)
                                            (targets_world_pos t)))
                      node_targets)) in *.
  set (mus := weighted_mean Cs n
                 (map (fun t => mean01 (targets_stress t)) node_targets))
    in *.
  set (sds := weighted_std n Cs
                 (map (fun t => mean01 (targets_stress t)) node_targets)
                 (map (fun t => mean01 (map (map square) (targets_stress t)))
                      node_targets)) in *.
  set (st := mkNodeStats muw sdw mud sdd mus sds) in *.
  (* the loop *)
  rewrite (for_loop_ext _ _ _ _ (normalize_node_step_split st)) in Hloop.
  apply for_loop_pair in Hloop. destruct Hloop as [Ef Et].
  apply (inplace_loop (normalized_features st)) in Ef;
    [|apply features_step_inv].
  apply (inplace_loop (normalized_targets st)) in Et;
    [|apply targets_step_inv].
  destruct Ef as [Hfl [_ [HFf _]]]. destruct Et as [Htl [_ [HFt _]]].
  assert (Hnf : length node_features = Z.to_nat n)
    by (unfold Py.len in Hlf; lia).
  assert (Hnt : length node_targets = Z.to_nat n)
    by (unfold Py.len in Hlt; lia).
  rewrite (firstn_all_eq node_features) in HFf by assumption.
  rewrite (firstn_all_eq node_features') in HFf by congruence.
  rewrite (firstn_all_eq node_targets) in HFt by assumption.
  rewrite (firstn_all_eq node_targets') in HFt by congruence.
  (* what the loop has stored *)
  assert (HFw : Forall2 (fun a b => features_world_pos b
                                    = map (standardize muw sdw)
                                          (features_world_pos a))
                        node_features node_features').
  { refine (Forall2_refine _ _ _ _ _ _ Hfu HFf). intros a b [_ Ha] Hab.
    unfold normalized_features in Hab. bind_inv Hab. injection Hab as <-.
    exact (normalize_node_uniform Cw _ _ _ _ Ha Hmw Hsw E). }
  assert (HFd : Forall2 (fun a b => targets_world_pos b
                                    = map (standardize mud sdd)
                                          (targets_world_pos a))
                        node_targets node_targets').
  { refine (Forall2_refine _ _ _ _ _ _ Hdu HFt). intros a b [_ Ha] Hab.
    unfold normalized_targets in Hab. bind_inv Hab. bind_inv Hab.
    injection Hab as <-.
    exact (normalize_node_uniform Cw _ _ _ _ Ha Hmd Hsd E). }
  assert (HFs : Forall2 (fun a b => targets_stress b
                                    = map (standardize mus sds)
                                          (targets_stress a))
                        node_targets node_targets').
  { refine (Forall2_refine _ _ _ _ _ _ Hsu HFt). intros a b [_ Ha] Hab.
    unfold normalized_targets in Hab. bind_inv Hab. bind_inv Hab.
    injection Hab as <-.
    exact (normalize_node_uniform Cs _ _ _ _ Ha Hms Hss E0). }
  (* the statistics of the stored data *)
  rewrite (get_node_stats_spec n Hn Cw Cs node_features' node_targets').
  - unfold world_pos_means, world_pos_meansqrs, diff_means, diff_meansqrs,
      stress_means, stress_meansqrs.
    destruct (group_standardized Cw n features_world_pos features_world_pos
                node_features node_features' muw sdw
                Hn Hlf Hfu eq_refl eq_refl Hzw HFw) as [-> ->].
    destruct (group_standardized Cw n targets_world_pos targets_world_pos
                node_targets node_targets' mud sdd
                Hn Hlt Hdu eq_refl eq_refl Hzd HFd) as [-> ->].
    destruct (group_standardized Cs n targets_stress targets_stress
                node_targets node_targets' mus sds
                Hn Hlt Hsu eq_refl eq_refl Hzs HFs) as [-> ->].
    reflexivity.
  - unfold Py.len in *. lia.
  - unfold Py.len in *. lia.
  - exact (group_uniform Cw _ _ muw sdw _ _ Hmw Hsw Hfu HFw).
  - pose proof (group_uniform Cw _ _ mud sdd _ _ Hmd Hsd Hdu HFd) as H1.
    pose proof (group_uniform Cs _ _ mus sds _ _ Hms Hss Hsu HFs) as H2.
    rewrite Forall_forall in *. intros t Ht. split; auto.
Qed.

Lemma normalized_edge_statistics_witness :
  exists st graphs',
    (0 < 2)%Z /\
    Py.len (map paired_graph [[[0]; [2]]; [[1]; [3]]]%R) = 2%Z /\
    map edata_x (map paired_graph [[[0]; [2]]; [[1]; [3]]]%R)
    = map Some [[[0]; [2]]; [[1]; [3]]]%R /\
    Forall (uniform_rows 1) [[[0]; [2]]; [[1]; [3]]]%R /\
    _get_edge_stats 2 (map paired_graph [[[0]; [2]]; [[1]; [3]]]%R)
    = Ok st /\
    Forall (fun s => s <> 0%R) (edge_std st) /\
    Py.for_loop (Py.range 2) (normalize_edge_step st)
                (map paired_graph [[[0]; [2]]; [[1]; [3]]]%R) = Ok graphs' /\
    _get_edge_stats 2 graphs' = Ok (mkEdgeStats [0%R] [1%R]).
Proof.
  set (xs := [[[0]; [2]]; [[1]; [3]]]%R : list tensor2).
  assert (Hu : Forall (uniform_rows 1) xs)
    by (repeat constructor; discriminate).
  assert (Hst : _get_edge_stats 2 (map paired_graph xs)
                = Ok (mkEdgeStats
                        (weighted_mean 1 2 (map mean0 xs))
                        (sqrt (zip_with Rminus
                                 (weighted_mean 1 2
                                    (map (fun x => mean0 (map square x)) xs))
                                 (square (weighted_mean 1 2
                                            (map mean0 xs))))))).
  { apply (get_edge_stats_spec 2 ltac:(lia) 1 (map paired_graph xs) xs);
      [reflexivity|reflexivity|exact Hu]. }
  assert (Hnz : Forall (fun s => s <> 0%R)
                       (sqrt (zip_with Rminus
                                (weighted_mean 1 2
                                   (map (fun x => mean0 (map square x)) xs))
                                (square (weighted_mean 1 2
                                           (map mean0 xs)))))).
  { cbn. constructor; [|constructor].
    apply Rgt_not_eq, Rlt_gt, sqrt_lt_R0. lra. }
  eexists. eexists.
  split; [lia|]. split; [reflexivity|]. split; [reflexivity|].
  split; [exact Hu|]. split; [exact Hst|]. split; [exact Hnz|].
  split; [reflexivity|].
  refine (normalized_edge_statistics 2 1 (map paired_graph xs) _ xs _
            ltac:(lia) eq_refl eq_refl Hu Hst Hnz eq_refl).
Defined.

Lemma normalized_node_statistics_witness :
  exists st node_features' node_targets',
    (0 < 2)%Z /\
    Py.len two_features = 2%Z /\
    Py.len two_targets = 2%Z /\
    Forall (fun f => uniform_rows 1 (concat (features_world_pos f)))
           two_features /\
    Forall (fun t => uniform_rows 1 (concat (targets_world_pos t)) /\
                     uniform_rows 1 (concat (targets_stress t)))
           two_targets /\
    _get_node_stats 2 two_features two_targets = Ok st /\
    Forall (fun s => s <> 0%R) (world_pos_std st) /\
    Forall (fun s => s <> 0%R) (world_pos_diff_std st) /\
    Forall (fun s => s <> 0%R) (stress_std st) /\
    Py.for_loop (Py.range 2) (normalize_node_step st)
                (two_features, two_targets)
    = Ok (node_features', node_targets') /\
    _get_node_stats 2 node_features' node_targets'
    = Ok (mkNodeStats [0%R] [1%R] [0%R] [1%R] [0%R] [1%R]).
Proof.
  assert (Hfu : Forall (fun f => uniform_rows 1 (concat (features_world_pos f)))
                       two_features)
    by (repeat constructor; discriminate).
  assert (Htu : Forall (fun t => uniform_rows 1 (concat (targets_world_pos t))
                                 /\ uniform_rows 1 (concat (targets_stress t)))
                       two_targets)
    by (repeat constructor; discriminate).
  pose proof (get_node_stats_spec 2 ltac:(lia) 1 1 two_features two_targets
                eq_refl eq_refl Hfu Htu) as Hst.
  match type of Hst with
  | _ = Ok ?st0 =>
      assert (Hnz : Forall (fun v => v <> 0%R) (world_pos_std st0) /\
                    Forall (fun v => v <> 0%R) (world_pos_diff_std st0) /\
                    Forall (fun v => v <> 0%R) (stress_std st0))
  end.
  { cbn. repeat split; (constructor; [|constructor]);
      apply Rgt_not_eq, Rlt_gt, sqrt_lt_R0; lra. }
  destruct Hnz as [Hzw [Hzd Hzs]].
  do 3 eexists.
  split; [lia|]. split; [reflexivity|]. split; [reflexivity|].
  split; [exact Hfu|]. split; [exact Htu|]. split; [exact Hst|].
  split; [exact Hzw|]. split; [exact Hzd|]. split; [exact Hzs|].
  split; [reflexivity|].
  refine (normalized_node_statistics 2 1 1 two_features _ two_targets _ _
            ltac:(lia) eq_refl eq_refl Hfu Htu Hst Hzw Hzd Hzs eq_refl).
Defined.

(** ** The records the constructor reads *)

Section Prefix.

Lemma for_loop_sim {S1 S2 : Type} (R : nat -> S1 -> S2 -> Prop)
      (b1 : Z -> S1 -> result S1) (b2 : Z -> S2 -> result S2)
      (n : nat) (s1 : S1) (s2 : S2) :
  R 0%nat s1 s2 ->
  (forall k a b, (k < n)%nat -> R k a b ->
                 agree (R (S k)) (b1 (Z.of_nat k) a) (b2 (Z.of_nat k) b)) ->
  agree (R n) (Py.for_loop (Py.range (Z.of_nat n)) b1 s1)
        (Py.for_loop (Py.range (Z.of_nat n)) b2 s2).
Proof.
  intros H0 Hstep. unfold Py.range. rewrite Nat2Z.id.
  assert (Hgen : forall m k a b, (k + m = n)%nat -> R k a b ->
            agree (R n) (Py.for_loop (map Z.of_nat (seq k m)) b1 a)
                  (Py.for_loop (map Z.of_nat (seq k m)) b2 b)).
  { induction m as [|m IH]; intros k a b Hk Hab; cbn [seq map Py.for_loop].
    - cbn [agree]. now replace n with k by lia.
    - pose proof (Hstep k a b ltac:(lia) Hab) as Hs.
      destruct (b1 (Z.of_nat k) a) as [a'|e1], (b2 (Z.of_nat k) b) as [b'|e2];
        cbn [agree bind] in *; try contradiction; [|exact Hs].
      apply IH; [lia|exact Hs]. }
  apply (Hgen n 0%nat); [lia|exact H0].
Qed.

Lemma skipn_nth_error {A : Type} (l : list A) (k : nat) (d : A) :
  nth_error l k = Some d -> skipn k l = d :: skipn (S k) l.
Proof.
  revert l; induction k as [|k IH]; intros [|x l]; simpl; try discriminate.
  - now intros [= ->].
  - apply IH.
Qed.

Variables (src : list trajectory) (N : nat).

Lemma get_next_prefix (k : nat) (it1 it2 : list trajectory) :
  (k < N)%nat -> in_step src N k it1 it2 ->
  agree (fun r1 r2 => fst r1 = fst r2 /\
                      in_step src N (S k) (snd r1) (snd r2))
        (get_next it1) (get_next it2).
Proof.
  intros Hk [-> ->].
  destruct (nth_error src k) as [d|] eqn:Hd.
  - assert (Hd' : nth_error (firstn N src) k = Some d).
    { rewrite nth_error_firstn.
      replace (k <? N)%nat with true by (symmetry; apply Nat.ltb_lt; lia).
      exact Hd. }
    rewrite (skipn_nth_error _ _ _ Hd), (skipn_nth_error _ _ _ Hd').
    cbn. repeat split.
  - apply nth_error_None in Hd.
    rewrite !skipn_all2 by (rewrite ?length_firstn; lia). reflexivity.
Qed.

Lemma graph_step_prefix (split0 : String.string) (T : Z) (k : nat)
      (it1 it2 : list trajectory) (gp : graph_phase) :
  (k < N)%nat -> in_step src N k it1 it2 ->
  agree (fun st1 st2 => in_step src N (S k) (fst st1) (fst st2) /\
                        snd st1 = snd st2)
        (graph_step split0 T (it1, gp)) (graph_step split0 T (it2, gp)).
Proof.
  intros Hk Hit. pose proof (get_next_prefix k it1 it2 Hk Hit) as Hnext.
  unfold graph_step.
  destruct (get_next it1) as [[d1 it1']|e1], (get_next it2) as [[d2 it2']|e2];
    cbn [agree fst snd] in Hnext; try contradiction;
    [|cbn [bind agree]; exact Hnext].
  destruct Hnext as [<- Hit']. cbn [bind].
  repeat same_bind; cbn [agree fst snd]; now split.
Qed.

Lemma feature_step_prefix (split0 : String.string) (T : Z) (noise : R)
      (mask : list (list bool)) (k : nat) (it1 it2 : list trajectory)
      (ft : list features_t * list targets_t) :
  (k < N)%nat -> in_step src N k it1 it2 ->
  agree (fun st1 st2 => in_step src N (S k) (fst st1) (fst st2) /\
                        snd st1 = snd st2)
        (feature_step split0 T noise mask (Z.of_nat k) (it1, ft))
        (feature_step split0 T noise mask (Z.of_nat k) (it2, ft)).
Proof.
  intros Hk Hit. pose proof (get_next_prefix k it1 it2 Hk Hit) as Hnext.
  unfold feature_step. destruct ft as [nf nt].
  destruct (get_next it1) as [[d1 it1']|e1], (get_next it2) as [[d2 it2']|e2];
    cbn [agree fst snd] in Hnext; try contradiction;
    [|cbn [bind agree]; exact Hnext].
  destruct Hnext as [<- Hit']. cbn [bind].
  repeat same_bind; cbn [agree fst snd _add_noise]; now split.
Qed.

End Prefix.

Lemma graph_loop_prefix (split0 : String.string) (n T : Z)
      (src : list trajectory) (gp0 : graph_phase) :
  agree (fun st1 st2 => snd st1 = snd st2)
        (Py.for_loop (Py.range n) (fun _ st => graph_step split0 T st)
                     (src, gp0))
        (Py.for_loop (Py.range n) (fun _ st => graph_step split0 T st)
                     (firstn (Z.to_nat n) src, gp0)).
Proof.
  rewrite (range_to_nat n). set (N := Z.to_nat n).
  pose proof (for_loop_sim
                (fun k st1 st2 => in_step src N k (fst st1) (fst st2) /\
                                  snd st1 = snd st2)
                (fun _ st => graph_step split0 T st)
                (fun _ st => graph_step split0 T st)
                N (src, gp0) (firstn N src, gp0)) as H.
  assert (Hloop : agree (fun st1 st2 =>
                           in_step src N N (fst st1) (fst st2) /\
                           snd st1 = snd st2)
                        (Py.for_loop (Py.range (Z.of_nat N))
                           (fun _ st => graph_step split0 T st) (src, gp0))
                        (Py.for_loop (Py.range (Z.of_nat N))
                           (fun _ st => graph_step split0 T st)
                           (firstn N src, gp0))).
  { apply H; [now split|].
    intros k [ia ga] [ib gb] Hk [Hit Hgp]. cbn [fst snd] in *. subst gb.
    exact (graph_step_prefix src N split0 T k ia ib ga Hk Hit). }
  destruct (Py.for_loop _ _ (src, gp0)), (Py.for_loop _ _ (firstn N src, gp0));
    cbn [agree] in *; tauto.
Qed.

Lemma feature_loop_prefix (split0 : String.string) (n T : Z) (noise : R)
      (mask : list (list bool)) (src : list trajectory)
      (ft0 : list features_t * list targets_t) :
  agree (fun st1 st2 => snd st1 = snd st2)
        (Py.for_loop (Py.range n) (feature_step split0 T noise mask)
                     (src, ft0))
        (Py.for_loop (Py.range n) (feature_step split0 T noise mask)
                     (firstn (Z.to_nat n) src, ft0)).
Proof.
  rewrite (range_to_nat n). set (N := Z.to_nat n).
  pose proof (for_loop_sim
                (fun k st1 st2 => in_step src N k (fst st1) (fst st2) /\
                                  snd st1 = snd st2)
                (feature_step split0 T noise mask)
                (feature_step split0 T noise mask)
                N (src, ft0) (firstn N src, ft0)) as H.
  assert (Hloop : agree (fun st1 st2 =>
                           in_step src N N (fst st1) (fst st2) /\
                           snd st1 = snd st2)
                        (Py.for_loop (Py.range (Z.of_nat N))
                           (feature_step split0 T noise mask) (src, ft0))
                        (Py.for_loop (Py.range (Z.of_nat N))
                           (feature_step split0 T noise mask)
                           (firstn N src, ft0))).
  { apply H; [now split|].
    intros k [ia fa] [ib fb] Hk [Hit Hft]. cbn [fst snd] in *. subst fb.
    exact (feature_step_prefix src N split0 T noise mask k ia ib fa Hk Hit). }
  destruct (Py.for_loop _ _ (src, ft0)), (Py.for_loop _ _ (firstn N src, ft0));
    cbn [agree] in *; tauto.
Qed.

(** X15.  The constructor reads the first [num_samples] records of the
    split, in both of its passes, and nothing after them: on the split cut
    down to its first [num_samples] records it gives the same dataset, or
    raises the same exception. *)
Theorem constructor_reads_first_records
        (fs : files) (split0 : String.string) (n T : Z) (noise : R) :
  __init__ fs split0 n T noise
  = __init__ (first_records fs n) split0 n T noise.
Proof.
  unfold __init__, first_records.
  cbn [tfrecord edge_stats_json node_stats_json].
  pose proof (graph_loop_prefix split0 n T (tfrecord fs)
                (mkGraphPhase [] [] [] [] [] [])) as Hg.
  destruct (Py.for_loop _ _ (tfrecord fs, _)) as [[it1 gp1]|e1],
           (Py.for_loop _ _ (firstn (Z.to_nat n) (tfrecord fs), _))
             as [[it2 gp2]|e2];
    cbn [agree fst snd bind] in *; try contradiction;
    [|now rewrite Hg].
  subst gp2.
  do 2 match goal with
       | |- bind ?m _ = bind ?m _ => destruct m; cbn [bind]; [|reflexivity]
       end.
  pose proof (feature_loop_prefix split0 n T noise (gp_noise_mask gp1)
                (tfrecord fs) ([], [])) as Hf.
  destruct (Py.for_loop _ _ (tfrecord fs, _)) as [[it3 ft1]|e3],
           (Py.for_loop _ _ (firstn (Z.to_nat n) (tfrecord fs), _))
             as [[it4 ft2]|e4];
    cbn [agree fst snd bind] in *; try contradiction;
    [|now rewrite Hf].
  subst ft2. reflexivity.
Qed.

(** X16.  Where the statistics come from: on the train split the
    constructor never reads the two statistics files, and on every other
    split the statistics of the dataset are those of the files, so that
    evaluation data are normalized with stored statistics and not with
    their own. *)
Theorem statistics_source
        (fs : files) (split0 : String.string) (n T : Z) (noise : R) :
  (forall es ns,
      __init__ (mkFiles (tfrecord fs) es ns) "train"%string n T noise
      = __init__ fs "train"%string n T noise) /\
  (String.eqb split0 "train"%string = false ->
   forall self,
     __init__ fs split0 n T noise = Ok self ->
     edge_stats_json fs = Ok (edge_stats self) /\
     node_stats_json fs = Ok (node_stats self)).
Proof.
  split.
  - intros es ns. reflexivity.
  - intros Hs self H. unfold __init__ in H. rewrite Hs in H.
    bind_inv H. destruct a as [it gp].
    bind_inv H. rename a into est.
    bind_inv H. bind_inv H. destruct a0 as [it' ft].
    bind_inv H. rename a0 into nst.
    bind_inv H. injection H as <-.
    cbn [edge_stats node_stats]. now split.
Qed.

Lemma statistics_source_witness :
  exists self,
    String.eqb "eval" "train" = false /\
    __init__ example_files "eval"%string 3 5 0 = Ok self /\
    edge_stats_json example_files = Ok (edge_stats self) /\
    node_stats_json example_files = Ok (node_stats self).
Proof.
  eexists. split; [reflexivity|]. split; [exact example_built_eq|].
  exact (proj2 (statistics_source example_files "eval"%string 3 5 0)
               eq_refl _ example_built_eq).
Defined.
